(** * Asset ingestion and metadata upsert of the skystore server

    A shallow embedding of [server/src/controllers/asset.controller.ts] and
    of the two implemented handlers of [server/src/routes/asset.routes.ts],
    together with the collaborators they call: the MinIO and Redis client
    wrappers ([server/src/clients]), the validation hook of
    [server/src/routes/base.ts] and the Prisma schema.

    Strings are sequences of code units below 256; on that range the string
    primitives below agree with their JavaScript counterparts. *)

From Stdlib Require Import ZArith Ascii String List Lia Bool.
From Stdlib.Strings Require Import Byte.
From Stdlib Require Import DecimalString DecimalN.
From stdpp Require Import gmap strings list.

Local Open Scope string_scope.

(** ** JavaScript string primitives used by the controller *)

Module Js.

(** A string is truthy when it is not empty ([!value], [a && b], [a || b]). *)
Definition truthy (s : string) : bool :=
  match s with
  | EmptyString => false
  | String _ _ => true
  end.

(** [a || b] on strings. *)
Definition orElse (a b : string) : string := if truthy a then a else b.

(** The class [\s] of regular expressions, on code units below 256:
    TAB, LF, VT, FF, CR, space and the no-break space. *)
Definition isWhiteSpace (c : ascii) : bool :=
  let n := N_of_ascii c in
  (((9 <=? n) && (n <=? 13)) || (n =? 32) || (n =? 160))%N.

(** The class [0-9]. *)
Definition isDigit (c : ascii) : bool :=
  let n := N_of_ascii c in ((48 <=? n) && (n <=? 57))%N.

(** Upper-case letters that [toLowerCase] maps 32 code units up:
    A-Z, and in the Latin-1 block U+00C0-U+00D6 and U+00D8-U+00DE. *)
Definition isUpper (c : ascii) : bool :=
  let n := N_of_ascii c in
  (((65 <=? n) && (n <=? 90)) || ((192 <=? n) && (n <=? 214))
   || ((216 <=? n) && (n <=? 222)))%N.

Definition lowerChar (c : ascii) : ascii :=
  if isUpper c then ascii_of_N (N_of_ascii c + 32) else c.

(** [s.toLowerCase()] *)
Fixpoint toLowerCase (s : string) : string :=
  match s with
  | EmptyString => EmptyString
  | String c r => String (lowerChar c) (toLowerCase r)
  end.

(** [s.replace(/[^0-9]/g, '')] *)
Fixpoint stripNonDigits (s : string) : string :=
  match s with
  | EmptyString => EmptyString
  | String c r =>
      if isDigit c then String c (stripNonDigits r) else stripNonDigits r
  end.

(** [s.replace(/\s+/g, '_')]: every maximal run of white space becomes one
    underscore. [inRun] tells that the previous code unit was white space
    whose underscore is already written. *)
Fixpoint underscoreRuns (inRun : bool) (s : string) : string :=
  match s with
  | EmptyString => EmptyString
  | String c r =>
      if isWhiteSpace c
      then (if inRun then underscoreRuns true r
            else String "_" (underscoreRuns true r))
      else String c (underscoreRuns false r)
  end.

Definition replaceWhitespace (s : string) : string := underscoreRuns false s.

(** [s.replace('.', '')]: a string pattern replaces the first occurrence
    only. *)
Fixpoint removeFirstDot (s : string) : string :=
  match s with
  | EmptyString => EmptyString
  | String c r => if Ascii.eqb c "." then r else String c (removeFirstDot r)
  end.

(** [parts.join(sep)] *)
Definition join (sep : string) (parts : list string) : string :=
  String.concat sep parts.

End Js.

(** ** The [path] module (POSIX flavour, as on the server's image) *)

Module path.

Definition isSlash (c : ascii) : bool := Ascii.eqb c "/".
Definition isDot (c : ascii) : bool := Ascii.eqb c ".".

Fixpoint dropWhile (p : ascii -> bool) (l : list ascii) : list ascii :=
  match l with
  | [] => []
  | c :: r => if p c then dropWhile p r else l
  end.

Fixpoint takeWhile (p : ascii -> bool) (l : list ascii) : list ascii :=
  match l with
  | [] => []
  | c :: r => if p c then c :: takeWhile p r else []
  end.

(** The last component of a path, read from its end as [basename] and
    [extname] scan it: trailing separators are skipped, then code units are
    taken up to the next separator. The result is in reverse order. *)
Definition lastComponentRev (p : string) : list ascii :=
  takeWhile (fun c => negb (isSlash c))
    (dropWhile isSlash (rev (list_ascii_of_string p))).

(** [path.basename(p)] *)
Definition basename (p : string) : string :=
  string_of_list_ascii (rev (lastComponentRev p)).

(** [path.extname(p)]: from the last dot of the last component to its end;
    empty when the component has no dot, when its only dot is its first
    code unit, and for the component [..]. *)
Definition extname (p : string) : string :=
  let comp := lastComponentRev p in
  let ext := takeWhile (fun c => negb (isDot c)) comp in
  match dropWhile (fun c => negb (isDot c)) comp with
  | [] => ""
  | _ :: [] => ""
  | _ :: before =>
      match ext, before with
      | [], [d] => if isDot d then ""
                   else string_of_list_ascii (rev (ext ++ ["."%char]))
      | _, _ => string_of_list_ascii (rev (ext ++ ["."%char]))
      end
  end.

End path.

(** ** [crypto.createHash('md5')]: the MD5 message digest (RFC 1321) *)

Module MD5.

Local Open Scope Z_scope.

Definition mask32 : Z := 0xffffffff.

Definition add32 (a b : Z) : Z := Z.land (a + b) mask32.

Definition not32 (a : Z) : Z := Z.lxor a mask32.

Definition rotl32 (x c : Z) : Z :=
  Z.land (Z.lor (Z.shiftl x c) (Z.shiftr x (32 - c))) mask32.

Definition shifts : list Z :=
  [7; 12; 17; 22; 7; 12; 17; 22; 7; 12; 17; 22; 7; 12; 17; 22;
   5;  9; 14; 20; 5;  9; 14; 20; 5;  9; 14; 20; 5;  9; 14; 20;
   4; 11; 16; 23; 4; 11; 16; 23; 4; 11; 16; 23; 4; 11; 16; 23;
   6; 10; 15; 21; 6; 10; 15; 21; 6; 10; 15; 21; 6; 10; 15; 21].

Definition sines : list Z :=
  [0xd76aa478; 0xe8c7b756; 0x242070db; 0xc1bdceee;
   0xf57c0faf; 0x4787c62a; 0xa8304613; 0xfd469501;
   0x698098d8; 0x8b44f7af; 0xffff5bb1; 0x895cd7be;
   0x6b901122; 0xfd987193; 0xa679438e; 0x49b40821;
   0xf61e2562; 0xc040b340; 0x265e5a51; 0xe9b6c7aa;
   0xd62f105d; 0x02441453; 0xd8a1e681; 0xe7d3fbc8;
   0x21e1cde6; 0xc33707d6; 0xf4d50d87; 0x455a14ed;
   0xa9e3e905; 0xfcefa3f8; 0x676f02d9; 0x8d2a4c8a;
   0xfffa3942; 0x8771f681; 0x6d9d6122; 0xfde5380c;
   0xa4beea44; 0x4bdecfa9; 0xf6bb4b60; 0xbebfbc70;
   0x289b7ec6; 0xeaa127fa; 0xd4ef3085; 0x04881d05;
   0xd9d4d039; 0xe6db99e5; 0x1fa27cf8; 0xc4ac5665;
   0xf4292244; 0x432aff97; 0xab9423a7; 0xfc93a039;
   0x655b59c3; 0x8f0ccc92; 0xffeff47d; 0x85845dd1;
   0x6fa87e4f; 0xfe2ce6e0; 0xa3014314; 0x4e0811a1;
   0xf7537e82; 0xbd3af235; 0x2ad7d2bb; 0xeb86d391].

Record state := State { sa : Z; sb : Z; sc : Z; sd : Z }.

Definition init : state :=
  State 0x67452301 0xefcdab89 0x98badcfe 0x10325476.

Definition byteZ (b : byte) : Z := Z.of_N (Byte.to_N b).

(** A 32-bit word from four bytes, least significant first. *)
Definition wordLE (bs : list Z) : Z :=
  match bs with
  | b0 :: b1 :: b2 :: b3 :: _ =>
      Z.lor b0 (Z.lor (Z.shiftl b1 8) (Z.lor (Z.shiftl b2 16) (Z.shiftl b3 24)))
  | _ => 0
  end.

Fixpoint wordsLE (n : nat) (bs : list Z) : list Z :=
  match n with
  | O => []
  | S k => wordLE bs :: wordsLE k (skipn 4 bs)
  end.

(** The [n] low bytes of [z], least significant first. *)
Fixpoint bytesLE (n : nat) (z : Z) : list Z :=
  match n with
  | O => []
  | S k => Z.land z 0xff :: bytesLE k (Z.shiftr z 8)
  end.

(** Padding: one bit, zeros up to 56 modulo 64, the length in bits on 64
    bits. *)
Definition pad (msg : list Z) : list Z :=
  let len := Z.of_nat (length msg) in
  let zeros := Z.to_nat ((55 - len) mod 64) in
  msg ++ [0x80] ++ repeat 0 zeros ++ bytesLE 8 (Z.land (8 * len) 0xffffffffffffffff).

Definition step (m : list Z) (i : nat) (s : state) : state :=
  let '(State a b c d) := s in
  let iz := Z.of_nat i in
  let '(f, g) :=
    if iz <? 16 then (Z.lor (Z.land b c) (Z.land (not32 b) d), iz)
    else if iz <? 32 then (Z.lor (Z.land d b) (Z.land (not32 d) c), (5 * iz + 1) mod 16)
    else if iz <? 48 then (Z.lxor b (Z.lxor c d), (3 * iz + 5) mod 16)
    else (Z.lxor c (Z.lor b (not32 d)), (7 * iz) mod 16) in
  let f' := add32 (add32 (add32 f a) (nth i sines 0)) (nth (Z.to_nat g) m 0) in
  State d (add32 b (rotl32 f' (nth i shifts 0))) b c.

Definition compress (s : state) (chunk : list Z) : state :=
  let m := wordsLE 16 chunk in
  let '(State a b c d) := fold_left (fun acc i => step m i acc) (seq 0 64) s in
  State (add32 (sa s) a) (add32 (sb s) b) (add32 (sc s) c) (add32 (sd s) d).

Fixpoint chunks (n : nat) (bs : list Z) (s : state) : state :=
  match n with
  | O => s
  | S k => chunks k (skipn 64 bs) (compress s (firstn 64 bs))
  end.

(** The 16 bytes of the digest. *)
Definition digest (content : list byte) : list Z :=
  let padded := pad (map byteZ content) in
  let '(State a b c d) := chunks (length padded / 64) padded init in
  bytesLE 4 a ++ bytesLE 4 b ++ bytesLE 4 c ++ bytesLE 4 d.

Definition hexDigit (z : Z) : ascii :=
  if z <? 10 then ascii_of_N (Z.to_N (48 + z)) else ascii_of_N (Z.to_N (87 + z)).

(** [.digest('hex')]: two lower-case hexadecimal digits per byte. *)
Fixpoint hex (bs : list Z) : string :=
  match bs with
  | [] => EmptyString
  | b :: r => String (hexDigit (Z.shiftr b 4)) (String (hexDigit (Z.land b 0xf)) (hex r))
  end.

Definition md5hex (content : list byte) : string := hex (digest content).

End MD5.

(** ** Data model (Prisma schema, [notes/Schema.md]) *)

(** The five descriptive fields, as the controller receives them. *)
Record MetaData := {
  asset_type : string;
  asset_class : string;
  asset_location_name : string;
  asset_camera : string;
  asset_date_label : string
}.

(** A row of table [asset_meta_base]; [asset_id] is unique and references
    [assets.uuid]. *)
Record AssetMetaBase := {
  meta_id : string;
  fields : MetaData;
  asset_id : string
}.

(** The columns of table [assets] that the controller supplies. *)
Record AssetData := {
  uuid : string;
  imported_fullpath : string;
  imported_filename : string;
  stored_fullpath : string;
  stored_url : string;
  size_bytes : nat;
  stored_filename : string;
  extension : string;
  hash : option string
}.

(** A row of table [assets]: [uploaded_at] defaults to the time of the
    insert. *)
Record AssetRow := {
  columns : AssetData;
  uploaded_at : nat
}.

(** What a query with [include: { meta_base: true }] returns. *)
Record Asset := {
  row : AssetRow;
  meta_base : option AssetMetaBase
}.

(** An uploaded [File]: [file.size] is the length of its content. *)
Record File := {
  file_name : string;
  file_type : string;
  file_bytes : list byte
}.

Definition file_size (f : File) : nat := length (file_bytes f).

(** An object of the bucket. *)
Record StoredObject := {
  object_data : list byte;
  object_size : nat;
  content_type : string
}.

(** The payload of an [asset_ingested] message. *)
Record AssetProjection := {
  ev_uuid : string;
  ev_filename : string;
  ev_url : string;
  ev_extension : string;
  ev_size : nat
}.

Record Message := {
  channel : string;
  ev_asset : AssetProjection;
  ev_meta : option AssetMetaBase
}.

(** Thrown values: the controller's own [ServerError] class, and any other
    [Error] (those of the MinIO, Redis and Prisma libraries). *)
Inductive Exn :=
| ServerError (message : string) (statusCode : nat)
| LibraryError (message : string).

Definition message (e : Exn) : string :=
  match e with
  | ServerError m _ => m
  | LibraryError m => m
  end.

Inductive Level := info | error | warn | debug.

Record LogEntry := {
  level : Level;
  text : string;
  detail : list string
}.

(** Calls that reach a service outside the process, in the order issued. *)
Inductive Call :=
| PutObject (objectName : string)
| PresignedGetObject (objectName : string)
| RemoveObject (objectName : string)
| AssetCreate (id : string)
| AssetFindUnique (id : string)
| MetaUpsert (id : string)
| Publish (chan : string).

(** The state outside the request handler: the bucket, the two tables (the
    metadata table is indexed by its unique [asset_id]), the messages
    delivered to the broker, the log, and the calls issued so far. *)
Record World := {
  bucket : gmap string StoredObject;
  assets : gmap string AssetRow;
  asset_meta_base : gmap string AssetMetaBase;
  published : list Message;
  logged : list LogEntry;
  calls : list Call
}.

Definition set_bucket (b : gmap string StoredObject) (w : World) : World :=
  {| bucket := b; assets := assets w; asset_meta_base := asset_meta_base w;
     published := published w; logged := logged w; calls := calls w |}.

Definition set_tables (a : gmap string AssetRow) (m : gmap string AssetMetaBase)
    (w : World) : World :=
  {| bucket := bucket w; assets := a; asset_meta_base := m;
     published := published w; logged := logged w; calls := calls w |}.

Definition add_published (msg : Message) (w : World) : World :=
  {| bucket := bucket w; assets := assets w; asset_meta_base := asset_meta_base w;
     published := published w ++ [msg]; logged := logged w; calls := calls w |}.

Definition add_logged (e : LogEntry) (w : World) : World :=
  {| bucket := bucket w; assets := assets w; asset_meta_base := asset_meta_base w;
     published := published w; logged := logged w ++ [e]; calls := calls w |}.

Definition add_call (c : Call) (w : World) : World :=
  {| bucket := bucket w; assets := assets w; asset_meta_base := asset_meta_base w;
     published := published w; logged := logged w; calls := calls w ++ [c] |}.

(** What the handler does not decide: the values drawn during a request, and
    for each call to a service whether it fails, and with which message. *)
Record Env := {
  randomUUID : string;
  metaRowId : string;
  now : nat;
  presignedUrl : string -> string;
  putObject_fault : option string;
  presignedGetObject_fault : option string;
  removeObject_fault : option string;
  assetCreate_fault : option string;
  publish_fault : option string;
  findUnique_fault : option string;
  upsert_fault : option string;
  refetch_fault : option string
}.

(** ** Asynchronous computations: a promise resolves or rejects *)

Inductive Outcome (A : Type) :=
| Resolved (a : A)
| Rejected (e : Exn).

Arguments Resolved {A} a.
Arguments Rejected {A} e.

Definition Async (A : Type) : Type := World -> Outcome A * World.

Definition resolve {A} (a : A) : Async A := fun w => (Resolved a, w).

Definition throw {A} (e : Exn) : Async A := fun w => (Rejected e, w).

(** [await c; k] *)
Definition await {A B} (c : Async A) (k : A -> Async B) : Async B :=
  fun w =>
    match c w with
    | (Resolved a, w') => k a w'
    | (Rejected e, w') => (Rejected e, w')
    end.

(** [try { body } catch (e) { handler }] *)
Definition tryCatch {A} (body : Async A) (handler : Exn -> Async A) : Async A :=
  fun w =>
    match body w with
    | (Resolved a, w') => (Resolved a, w')
    | (Rejected e, w') => handler e w'
    end.

Declare Scope async_scope.
Delimit Scope async_scope with async.
Notation "'let!' x := c 'in' k" := (await c (fun x => k))
  (at level 10, x name, c at level 100, k at level 200) : async_scope.
Notation "c ;;; k" := (await c (fun _ => k))
  (at level 100, k at level 200, right associativity) : async_scope.
Local Open Scope async_scope.

(** ** The collaborators *)

(** Modelled from the spec: the logger ([server/src/logger.ts], which is not
    among the sources). The spec only says that events are logged: an entry
    with its level ([logger.info], [logger.error], [logger.warn],
    [logger.debug]), its text and the strings among the values attached is
    appended to the log. *)
Module logger.

Definition write (l : Level) (msg : string) (meta : list string) : Async unit :=
  fun w => (Resolved tt, add_logged {| level := l; text := msg; detail := meta |} w).

End logger.

Section Collaborators.

Variable env : Env.

(** *** The [minio] library's [Client], on the configured bucket *)

Definition putObject (objectName : string) (data : list byte) (size : nat)
    (contentType : string) : Async unit :=
  fun w =>
    let w := add_call (PutObject objectName) w in
    match putObject_fault env with
    | Some m => (Rejected (LibraryError m), w)
    | None =>
        let obj := {| object_data := data; object_size := size;
                      content_type := contentType |} in
        (Resolved tt, set_bucket (<[objectName := obj]> (bucket w)) w)
    end.

Definition presignedGetObject (objectName : string) : Async string :=
  fun w =>
    let w := add_call (PresignedGetObject objectName) w in
    match presignedGetObject_fault env with
    | Some m => (Rejected (LibraryError m), w)
    | None => (Resolved (presignedUrl env objectName), w)
    end.

Definition removeObject (objectName : string) : Async unit :=
  fun w =>
    let w := add_call (RemoveObject objectName) w in
    match removeObject_fault env with
    | Some m => (Rejected (LibraryError m), w)
    | None => (Resolved tt, set_bucket (delete objectName (bucket w)) w)
    end.

(** *** [MinioClient] ([clients/minio.ts]), once initialised at start-up *)

Definition uploadObject (objectName : string) (data : list byte) (size : nat)
    (contentType : string) : Async unit :=
  tryCatch
    (putObject objectName data size contentType ;;;
     logger.write info ("Uploaded object: " ++ objectName) [])
    (fun e =>
       logger.write error ("Error uploading object: " ++ objectName) [message e] ;;;
       throw e).

Definition deleteObject (objectName : string) : Async unit :=
  tryCatch
    (removeObject objectName ;;;
     logger.write info ("Deleted object: " ++ objectName) [])
    (fun e =>
       logger.write error ("Error deleting object: " ++ objectName) [message e] ;;;
       throw e).

Definition getPresignedUrl (objectName : string) : Async string :=
  tryCatch
    (presignedGetObject objectName)
    (fun e =>
       logger.write error ("Error generating presigned URL for: " ++ objectName)
         [message e] ;;;
       throw e).

(** *** [RedisClient.publish] ([clients/redis.ts]), once initialised *)

(** The client is taken to be initialised: the lazy [initialize] that the
    first [publish] of a process runs before it, and the entries that it
    logs, are not part of the model. *)

Definition ioredis_publish (msg : Message) : Async unit :=
  fun w =>
    let w := add_call (Publish (channel msg)) w in
    match publish_fault env with
    | Some m => (Rejected (LibraryError m), w)
    | None => (Resolved tt, add_published msg w)
    end.

Definition publish (msg : Message) : Async unit :=
  tryCatch
    (ioredis_publish msg ;;;
     logger.write debug ("Published message to channel: " ++ channel msg) [])
    (fun e =>
       logger.write error ("Error publishing message to channel: " ++ channel msg)
         [message e] ;;;
       throw e).

(** *** The Prisma client, over the two tables *)

(** [prisma.asset.create({ data, include: { meta_base: true } })], with
    the nested [meta_base: { create }] when [nested] is given. The insert is
    one transaction; it is refused when the primary key [uuid], or the
    unique [asset_id] of the nested row, is taken. *)
Definition asset_create (data : AssetData) (nested : option MetaData) : Async Asset :=
  fun w =>
    let w := add_call (AssetCreate (uuid data)) w in
    match assetCreate_fault env with
    | Some m => (Rejected (LibraryError m), w)
    | None =>
        match assets w !! uuid data with
        | Some _ =>
            (Rejected (LibraryError "Unique constraint failed on the fields: (`uuid`)"), w)
        | None =>
            let r := {| columns := data; uploaded_at := now env |} in
            match nested with
            | None =>
                (Resolved {| row := r; meta_base := None |},
                 set_tables (<[uuid data := r]> (assets w)) (asset_meta_base w) w)
            | Some m =>
                match asset_meta_base w !! uuid data with
                | Some _ =>
                    (Rejected
                       (LibraryError "Unique constraint failed on the fields: (`asset_id`)"),
                     w)
                | None =>
                    let mb := {| meta_id := metaRowId env; fields := m;
                                 asset_id := uuid data |} in
                    (Resolved {| row := r; meta_base := Some mb |},
                     set_tables (<[uuid data := r]> (assets w))
                       (<[uuid data := mb]> (asset_meta_base w)) w)
                end
            end
        end
    end.

(** [prisma.asset.findUnique({ where: { uuid }, include: { meta_base: true } })] *)
Definition asset_findUnique (fault : option string) (id : string)
    : Async (option Asset) :=
  fun w =>
    let w := add_call (AssetFindUnique id) w in
    match fault with
    | Some m => (Rejected (LibraryError m), w)
    | None =>
        (Resolved
           (match assets w !! id with
            | Some r => Some {| row := r; meta_base := asset_meta_base w !! id |}
            | None => None
            end), w)
    end.

(** [prisma.assetMetaBase.upsert({ where: { asset_id }, update, create })]:
    the row of that asset gets the five fields of [update] when it exists;
    otherwise a row is created from [create], connected to the asset, which
    the foreign key requires to exist. *)
Definition assetMetaBase_upsert (id : string) (update create : MetaData)
    : Async AssetMetaBase :=
  fun w =>
    let w := add_call (MetaUpsert id) w in
    match upsert_fault env with
    | Some m => (Rejected (LibraryError m), w)
    | None =>
        match asset_meta_base w !! id with
        | Some old =>
            let mb := {| meta_id := meta_id old; fields := update;
                         asset_id := asset_id old |} in
            (Resolved mb, set_tables (assets w) (<[id := mb]> (asset_meta_base w)) w)
        | None =>
            match assets w !! id with
            | None =>
                (Rejected (LibraryError "No 'Asset' record was found for a connect"), w)
            | Some _ =>
                let mb := {| meta_id := metaRowId env; fields := create;
                             asset_id := id |} in
                (Resolved mb,
                 set_tables (assets w) (<[id := mb]> (asset_meta_base w)) w)
            end
        end
    end.

End Collaborators.

(** ** [AssetController] ([controllers/asset.controller.ts]) *)

Module AssetController.
Section Controller.

Variable env : Env.

(** The storage path computed in the [try] block of [ingestAsset], from the
    extension already held in [fileExtension]. *)
Definition storedPathForUpload (assetUuid fileExtension : string)
    (metaData : option MetaData) : string :=
  match metaData with
  | Some metaData =>
      let datePart := Js.stripNonDigits (asset_date_label metaData) in
      let metaPath :=
        Js.join "/"
          [ asset_type metaData;
            asset_class metaData;
            Js.toLowerCase (Js.replaceWhitespace (asset_location_name metaData));
            Js.toLowerCase (Js.replaceWhitespace (asset_camera metaData));
            Js.orElse datePart "undated" ] in
      let storedFilename := assetUuid ++ fileExtension in
      "assets/" ++ metaPath ++ "/" ++ storedFilename
  | None =>
      let storedFilename := assetUuid ++ fileExtension in
      "assets/unclassified/" ++ storedFilename
  end.

(** The storage path computed again in the [catch] block, from the file
    name. *)
Definition storedPathForCleanup (assetUuid : string) (file : File)
    (metaData : option MetaData) : string :=
  match metaData with
  | Some metaData =>
      let datePart := Js.stripNonDigits (asset_date_label metaData) in
      let metaPath :=
        Js.join "/"
          [ asset_type metaData;
            asset_class metaData;
            Js.toLowerCase (Js.replaceWhitespace (asset_location_name metaData));
            Js.toLowerCase (Js.replaceWhitespace (asset_camera metaData));
            Js.orElse datePart "undated" ] in
      let storedFilename := assetUuid ++ path.extname (file_name file) in
      "assets/" ++ metaPath ++ "/" ++ storedFilename
  | None =>
      let storedFilename := assetUuid ++ path.extname (file_name file) in
      "assets/unclassified/" ++ storedFilename
  end.

Definition ingestAsset (file : File) (metaData : option MetaData) : Async Asset :=
  let assetUuid := randomUUID env in
  logger.write info ("Starting asset ingestion: " ++ assetUuid)
    [file_name file; file_type file] ;;;
  tryCatch
    ((* 1. Prepare file data *)
     let fileContent := file_bytes file in
     let fileExtension := path.extname (file_name file) in
     let originalFilename := file_name file in
     let storedPath := storedPathForUpload assetUuid fileExtension metaData in
     (* 2. Upload file to MinIO *)
     logger.write info ("Uploading file to MinIO: " ++ storedPath) [] ;;;
     uploadObject env storedPath fileContent (file_size file) (file_type file) ;;;
     (* 3. Generate a presigned URL for accessing the file *)
     let! storedUrl := getPresignedUrl env storedPath in
     (* 4. Create the asset record in the database *)
     logger.write info ("Creating asset record in database: " ++ assetUuid) [] ;;;
     let assetData :=
       {| uuid := assetUuid;
          imported_fullpath := originalFilename;
          imported_filename := path.basename originalFilename;
          stored_fullpath := storedPath;
          stored_url := storedUrl;
          size_bytes := file_size file;
          stored_filename := path.basename storedPath;
          extension := Js.removeFirstDot fileExtension;
          hash := Some (MD5.md5hex fileContent) |} in
     let! asset := asset_create env assetData metaData in
     (* 5. Emit a Redis event for the newly ingested asset *)
     logger.write info ("Emitting asset_ingested event for: " ++ assetUuid) [] ;;;
     publish env
       {| channel := "asset_ingested";
          ev_asset :=
            {| ev_uuid := uuid (columns (row asset));
               ev_filename := imported_filename (columns (row asset));
               ev_url := stored_url (columns (row asset));
               ev_extension := extension (columns (row asset));
               ev_size := size_bytes (columns (row asset)) |};
          ev_meta := meta_base asset |} ;;;
     logger.write info ("Asset ingestion completed successfully: " ++ assetUuid) [] ;;;
     resolve asset)
    (fun err =>
       logger.write error "Asset ingestion failed:"
         [message err; assetUuid; file_name file] ;;;
       (* If there's an error, try to clean up any partial uploads *)
       tryCatch
         (let storedPath := storedPathForCleanup assetUuid file metaData in
          deleteObject env storedPath ;;;
          logger.write info ("Cleaned up failed upload: " ++ storedPath) [])
         (fun cleanupError =>
            logger.write error "Failed to clean up after failed asset ingestion:"
              [message cleanupError]) ;;;
       match err with
       | ServerError _ _ => throw err
       | LibraryError _ => throw (ServerError "Failed to ingest asset" 500)
       end).

Definition upsertMetadata (assetUuid : string) (metaData : MetaData)
    : Async (option Asset) :=
  logger.write info ("Upserting metadata for asset: " ++ assetUuid) [] ;;;
  tryCatch
    ((* 1. Check if the asset exists *)
     let! existingAsset := asset_findUnique (findUnique_fault env) assetUuid in
     match existingAsset with
     | None =>
         logger.write error ("Asset not found: " ++ assetUuid) [] ;;;
         throw (ServerError "Asset not found" 404)
     | Some _ =>
         (* 2. Upsert the metadata *)
         let update :=
           {| asset_type := asset_type metaData;
              asset_class := asset_class metaData;
              asset_location_name := asset_location_name metaData;
              asset_camera := asset_camera metaData;
              asset_date_label := asset_date_label metaData |} in
         let create :=
           {| asset_type := asset_type metaData;
              asset_class := asset_class metaData;
              asset_location_name := asset_location_name metaData;
              asset_camera := asset_camera metaData;
              asset_date_label := asset_date_label metaData |} in
         let! metaBase := assetMetaBase_upsert env assetUuid update create in
         logger.write info ("Metadata upserted successfully for asset: " ++ assetUuid) [] ;;;
         (* 3. Return the updated asset with metadata *)
         let! updatedAsset := asset_findUnique (refetch_fault env) assetUuid in
         resolve updatedAsset
     end)
    (fun err =>
       logger.write error "Metadata upsert failed:" [message err; assetUuid] ;;;
       match err with
       | ServerError _ _ => throw err
       | LibraryError _ => throw (ServerError "Failed to upsert metadata" 500)
       end).

End Controller.
End AssetController.

(** ** The HTTP surface ([routes/base.ts], [routes/asset.routes.ts]) *)

(** The five form or JSON fields of a request body; [None] is a field that
    the request does not carry ([undefined] in the handler). *)
Record MetaFields := {
  body_asset_type : option string;
  body_asset_class : option string;
  body_asset_location_name : option string;
  body_asset_camera : option string;
  body_asset_date_label : option string
}.

(** The body of [POST /assets/ingest]; [body_file] is [None] when the part is
    absent or is not a [File]. *)
Record IngestBody := {
  body_file : option File;
  body_meta : MetaFields
}.

(** Truthiness of a field: present and not empty. *)
Definition present (v : option string) : bool :=
  match v with
  | Some s => Js.truthy s
  | None => false
  end.

(** [Object.entries] of the object built from the five fields, in the order
    the handlers write them. *)
Definition entries (m : MetaFields) : list (string * option string) :=
  [ ("asset_type", body_asset_type m);
    ("asset_class", body_asset_class m);
    ("asset_location_name", body_asset_location_name m);
    ("asset_camera", body_asset_camera m);
    ("asset_date_label", body_asset_date_label m) ].

(** [value[field]] *)
Definition property (m : MetaFields) (field : string) : option string :=
  match List.find (fun kv => String.eqb (fst kv) field) (entries m) with
  | Some kv => snd kv
  | None => None
  end.

(** The object handed to the controller. The handlers hand it over only once
    the five fields are known to be strings; an absent field has no string to
    give and is read as the empty one. *)
Definition metadataOf (m : MetaFields) : MetaData :=
  {| asset_type := default "" (body_asset_type m);
     asset_class := default "" (body_asset_class m);
     asset_location_name := default "" (body_asset_location_name m);
     asset_camera := default "" (body_asset_camera m);
     asset_date_label := default "" (body_asset_date_label m) |}.

Record InvalidField := {
  field : string;
  expected : string;
  received : string
}.

(** The result of [formatValidationError]. *)
Record FormattedError := {
  fe_type : string;
  fe_message : string;
  missing_required_fields : list string;
  invalid_fields : list InvalidField;
  received_value : MetaFields
}.

(** [RestResult<T>] of [types/server.d.ts], at the type of error details. *)
Record RestResult := {
  http_status : nat;
  success : bool;
  rest_message : string;
  content : option FormattedError
}.

Definition makeErrorResult (msg : string) (http_status : nat)
    (content : FormattedError) : RestResult :=
  {| http_status := http_status; success := false; rest_message := msg;
     content := Some content |}.

Inductive Reply :=
| Success (data : option Asset)
| Failure (error : string)
| ErrorResult (r : RestResult).

Record Response := {
  status : nat;
  reply : Reply
}.

(** The framework's error for a body that does not fit the route's schema. *)
Record ValidationError := {
  ve_type : string;
  ve_value : MetaFields;
  schema_required : list string
}.

Module base.

Definition dquote : string := String (ascii_of_nat 34) EmptyString.

(** The sentence about missing fields. *)
Definition requiredSentence (missingFields : list string) : list string :=
  match missingFields with
  | [] => []
  | [f] => ["The field " ++ dquote ++ f ++ dquote ++ " is required"]
  | _ =>
      let lastField := List.last missingFields "" in
      let otherFields :=
        Js.join (dquote ++ ", " ++ dquote) (removelast missingFields) in
      ["The fields " ++ dquote ++ otherFields ++ dquote ++ " and "
         ++ dquote ++ lastField ++ dquote ++ " are required"]
  end.

(** [formatValidationError]. Every value a [MetaFields] carries is a string
    and every declared property type is [string], so no field is reported
    as invalid. *)
Definition formatValidationError (e : ValidationError) : Async FormattedError :=
  logger.write debug "Processing validation error:" [] ;;;
  logger.write debug "Validation error details:" [ve_type e] ;;;
  let requiredFields := schema_required e in
  let missingFields :=
    List.filter (fun f => negb (present (property (ve_value e) f))) requiredFields in
  let invalidFields : list InvalidField := [] in
  logger.write debug "Validation analysis:" missingFields ;;;
  let messages := requiredSentence missingFields in
  let msg := Js.join ". " messages in
  logger.write debug "Generated validation error message:" [msg] ;;;
  resolve
    {| fe_type := ve_type e;
       fe_message := Js.orElse msg "Validation failed";
       missing_required_fields := missingFields;
       invalid_fields := invalidFields;
       received_value := ve_value e |}.

(** The [onError] hook of [createBaseRoute], for [code === 'VALIDATION']. *)
Definition onValidationError (prefix : string) (e : ValidationError)
    : Async Response :=
  logger.write error ("Error in " ++ prefix ++ " route:") ["VALIDATION"] ;;;
  let! formattedError := formatValidationError e in
  logger.write warn ("Validation error in " ++ prefix ++ " route:")
    (fe_message formattedError :: missing_required_fields formattedError) ;;;
  resolve
    {| status := 400;
       reply := ErrorResult
                  (makeErrorResult (fe_message formattedError) 400 formattedError) |}.

End base.

Module assetRoutes.
Section Routes.

Variable env : Env.

(** [error instanceof Error && 'statusCode' in error ? error.statusCode : 500] *)
Definition statusCodeOf (e : Exn) : nat :=
  match e with
  | ServerError _ c => c
  | LibraryError _ => 500
  end.

(** The handler of [POST /assets/ingest]; its schema makes the five fields
    optional and accepts any [file]. *)
Definition postIngest (body : IngestBody) : Async Response :=
  tryCatch
    (match body_file body with
     | None =>
         resolve {| status := 400;
                    reply := Failure "No file provided or invalid file" |}
     | Some file =>
         let m := body_meta body in
         (* Check if all metadata fields are provided *)
         let hasAllMetadataFields :=
           present (body_asset_type m) && present (body_asset_class m)
           && present (body_asset_location_name m) && present (body_asset_camera m)
           && present (body_asset_date_label m) in
         let! asset :=
           if hasAllMetadataFields
           then
             let metadata := metadataOf m in
             logger.write info "Ingesting asset with metadata"
               [file_name file; file_type file] ;;;
             AssetController.ingestAsset env file (Some metadata)
           else
             logger.write info "Ingesting asset without metadata"
               [file_name file; file_type file] ;;;
             AssetController.ingestAsset env file None in
         resolve {| status := 200; reply := Success (Some asset) |}
     end)
    (fun err =>
       logger.write error "Failed to ingest asset:" [message err] ;;;
       resolve {| status := statusCodeOf err; reply := Failure (message err) |}).

(** The handler of [POST /assets/:uuid/metadata]. *)
Definition postMetadata (uuid : string) (body : MetaFields) : Async Response :=
  tryCatch
    ((* Validate required metadata fields *)
     let missingFields :=
       List.map fst (List.filter (fun kv => negb (present (snd kv))) (entries body)) in
     if (0 <? length missingFields)%nat
     then
       resolve {| status := 400;
                  reply := Failure ("Missing required metadata fields: "
                                    ++ Js.join ", " missingFields) |}
     else
       logger.write info "Upserting metadata for asset" [uuid] ;;;
       let! asset := AssetController.upsertMetadata env uuid (metadataOf body) in
       resolve {| status := 200; reply := Success asset |})
    (fun err =>
       logger.write error "Failed to upsert metadata:" [message err] ;;;
       resolve {| status := statusCodeOf err; reply := Failure (message err) |}).

(** The body schema of the metadata route: five required strings. *)
Definition metadataSchemaRequired : list string :=
  ["asset_type"; "asset_class"; "asset_location_name"; "asset_camera";
   "asset_date_label"].

Definition fitsMetadataSchema (body : MetaFields) : bool :=
  forallb (fun f => bool_decide (is_Some (property body f))) metadataSchemaRequired.

(** [POST /assets/:uuid/metadata] as served: the framework checks the body
    against the schema and gives a body that does not fit to the [onError]
    hook; the handler runs on the others. *)
Definition serveMetadata (uuid : string) (body : MetaFields) : Async Response :=
  if fitsMetadataSchema body
  then postMetadata uuid body
  else base.onValidationError "/assets"
         {| ve_type := "body"; ve_value := body;
            schema_required := metadataSchemaRequired |}.

End Routes.
End assetRoutes.

(** ** Sample inputs *)

Definition emptyWorld : World :=
  {| bucket := ∅; assets := ∅; asset_meta_base := ∅;
     published := []; logged := []; calls := [] |}.

(** An environment in which every service answers. *)
Definition calm : Env :=
  {| randomUUID := "0b1c";
     metaRowId := "77aa";
     now := 1;
     presignedUrl := fun objectName => "http://minio/default/" ++ objectName;
     putObject_fault := None;
     presignedGetObject_fault := None;
     removeObject_fault := None;
     assetCreate_fault := None;
     publish_fault := None;
     findUnique_fault := None;
     upsert_fault := None;
     refetch_fault := None |}.

Definition lakeHouse : MetaData :=
  {| asset_type := "img";
     asset_class := "family";
     asset_location_name := "Lake House";
     asset_camera := "Canon R5";
     asset_date_label := "2024-07-01" |}.

(** A file of 1024 zero bytes. *)
Definition photo : File :=
  {| file_name := "photo.jpg"; file_type := "image/jpeg";
     file_bytes := repeat x00 1024 |}.

(** A file whose name has an upper-case suffix. *)
Definition scan : File :=
  {| file_name := "SCAN.JPG"; file_type := "image/jpeg";
     file_bytes := [x01; x02; x03] |}.

(** The fields of the scenario, without the camera, and with an empty one. *)
Definition withoutCamera : MetaFields :=
  {| body_asset_type := Some "img";
     body_asset_class := Some "family";
     body_asset_location_name := Some "Lake House";
     body_asset_camera := None;
     body_asset_date_label := Some "2024-07-01" |}.

Definition emptyCamera : MetaFields :=
  {| body_asset_type := Some "img";
     body_asset_class := Some "family";
     body_asset_location_name := Some "Lake House";
     body_asset_camera := Some "";
     body_asset_date_label := Some "2024-07-01" |}.

(** The world after [photo] has been ingested without metadata. *)
Definition stocked : World :=
  snd (AssetController.ingestAsset calm photo None emptyWorld).

(** ** Vocabulary of the statements *)

(** The message with which [prisma.asset.create] is refused for the asset
    [id], if it is: a failure of the database, or one of the two unique
    constraints. *)
Definition createRefusal (env : Env) (id : string) (nested : option MetaData)
    (w : World) : option string :=
  match assetCreate_fault env with
  | Some m => Some m
  | None =>
      match assets w !! id with
      | Some _ => Some "Unique constraint failed on the fields: (`uuid`)"
      | None =>
          match nested, asset_meta_base w !! id with
          | Some _, Some _ => Some "Unique constraint failed on the fields: (`asset_id`)"
          | _, _ => None
          end
      end
  end.

(** Steps 1 to 7 go through: the upload, the presigned URL and the database
    write. *)
Definition persists (env : Env) (nested : option MetaData) (w : World) : Prop :=
  putObject_fault env = None /\
  presignedGetObject_fault env = None /\
  createRefusal env (randomUUID env) nested w = None.

(** The database answers the three queries of [upsertMetadata]. *)
Definition answers (env : Env) : Prop :=
  findUnique_fault env = None /\ upsert_fault env = None /\ refetch_fault env = None.

(** A code unit occurs in a string. *)
Fixpoint occurs (c : ascii) (s : string) : bool :=
  match s with
  | EmptyString => false
  | String d r => Ascii.eqb c d || occurs c r
  end.

(** The test suite of RFC 1321 (appendix A.5): messages and their MD5
    digests. *)
Definition rfc1321_test_suite : list (string * string) :=
  [ ("", "d41d8cd98f00b204e9800998ecf8427e");
    ("a", "0cc175b9c0f1b6a831c399e269772661");
    ("abc", "900150983cd24fb0d6963f7d28e17f72");
    ("message digest", "f96b697d7cb7938d525a2f31aaf161d0");
    ("abcdefghijklmnopqrstuvwxyz", "c3fcd3d76192e4007dfb496cca67e13b");
    ("ABCDEFGHIJKLMNOPQRSTUVWXYZabcdefghijklmnopqrstuvwxyz0123456789",
     "d174ab98d277d9f5a5611c2c9f419d9f");
    ("12345678901234567890123456789012345678901234567890123456789012345678901234567890",
     "57edf4a22be3c955ac49da2e2107b67a") ].

(** A lower-case hexadecimal digit. *)
Definition isLowerHex (c : ascii) : bool :=
  let n := N_of_ascii c in
  (((48 <=? n) && (n <=? 57)) || ((97 <=? n) && (n <=? 102)))%N.

Fixpoint allChars (p : ascii -> bool) (s : string) : bool :=
  match s with
  | EmptyString => true
  | String c r => p c && allChars p r
  end.

(** The object that a call to the object store names. *)
Definition objectOf (c : Call) : option string :=
  match c with
  | PutObject p | PresignedGetObject p | RemoveObject p => Some p
  | _ => None
  end.

(** The names of the fields of a body that are absent or empty. *)
Definition missingOf (body : MetaFields) : list string :=
  List.map fst (List.filter (fun kv => negb (present (snd kv))) (entries body)).

(** A body without any of the five fields. *)
Definition noFields : MetaFields :=
  {| body_asset_type := None; body_asset_class := None;
     body_asset_location_name := None; body_asset_camera := None;
     body_asset_date_label := None |}.

(** [calm], with the named calls failing. *)
Definition failing (create publish remove : option string) : Env :=
  {| randomUUID := randomUUID calm;
     metaRowId := metaRowId calm;
     now := now calm;
     presignedUrl := presignedUrl calm;
     putObject_fault := None;
     presignedGetObject_fault := None;
     removeObject_fault := remove;
     assetCreate_fault := create;
     publish_fault := publish;
     findUnique_fault := None;
     upsert_fault := None;
     refetch_fault := None |}.

(** [env], with the delete of an object answered as [r] says. *)
Definition withRemoval (r : option string) (env : Env) : Env :=
  {| randomUUID := randomUUID env;
     metaRowId := metaRowId env;
     now := now env;
     presignedUrl := presignedUrl env;
     putObject_fault := putObject_fault env;
     presignedGetObject_fault := presignedGetObject_fault env;
     removeObject_fault := r;
     assetCreate_fault := assetCreate_fault env;
     publish_fault := publish_fault env;
     findUnique_fault := findUnique_fault env;
     upsert_fault := upsert_fault env;
     refetch_fault := refetch_fault env |}.

(** ** How far an ingestion gets *)

(** The step at which [ingestAsset] stops. *)
Inductive Progress :=
| StoppedAtUpload
| StoppedAtUrl
| StoppedAtCreate
| StoppedAtPublish
| Completed.

Definition progress (env : Env) (nested : option MetaData) (w : World) : Progress :=
  match putObject_fault env with
  | Some _ => StoppedAtUpload
  | None =>
      match presignedGetObject_fault env with
      | Some _ => StoppedAtUrl
      | None =>
          match createRefusal env (randomUUID env) nested w with
          | Some _ => StoppedAtCreate
          | None =>
              match publish_fault env with
              | Some _ => StoppedAtPublish
              | None => Completed
              end
          end
      end
  end.

(** The row has been written when the ingestion got past the database. *)
Definition wrote (p : Progress) : bool :=
  match p with
  | StoppedAtPublish | Completed => true
  | _ => false
  end.

(** The calls of an ingestion that stops at [p], for the object [o] and the
    asset [id]. *)
Definition callsUpTo (p : Progress) (o id : string) : list Call :=
  match p with
  | StoppedAtUpload => [PutObject o; RemoveObject o]
  | StoppedAtUrl => [PutObject o; PresignedGetObject o; RemoveObject o]
  | StoppedAtCreate =>
      [PutObject o; PresignedGetObject o; AssetCreate id; RemoveObject o]
  | StoppedAtPublish =>
      [PutObject o; PresignedGetObject o; AssetCreate id; Publish "asset_ingested";
       RemoveObject o]
  | Completed =>
      [PutObject o; PresignedGetObject o; AssetCreate id; Publish "asset_ingested"]
  end.

(** Referential integrity of the two tables: a metadata row is filed under
    its [asset_id], and that asset exists. *)
Definition consistent (w : World) : Prop :=
  forall id mb,
    asset_meta_base w !! id = Some mb ->
    asset_id mb = id /\ is_Some (assets w !! id).

(** [calm], with the object store refusing the upload. *)
Definition uploadDown : Env :=
  {| randomUUID := randomUUID calm;
     metaRowId := metaRowId calm;
     now := now calm;
     presignedUrl := presignedUrl calm;
     putObject_fault := Some "bucket is unreachable";
     presignedGetObject_fault := None;
     removeObject_fault := None;
     assetCreate_fault := None;
     publish_fault := None;
     findUnique_fault := None;
     upsert_fault := None;
     refetch_fault := None |}.

(** [calm], drawing another identity. *)
Definition calmAgain : Env :=
  {| randomUUID := "5e6f";
     metaRowId := "88bb";
     now := 2;
     presignedUrl := presignedUrl calm;
     putObject_fault := None;
     presignedGetObject_fault := None;
     removeObject_fault := None;
     assetCreate_fault := None;
     publish_fault := None;
     findUnique_fault := None;
     upsert_fault := None;
     refetch_fault := None |}.

(** Other metadata for the same photo, and the world after [photo] has been
    ingested with them. *)
Definition cabin : MetaData :=
  {| asset_type := "img";
     asset_class := "travel";
     asset_location_name := "Cabin";
     asset_camera := "Nikon Z6";
     asset_date_label := "2023-12-24" |}.

Definition catalogued : World :=
  snd (AssetController.ingestAsset calm photo (Some cabin) emptyWorld).

(** A code unit that a normalised path segment may hold: neither white space
    nor an upper-case letter. *)
Definition isPlain (c : ascii) : bool :=
  negb (Js.isWhiteSpace c) && negb (Js.isUpper c).

(** The metadata row of the asset [id] once an upsert of [m] has been
    written: the row that was there keeps its own [meta_id] and [asset_id];
    a new row draws its [meta_id]. *)
Definition upserted (env : Env) (id : string) (m : MetaData) (w : World)
    : AssetMetaBase :=
  match asset_meta_base w !! id with
  | Some old => {| meta_id := meta_id old; fields := m; asset_id := asset_id old |}
  | None => {| meta_id := metaRowId env; fields := m; asset_id := id |}
  end.

(** ** [PathUtils]: directory and display name from a metadata row *)

Module PathUtils.

(** [asset_location_name.replace(/_/g, '')] *)
Fixpoint removeUnderscores (s : string) : string :=
  match s with
  | EmptyString => EmptyString
  | String c r =>
      if Ascii.eqb c "_" then removeUnderscores r else String c (removeUnderscores r)
  end.

(** The class [a-zA-Z0-9]. *)
Definition isAlnum (c : ascii) : bool :=
  let n := N_of_ascii c in
  (((48 <=? n) && (n <=? 57)) || ((65 <=? n) && (n <=? 90))
   || ((97 <=? n) && (n <=? 122)))%N.

(** [asset_camera.replace(/[^a-zA-Z0-9]/g, '')] *)
Fixpoint keepAlnum (s : string) : string :=
  match s with
  | EmptyString => EmptyString
  | String c r => if isAlnum c then String c (keepAlnum r) else keepAlnum r
  end.

Fixpoint replicate (n : nat) (c : ascii) : string :=
  match n with
  | O => EmptyString
  | S k => String c (replicate k c)
  end.

(** [s.padStart(target, c)] for a one-character filler: the string is never
    cut. *)
Definition padStart (target : nat) (c : ascii) (s : string) : string :=
  replicate (target - String.length s) c ++ s.

(** The decimal digits of a natural number. *)
Definition digits (n : N) : string := NilZero.string_of_uint (N.to_uint n).

(** [index.toString()] for a number that is a safe integer (an integer
    between [-(2^53 - 1)] and [2^53 - 1]): its decimal digits, after a minus
    sign when it is negative. The model is of these numbers only: larger
    integers are not all numbers and are printed rounded, and from 10^21 on
    in the exponent notation; nor does it cover fractions, [NaN] or the
    infinities. Every statement about an index assumes [isSafeInteger]. *)
Definition toString (index : Z) : string :=
  if (index <? 0)%Z then "-" ++ digits (Z.abs_N index) else digits (Z.abs_N index).

Definition indexStr (index : Z) : string := padStart 4 "0" (toString index).

(** Generates a directory path based on asset metadata, following the
    structure type/class/location/camera/date. *)
Definition generatePathFromMetaBase (asset : AssetMetaBase) : string :=
  asset_type (fields asset) ++ "/" ++ asset_class (fields asset) ++ "/"
  ++ asset_location_name (fields asset) ++ "/" ++ asset_camera (fields asset) ++ "/"
  ++ asset_date_label (fields asset).

(** Generates a filename for an asset based on metadata; format
    [{type}_{class}_{loc}_{cam}_{date}_{index}]. *)
Definition generateFilename (asset : AssetMetaBase) (index : Z) (extension : string)
    : string :=
  let indexStr := padStart 4 "0" (toString index) in
  let shortType := String.substring 0 3 (asset_type (fields asset)) in
  let shortLoc := Js.toLowerCase (removeUnderscores (asset_location_name (fields asset))) in
  let shortCam := Js.toLowerCase (keepAlnum (asset_camera (fields asset))) in
  shortType ++ "_" ++ asset_class (fields asset) ++ "_" ++ shortLoc ++ "_" ++ shortCam
  ++ "_" ++ asset_date_label (fields asset) ++ "_" ++ indexStr ++ extension.

End PathUtils.


(** A metadata row of the scenario. *)
Definition lakeHouseRow : AssetMetaBase :=
  {| meta_id := "77aa"; fields := lakeHouse; asset_id := "0b1c" |}.

(** [Number.MAX_SAFE_INTEGER] and [Number.isSafeInteger], on integers. *)
Definition MAX_SAFE_INTEGER : Z := (2 ^ 53 - 1)%Z.

Definition isSafeInteger (index : Z) : bool :=
  ((- MAX_SAFE_INTEGER <=? index) && (index <=? MAX_SAFE_INTEGER))%Z.


(** Reading an index back from the end of a display name: the zeros of the
    padding are skipped, then a minus sign may precede the digits. *)
Definition readDigits (s : string) : option Z :=
  option_map (fun d => Z.of_N (N.of_uint d)) (NilEmpty.uint_of_string s).

Fixpoint readIndex (s : string) : option Z :=
  match s with
  | EmptyString => readDigits s
  | String c r =>
      if Ascii.eqb c "0" then readIndex r
      else if Ascii.eqb c "-" then option_map Z.opp (readDigits r)
      else readDigits s
  end.

(** ** The error hook of [createBaseRoute], for every error *)

#[local] Set Warnings "-register-all".

(** JSON values, as a request body holds them. A number stands for its
    integer value; an object is an ordinary object and lists its own
    enumerable properties, each key once, in the order of
    [Object.entries]. *)
Inductive JsValue :=
| JUndefined
| JNull
| JBool (b : bool)
| JNumber (z : Z)
| JString (s : string)
| JObject (props : list (string * JsValue)).

(** [typeof v] *)
Definition typeOf (v : JsValue) : string :=
  match v with
  | JUndefined => "undefined"
  | JNull => "object"
  | JBool _ => "boolean"
  | JNumber _ => "number"
  | JString _ => "string"
  | JObject _ => "object"
  end.

(** Truthiness: [undefined], [null], [false], [0] and the empty string are
    falsy. *)
Definition truthyValue (v : JsValue) : bool :=
  match v with
  | JUndefined | JNull => false
  | JBool b => b
  | JNumber z => negb (Z.eqb z 0)
  | JString s => Js.truthy s
  | JObject _ => true
  end.

(** The property names of [Object.prototype], which every ordinary object
    inherits: eleven functions, and the accessor [__proto__], which gives
    the prototype itself. *)
Definition objectPrototype : list string :=
  [ "constructor"; "__defineGetter__"; "__defineSetter__"; "hasOwnProperty";
    "__lookupGetter__"; "__lookupSetter__"; "isPrototypeOf";
    "propertyIsEnumerable"; "toString"; "valueOf"; "__proto__";
    "toLocaleString" ].

(** What reading a property finds: an own property; a member of
    [Object.prototype], a function or an object, which is truthy and has no
    property [type]; or nothing, which reads as [undefined]. *)
Inductive Lookup (A : Type) :=
| Own (v : A)
| Inherited
| Absent.

Arguments Own {A} v.
Arguments Inherited {A}.
Arguments Absent {A}.

(** [object[key]] on an ordinary object: the own property of that name or,
    along the prototype chain, the member of [Object.prototype]. *)
Definition getProperty {A : Type} (props : list (string * A)) (key : string)
    : Lookup A :=
  match List.find (fun kv => String.eqb (fst kv) key) props with
  | Some kv => Own (snd kv)
  | None => if existsb (String.eqb key) objectPrototype then Inherited else Absent
  end.

(** Truthiness of what [value[field]] reads. *)
Definition truthyRead (l : Lookup JsValue) : bool :=
  match l with
  | Own v => truthyValue v
  | Inherited => true
  | Absent => false
  end.

(** A TypeBox object schema, as far as the hook reads it: [required], and
    for each property its schema, of which the hook reads [type]; [required],
    [properties] and the [type] of a property schema (as for [t.Any()]) may
    be absent. *)
Record Schema := {
  required : option (list string);
  properties : option (list (string * option string))
}.

(** The shape [ValidationError] that the hook casts the error to: [value]
    is the body that was checked, an ordinary object, or [None] when there
    was none ([null] or [undefined]); [schema] is [validator?.schema]. *)
Record SchemaError := {
  se_type : string;
  se_value : option (list (string * JsValue));
  se_schema : option Schema
}.

(** An [InvalidField] as the hook builds it: [expected] is
    [fieldSchema.type], which is [undefined] when what was read has no
    [type]. *)
Record ReportedField := {
  reported_field : string;
  reported_expected : option string;
  reported_received : string
}.

(** What [formatValidationError] returns in [details]. *)
Inductive Details :=
| Analysed (missing_required : list string) (invalid : list ReportedField)
    (received : option (list (string * JsValue)))
| Unanalysed.

Record Formatted := {
  f_type : string;
  f_message : string;
  f_details : Details
}.

(** The errors that reach the hook: the [ServerError] of
    [types/server.d.ts], whose status defaults to 400; any other [Error],
    with a numeric [status] or without, and with the two keys [validator]
    and [value] of a validation error or without; a thrown value that is not
    an [Error] and has not both keys; and a thrown object that is not an
    [Error] and has both. The type guard of [formatValidationError] looks
    for the two keys only, on an [Error] or not. *)
Inductive HookError :=
| BaseServerError (message : string) (status : nat)
| OtherError (message : string) (status : option nat) (shape : option SchemaError)
| NotAnError (thrown : JsValue)
| ThrownShape (shape : SchemaError).

(** The content of the error result: [error.toResponse()], the formatted
    validation error, or the error itself. *)
Inductive ErrorContent :=
| ToResponse (message : string) (status : nat)
| FormattedContent (f : Formatted)
| ErrorItself (e : HookError).

(** [RestResult<T>], at the type of the hook's contents. *)
Record HookResult := {
  hook_http_status : nat;
  hook_success : bool;
  hook_message : string;
  hook_content : option ErrorContent
}.

(** What the hook leaves: [set.status] and the body returned. *)
Record HookResponse := {
  set_status : nat;
  hook_body : HookResult
}.

Module createBaseRoute.

(** [makeErrorResult(message, http_status, content)] of [types/server.d.ts];
    [content] is [None] for a content that is absent or falsy, which
    [content || null] turns into [null]. *)
Definition makeErrorResult (msg : string) (http_status : nat)
    (content : option ErrorContent) : HookResult :=
  {| hook_http_status := http_status; hook_success := false; hook_message := msg;
     hook_content := content |}.

(** [fieldSchema.type] *)
Definition schemaType (fieldSchema : Lookup (option string)) : option string :=
  match fieldSchema with
  | Own declared => declared
  | Inherited | Absent => None
  end.

(** [typeof val !== fieldSchema.type]: no [typeof] is [undefined]. *)
Definition differs (received : string) (declared : option string) : bool :=
  match declared with
  | Some d => negb (String.eqb received d)
  | None => true
  end.

(** [formatValidationError(error)] *)
Definition formatValidationError (err : HookError) : Async Formatted :=
  logger.write debug "Processing validation error:" [] ;;;
  match err with
  | OtherError _ _ (Some e) | ThrownShape e =>
      let schema := se_schema e in
      logger.write debug "Validation error details:" [se_type e] ;;;
      (* Get required fields from schema *)
      let requiredFields :=
        match schema with
        | Some s => default [] (required s)
        | None => []
        end in
      (* Check which required fields are missing *)
      let missingFields :=
        List.filter
          (fun f =>
             match se_value e with
             | None => true
             | Some props => negb (truthyRead (getProperty props f))
             end)
          requiredFields in
      (* Check for invalid fields (present but wrong type) *)
      let invalidFields :=
        List.fold_left
          (fun acc kv =>
             let fieldSchema :=
               match schema with
               | Some {| properties := Some ps |} => getProperty ps (fst kv)
               | _ => Absent
               end in
             match fieldSchema with
             | Absent => acc
             | _ =>
                 if differs (typeOf (snd kv)) (schemaType fieldSchema)
                 then (acc ++ [{| reported_field := fst kv;
                                  reported_expected := schemaType fieldSchema;
                                  reported_received := typeOf (snd kv) |}])%list
                 else acc
             end)
          (default [] (se_value e)) [] in
      logger.write debug "Validation analysis:" missingFields ;;;
      (* Create human readable message *)
      let shouldBe :=
        List.map
          (fun i => "The field " ++ base.dquote ++ reported_field i ++ base.dquote
                    ++ " should be a " ++ default "undefined" (reported_expected i)
                    ++ ", but received " ++ reported_received i)
          invalidFields in
      let messages := (base.requiredSentence missingFields ++ shouldBe)%list in
      let msg := Js.join ". " messages in
      logger.write debug "Generated validation error message:" [msg] ;;;
      resolve {| f_type := se_type e;
                 f_message := Js.orElse msg "Validation failed";
                 f_details := Analysed missingFields invalidFields (se_value e) |}
  | _ =>
      logger.write warn "Received unknown validation error format:" [] ;;;
      resolve {| f_type := "unknown"; f_message := "Unknown validation error";
                 f_details := Unanalysed |}
  end.

(** The [onError] hook. Reading [missing_required_fields.length] of details
    that have none throws a [TypeError] inside the hook. *)
Definition onError (prefix : string) (code : string) (err : HookError)
    : Async HookResponse :=
  logger.write error ("Error in " ++ prefix ++ " route:") [code] ;;;
  match err with
  | BaseServerError msg st =>
      resolve {| set_status := st;
                 hook_body := makeErrorResult msg st (Some (ToResponse msg st)) |}
  | _ =>
      if String.eqb code "VALIDATION"
      then
        let! formattedError := formatValidationError err in
        match f_details formattedError with
        | Analysed missing invalid _ =>
            logger.write warn ("Validation error in " ++ prefix ++ " route:")
              (f_message formattedError :: missing) ;;;
            resolve {| set_status := 400;
                       hook_body := makeErrorResult (f_message formattedError) 400
                                      (Some (FormattedContent formattedError)) |}
        | Unanalysed =>
            throw (LibraryError "TypeError: undefined is not an object")
        end
      else
        (* If error has a status field, use it *)
        let status :=
          match err with
          | OtherError _ (Some st) _ => st
          | _ => if String.eqb code "NOT_FOUND" then 404 else 500
          end in
        resolve {| set_status := status;
                   hook_body :=
                     makeErrorResult
                       (match err with
                        | OtherError msg _ _ => msg
                        | BaseServerError msg _ => msg
                        | NotAnError _ | ThrownShape _ =>
                            "Something went wrong. (see console)"
                        end)
                       status
                       (match err with
                        | NotAnError v =>
                            if truthyValue v then Some (ErrorItself err) else None
                        | _ => Some (ErrorItself err)
                        end) |}
  end.

End createBaseRoute.

(** A body of the metadata route as the framework holds it: the fields that
    the request carries, as strings. *)
Definition bodyValue (m : MetaFields) : list (string * JsValue) :=
  List.flat_map
    (fun kv => match snd kv with
               | Some s => [(fst kv, JString s)]
               | None => []
               end)
    (entries m).

(** The schema of the metadata route: five required strings. *)
Definition metadataSchema : Schema :=
  {| required := Some assetRoutes.metadataSchemaRequired;
     properties := Some (List.map (fun f => (f, Some "string"))
                           assetRoutes.metadataSchemaRequired) |}.



(** [schema?.properties?.[key]] *)
Definition declaredType (e : SchemaError) (key : string) : Lookup (option string) :=
  match se_schema e with
  | Some {| properties := Some ps |} => getProperty ps key
  | _ => Absent
  end.

(** What the hook reports about one property of the body, if anything. *)
Definition invalidOf (e : SchemaError) (kv : string * JsValue) : option ReportedField :=
  match declaredType e (fst kv) with
  | Own (Some declared) =>
      if String.eqb (typeOf (snd kv)) declared then None
      else Some {| reported_field := fst kv; reported_expected := Some declared;
                   reported_received := typeOf (snd kv) |}
  | Own None | Inherited =>
      Some {| reported_field := fst kv; reported_expected := None;
              reported_received := typeOf (snd kv) |}
  | Absent => None
  end.

(** A body that carries a property named as a member of [Object.prototype],
    checked against a schema of one required string. *)
Definition inheritedName : SchemaError :=
  {| se_type := "body";
     se_value := Some [("constructor", JString "x"); ("asset_type", JString "img")];
     se_schema := Some {| required := Some ["asset_type"];
                          properties := Some [("asset_type", Some "string")] |} |}.

(** Only the log differs between two worlds. *)
Definition sameButLog (w w' : World) : Prop :=
  bucket w' = bucket w /\ assets w' = assets w /\
  asset_meta_base w' = asset_meta_base w /\ published w' = published w /\
  calls w' = calls w.

(** ** [MinioClient] with its lazy initialisation *)

(** The calls of [initialize] to the object store. *)
Inductive SetupCall :=
| BucketExists (bucketName : string)
| MakeBucket (bucketName : string).

(** The configured bucket, and what decides the calls of [initialize]:
    whether the construction of the library's client throws, and whether each
    call fails. *)
Record SetupEnv := {
  bucketName : string;
  construct_fault : option string;
  bucketExists_fault : option string;
  makeBucket_fault : option string
}.

(** The singleton and what it talks to: its [initialized] flag, whether the
    configured bucket exists in the object store, the setup calls issued so
    far, and the rest of the world. *)
Record Storage := {
  initialized : bool;
  bucket_present : bool;
  setup_calls : list SetupCall;
  world : World
}.

Definition Task (A : Type) : Type := Storage -> Outcome A * Storage.

(** An asynchronous computation on the world, run by the singleton. *)
Definition inWorld {A} (c : Async A) : Task A :=
  fun s =>
    let (o, w') := c (world s) in
    (o, {| initialized := initialized s; bucket_present := bucket_present s;
           setup_calls := setup_calls s; world := w' |}).

Definition andThen {A B} (c : Task A) (k : A -> Task B) : Task B :=
  fun s =>
    match c s with
    | (Resolved a, s') => k a s'
    | (Rejected e, s') => (Rejected e, s')
    end.

Definition attempt {A} (body : Task A) (handler : Exn -> Task A) : Task A :=
  fun s =>
    match body s with
    | (Resolved a, s') => (Resolved a, s')
    | (Rejected e, s') => handler e s'
    end.

Definition failWith {A} (e : Exn) : Task A := fun s => (Rejected e, s).

Definition finish {A} (a : A) : Task A := fun s => (Resolved a, s).

Module MinioClient.
Section Client.

Variable setup : SetupEnv.
Variable env : Env.

(** [new Client({ ... })] *)
Definition construct : Task unit :=
  match construct_fault setup with
  | Some m => failWith (LibraryError m)
  | None => finish tt
  end.

(** [client.bucketExists(bucket)] *)
Definition bucketExists : Task bool :=
  fun s =>
    let s := {| initialized := initialized s; bucket_present := bucket_present s;
                setup_calls := (setup_calls s ++ [BucketExists (bucketName setup)])%list;
                world := world s |} in
    match bucketExists_fault setup with
    | Some m => (Rejected (LibraryError m), s)
    | None => (Resolved (bucket_present s), s)
    end.

(** [client.makeBucket(bucket, '')]: refused for a bucket that exists. *)
Definition makeBucket : Task unit :=
  fun s =>
    let called := (setup_calls s ++ [MakeBucket (bucketName setup)])%list in
    match makeBucket_fault setup with
    | Some m =>
        (Rejected (LibraryError m),
         {| initialized := initialized s; bucket_present := bucket_present s;
            setup_calls := called; world := world s |})
    | None =>
        if bucket_present s
        then (Rejected (LibraryError "BucketAlreadyOwnedByYou"),
              {| initialized := initialized s; bucket_present := true;
                 setup_calls := called; world := world s |})
        else (Resolved tt,
              {| initialized := initialized s; bucket_present := true;
                 setup_calls := called; world := world s |})
    end.

Definition setInitialized : Task unit :=
  fun s =>
    (Resolved tt,
     {| initialized := true; bucket_present := bucket_present s;
        setup_calls := setup_calls s; world := world s |}).

(** Initialize the MinIO client connection. *)
Definition initialize : Task unit :=
  fun s =>
    if initialized s then (Resolved tt, s)
    else
      attempt
        (andThen construct (fun _ =>
         (* Check if bucket exists, create if it doesn't *)
         andThen bucketExists (fun bucketExists =>
         andThen
           (if negb bucketExists
            then andThen makeBucket (fun _ =>
                 inWorld (logger.write info ("Created bucket: " ++ bucketName setup) []))
            else finish tt) (fun _ =>
         andThen setInitialized (fun _ =>
         inWorld (logger.write info "MinIO client initialized successfully" []))))))
        (fun err =>
           andThen
             (inWorld (logger.write error "Failed to initialize MinIO client" [message err]))
             (fun _ => failWith err))
        s.

(** [if (!this.initialized) await this.initialize()] *)
Definition ensureInitialized : Task unit :=
  fun s => if negb (initialized s) then initialize s else (Resolved tt, s).

(** Upload a file to MinIO. *)
Definition uploadObject (objectName : string) (data : list byte) (size : nat)
    (contentType : string) : Task unit :=
  andThen ensureInitialized (fun _ =>
  inWorld (uploadObject env objectName data size contentType)).

(** Delete an object from MinIO. *)
Definition deleteObject (objectName : string) : Task unit :=
  andThen ensureInitialized (fun _ => inWorld (deleteObject env objectName)).

(** Generate a presigned URL for temporary access to an object. *)
Definition getPresignedUrl (objectName : string) : Task string :=
  andThen ensureInitialized (fun _ => inWorld (getPresignedUrl env objectName)).

(** Get the MinIO client instance for direct operations: [true] stands for
    the instance. *)
Definition getClient : Task bool :=
  fun s =>
    if negb (initialized s)
    then (Rejected (LibraryError "MinIO client not initialized. Call initialize() first."), s)
    else (Resolved true, s).

End Client.
End MinioClient.

(** A singleton that has not been used yet, in front of an object store
    without the bucket. *)
Definition freshStorage (w : World) : Storage :=
  {| initialized := false; bucket_present := false; setup_calls := []; world := w |}.

Definition defaultSetup : SetupEnv :=
  {| bucketName := "default"; construct_fault := None; bucketExists_fault := None;
     makeBucket_fault := None |}.

(** * Properties *)

#[local] Arguments MD5.md5hex : simpl never.
#[local] Arguments path.extname : simpl never.
#[local] Arguments path.basename : simpl never.
#[local] Arguments Js.toLowerCase : simpl never.
#[local] Arguments Js.replaceWhitespace : simpl never.
#[local] Arguments Js.stripNonDigits : simpl never.
#[local] Arguments Js.removeFirstDot : simpl never.
#[local] Arguments Js.join : simpl never.
#[local] Arguments String.append : simpl never.

(** ** The digest agrees with the test suite of RFC 1321 *)

Example md5_empty : MD5.md5hex [] = "d41d8cd98f00b204e9800998ecf8427e".
Proof. vm_compute. reflexivity. Qed.

Example md5_abc :
  MD5.md5hex (list_byte_of_string "abc") = "900150983cd24fb0d6963f7d28e17f72".
Proof. vm_compute. reflexivity. Qed.

Example md5_message_digest :
  MD5.md5hex (list_byte_of_string "message digest")
  = "f96b697d7cb7938d525a2f31aaf161d0".
Proof. vm_compute. reflexivity. Qed.

Example md5_two_blocks :
  MD5.md5hex (list_byte_of_string
    "12345678901234567890123456789012345678901234567890123456789012345678901234567890")
  = "57edf4a22be3c955ac49da2e2107b67a".
Proof. vm_compute. reflexivity. Qed.

(** ** [path.extname] and [path.basename] on sample names *)

Example extname_samples :
  path.extname "photo.jpg" = ".jpg" /\ path.extname "archive.tar.gz" = ".gz" /\
  path.extname ".bashrc" = "" /\ path.extname "notes." = "." /\
  path.extname ".." = "" /\ path.extname "dir.d/file" = "" /\
  path.extname "README" = "".
Proof. vm_compute. repeat split. Qed.

Example basename_samples :
  path.basename "/tmp/in/photo.jpg" = "photo.jpg" /\
  path.basename "photo.jpg" = "photo.jpg" /\ path.basename "a/b//" = "b".
Proof. vm_compute. repeat split. Qed.

(** ** The two derivations of the storage path agree *)

Lemma storedPath_recomputed (assetUuid : string) (file : File) (metaData : option MetaData) :
  AssetController.storedPathForCleanup assetUuid file metaData
  = AssetController.storedPathForUpload assetUuid (path.extname (file_name file)) metaData.
Proof. destruct metaData; reflexivity. Qed.

(** ** Running the collaborators *)

Lemma asset_create_refused env data nested w m :
  createRefusal env (uuid data) nested w = Some m ->
  asset_create env data nested w
  = (Rejected (LibraryError m), add_call (AssetCreate (uuid data)) w).
Proof.
  unfold createRefusal, asset_create. simpl.
  destruct (assetCreate_fault env); [congruence|].
  destruct (assets w !! uuid data); [congruence|].
  destruct nested; [|discriminate].
  destruct (asset_meta_base w !! uuid data); [congruence|discriminate].
Qed.

Lemma asset_create_accepted env data nested w :
  createRefusal env (uuid data) nested w = None ->
  let r := {| columns := data; uploaded_at := now env |} in
  let mb := (fun m => {| meta_id := metaRowId env; fields := m; asset_id := uuid data |})
              <$> nested in
  asset_create env data nested w
  = (Resolved {| row := r; meta_base := mb |},
     set_tables (<[uuid data := r]> (assets w))
       (match mb with
        | Some x => <[uuid data := x]> (asset_meta_base w)
        | None => asset_meta_base w
        end)
       (add_call (AssetCreate (uuid data)) w)).
Proof.
  unfold createRefusal, asset_create. simpl.
  destruct (assetCreate_fault env); [discriminate|].
  destruct (assets w !! uuid data); [discriminate|].
  destruct nested; simpl; [|reflexivity].
  destruct (asset_meta_base w !! uuid data); [discriminate|reflexivity].
Qed.

(** ** Running [ingestAsset] *)

Ltac run_async :=
  unfold AssetController.ingestAsset, AssetController.upsertMetadata,
    uploadObject, getPresignedUrl, deleteObject, publish, putObject,
    presignedGetObject, removeObject, ioredis_publish, asset_findUnique,
    logger.write, resolve, throw, tryCatch, await;
  simpl.

Lemma ingestAsset_resolves env file metaData w :
  persists env metaData w -> publish_fault env = None ->
  let id := randomUUID env in
  let p := AssetController.storedPathForUpload id (path.extname (file_name file)) metaData in
  exists a w',
    AssetController.ingestAsset env file metaData w = (Resolved a, w') /\
    columns (row a) =
      {| uuid := id;
         imported_fullpath := file_name file;
         imported_filename := path.basename (file_name file);
         stored_fullpath := p;
         stored_url := presignedUrl env p;
         size_bytes := file_size file;
         stored_filename := path.basename p;
         extension := Js.removeFirstDot (path.extname (file_name file));
         hash := Some (MD5.md5hex (file_bytes file)) |} /\
    meta_base a =
      ((fun m => {| meta_id := metaRowId env; fields := m; asset_id := id |}) <$> metaData) /\
    bucket w' =
      <[p := {| object_data := file_bytes file; object_size := file_size file;
                content_type := file_type file |}]> (bucket w) /\
    assets w' = <[id := row a]> (assets w) /\
    asset_meta_base w' =
      match meta_base a with
      | Some mb => <[id := mb]> (asset_meta_base w)
      | None => asset_meta_base w
      end /\
    calls w' = (calls w ++ [PutObject p; PresignedGetObject p; AssetCreate id;
                            Publish "asset_ingested"])%list.
Proof.
  intros (Hput & Hurl & Hdb) Hpub id p.
  run_async. rewrite Hput, Hurl. simpl.
  erewrite asset_create_accepted by exact Hdb.
  simpl. rewrite Hpub. simpl.
  do 2 eexists. split; [reflexivity|]. simpl.
  repeat split.
  rewrite <- !app_assoc. reflexivity.
Qed.

Lemma ingestAsset_db_refused env file metaData w m :
  putObject_fault env = None -> presignedGetObject_fault env = None ->
  createRefusal env (randomUUID env) metaData w = Some m ->
  let id := randomUUID env in
  let p := AssetController.storedPathForUpload id (path.extname (file_name file)) metaData in
  let q := AssetController.storedPathForCleanup id file metaData in
  let obj := {| object_data := file_bytes file; object_size := file_size file;
                content_type := file_type file |} in
  exists w',
    AssetController.ingestAsset env file metaData w
    = (Rejected (ServerError "Failed to ingest asset" 500), w') /\
    calls w' = (calls w ++ [PutObject p; PresignedGetObject p; AssetCreate id;
                            RemoveObject q])%list /\
    bucket w' =
      match removeObject_fault env with
      | None => delete q (<[p := obj]> (bucket w))
      | Some _ => <[p := obj]> (bucket w)
      end /\
    assets w' = assets w /\
    asset_meta_base w' = asset_meta_base w /\
    published w' = published w /\
    logged w' =
      (logged w ++
       [ {| level := info; text := "Starting asset ingestion: " ++ id;
            detail := [file_name file; file_type file] |};
         {| level := info; text := "Uploading file to MinIO: " ++ p; detail := [] |};
         {| level := info; text := "Uploaded object: " ++ p; detail := [] |};
         {| level := info; text := "Creating asset record in database: " ++ id;
            detail := [] |};
         {| level := error; text := "Asset ingestion failed:";
            detail := [m; id; file_name file] |} ] ++
       match removeObject_fault env with
       | None =>
           [ {| level := info; text := "Deleted object: " ++ q; detail := [] |};
             {| level := info; text := "Cleaned up failed upload: " ++ q; detail := [] |} ]
       | Some mc =>
           [ {| level := error; text := "Error deleting object: " ++ q; detail := [mc] |};
             {| level := error;
                text := "Failed to clean up after failed asset ingestion:";
                detail := [mc] |} ]
       end)%list.
Proof.
  intros Hput Hurl Hdb id p q obj.
  run_async. rewrite Hput, Hurl. simpl.
  erewrite asset_create_refused by exact Hdb.
  simpl.
  destruct (removeObject_fault env) as [mc|]; simpl;
    (eexists; split; [reflexivity|]; simpl; repeat split;
     rewrite <- ?app_assoc; reflexivity).
Qed.

Lemma ingestAsset_publish_refused env file metaData w m :
  persists env metaData w -> publish_fault env = Some m ->
  let id := randomUUID env in
  let p := AssetController.storedPathForUpload id (path.extname (file_name file)) metaData in
  let q := AssetController.storedPathForCleanup id file metaData in
  exists w',
    AssetController.ingestAsset env file metaData w
    = (Rejected (ServerError "Failed to ingest asset" 500), w') /\
    calls w' = (calls w ++ [PutObject p; PresignedGetObject p; AssetCreate id;
                            Publish "asset_ingested"; RemoveObject q])%list /\
    is_Some (assets w' !! id) /\
    (removeObject_fault env = None -> bucket w' !! p = None).
Proof.
  intros (Hput & Hurl & Hdb) Hpub id p q.
  run_async. rewrite Hput, Hurl. simpl.
  erewrite asset_create_accepted by exact Hdb.
  simpl. rewrite Hpub. simpl.
  destruct (removeObject_fault env) as [mc|] eqn:Hrm; simpl;
    (eexists; split; [reflexivity|]; simpl; repeat split;
     [rewrite <- ?app_assoc; reflexivity
     |rewrite lookup_insert_eq; eauto
     |try discriminate]).
  intros _. fold q. unfold q. rewrite storedPath_recomputed. apply lookup_delete_eq.
Qed.

(** ** Compensation after a failed database write *)

(** C1, as stated, fails when the delete is refused: the upload succeeded,
    the database write failed, the delete was issued at the path of the
    upload, and the object is still in the bucket afterwards. *)
Lemma refused_delete_leaves_object :
  let env := failing (Some "database is down") None (Some "bucket is unreachable") in
  let p := "assets/img/family/lake_house/canon_r5/20240701/0b1c.jpg" in
  let w' := snd (AssetController.ingestAsset env photo (Some lakeHouse) emptyWorld) in
  createRefusal env (randomUUID env) (Some lakeHouse) emptyWorld = Some "database is down" /\
  calls w' = [PutObject p; PresignedGetObject p; AssetCreate "0b1c"; RemoveObject p] /\
  bucket w' !! p
  = Some {| object_data := file_bytes photo; object_size := 1024;
            content_type := "image/jpeg" |}.
Proof. vm_compute. repeat split. Qed.

(** C1 (amended): when the database write fails after the upload and the
    presigned URL succeeded, [ingestAsset] issues, as its last call, a delete
    at the path recomputed in the failure branch from the identity, the file
    name and the metadata; that path equals the path of the upload; and when
    the delete is carried out the object is not in the bucket afterwards. *)
Theorem db_failure_deletes_upload env file metaData w m :
  putObject_fault env = None ->
  presignedGetObject_fault env = None ->
  createRefusal env (randomUUID env) metaData w = Some m ->
  let id := randomUUID env in
  let uploaded :=
    AssetController.storedPathForUpload id (path.extname (file_name file)) metaData in
  let recomputed := AssetController.storedPathForCleanup id file metaData in
  let w' := snd (AssetController.ingestAsset env file metaData w) in
  recomputed = uploaded /\
  calls w' = (calls w ++ [PutObject uploaded; PresignedGetObject uploaded;
                          AssetCreate id; RemoveObject recomputed])%list /\
  (removeObject_fault env = None -> bucket w' !! uploaded = None).
Proof.
  intros Hput Hurl Hdb id uploaded recomputed w'.
  destruct (ingestAsset_db_refused env file metaData w m Hput Hurl Hdb)
    as (w1 & Hrun & Hcalls & Hbucket & _).
  subst w'. rewrite Hrun. simpl.
  assert (Hsame : recomputed = uploaded) by apply storedPath_recomputed.
  split; [exact Hsame|]. split; [exact Hcalls|].
  intros Hrm. rewrite Hbucket, Hrm.
  unfold uploaded, id. rewrite storedPath_recomputed. apply lookup_delete_eq.
Qed.

Lemma db_failure_deletes_upload_witness :
  let env := failing (Some "database is down") None None in
  let p := "assets/img/family/lake_house/canon_r5/20240701/0b1c.jpg" in
  let w' := snd (AssetController.ingestAsset env photo (Some lakeHouse) emptyWorld) in
  (putObject_fault env = None /\ presignedGetObject_fault env = None /\
   createRefusal env (randomUUID env) (Some lakeHouse) emptyWorld
   = Some "database is down") /\
  AssetController.storedPathForCleanup "0b1c" photo (Some lakeHouse)
  = AssetController.storedPathForUpload "0b1c" (path.extname "photo.jpg") (Some lakeHouse) /\
  calls w'
  = ([] ++ [PutObject
              (AssetController.storedPathForUpload "0b1c" (path.extname "photo.jpg")
                 (Some lakeHouse));
            PresignedGetObject
              (AssetController.storedPathForUpload "0b1c" (path.extname "photo.jpg")
                 (Some lakeHouse));
            AssetCreate "0b1c";
            RemoveObject
              (AssetController.storedPathForCleanup "0b1c" photo (Some lakeHouse))])%list /\
  (removeObject_fault env = None ->
   bucket w' !! AssetController.storedPathForUpload "0b1c" (path.extname "photo.jpg")
                  (Some lakeHouse) = None).
Proof.
  split; [repeat split|].
  exact (db_failure_deletes_upload
           (failing (Some "database is down") None None) photo (Some lakeHouse)
           emptyWorld "database is down" eq_refl eq_refl eq_refl).
Defined.

(** ** A failed publish *)

(** C2: the code does not do what the claim says. With the upload, the
    presigned URL and the database write done, a publish that fails makes
    [ingestAsset] reject with status 500 and delete the uploaded object,
    while the row of the asset stays in the table. *)
Theorem publish_failure_rejects_and_deletes :
  let env := failing None (Some "broker is down") None in
  let p := "assets/img/family/lake_house/canon_r5/20240701/0b1c.jpg" in
  let run := AssetController.ingestAsset env photo (Some lakeHouse) emptyWorld in
  fst run = Rejected (ServerError "Failed to ingest asset" 500) /\
  calls (snd run) = [PutObject p; PresignedGetObject p; AssetCreate "0b1c";
                     Publish "asset_ingested"; RemoveObject p] /\
  bucket (snd run) !! p = None /\
  (stored_fullpath <$> (columns <$> assets (snd run) !! "0b1c")) = Some p /\
  published (snd run) = [].
Proof. vm_compute. repeat split. Qed.

(** ** A failed cleanup *)

(** C8, as stated, fails: the database write fails with the error
    "database is down", whose message reaches the log, and the caller
    receives another error. *)
Lemma surfaced_error_is_not_database_error :
  let env := failing (Some "database is down") None (Some "bucket is unreachable") in
  let run := AssetController.ingestAsset env photo (Some lakeHouse) emptyWorld in
  createRefusal env "0b1c" (Some lakeHouse) emptyWorld = Some "database is down" /\
  In {| level := error; text := "Asset ingestion failed:";
        detail := ["database is down"; "0b1c"; "photo.jpg"] |} (logged (snd run)) /\
  fst run = Rejected (ServerError "Failed to ingest asset" 500) /\
  fst run <> Rejected (LibraryError "database is down").
Proof.
  vm_compute. repeat split; [|discriminate].
  do 4 right. left. reflexivity.
Qed.

(** C8 (amended): when the compensating delete fails after a failed database
    write, the failure of the cleanup gets a log entry of its own, after the
    entry that records the message of the database error; the caller receives
    the controller's [ServerError] "Failed to ingest asset" with status 500,
    which is what it receives whatever the delete does, and which carries
    nothing of the cleanup error. *)
Theorem cleanup_failure_is_logged_apart env file metaData w m mc :
  putObject_fault env = None ->
  presignedGetObject_fault env = None ->
  createRefusal env (randomUUID env) metaData w = Some m ->
  removeObject_fault env = Some mc ->
  let run := AssetController.ingestAsset env file metaData w in
  fst run = Rejected (ServerError "Failed to ingest asset" 500) /\
  (forall r,
     fst (AssetController.ingestAsset (withRemoval r env) file metaData w) = fst run) /\
  exists earlier,
    logged (snd run) =
      (earlier ++
       [ {| level := error; text := "Asset ingestion failed:";
            detail := [m; randomUUID env; file_name file] |};
         {| level := error;
            text := "Error deleting object: "
                    ++ AssetController.storedPathForCleanup (randomUUID env) file metaData;
            detail := [mc] |};
         {| level := error;
            text := "Failed to clean up after failed asset ingestion:";
            detail := [mc] |} ])%list.
Proof.
  intros Hput Hurl Hdb Hrm run.
  destruct (ingestAsset_db_refused env file metaData w m Hput Hurl Hdb)
    as (w1 & Hrun & _ & _ & _ & _ & _ & Hlog).
  subst run. rewrite Hrun. simpl.
  split; [reflexivity|]. split.
  - intros r.
    destruct (ingestAsset_db_refused (withRemoval r env) file metaData w m Hput Hurl Hdb)
      as (w2 & Hrun2 & _).
    rewrite Hrun2. reflexivity.
  - rewrite Hlog, Hrm. eexists.
    rewrite <- app_assoc. simpl.
    rewrite (app_assoc (logged w)).
    match goal with
    | |- (?a ++ ?b :: ?c :: ?d :: ?e :: ?rest)%list = _ =>
        change (a ++ b :: c :: d :: e :: rest)%list
          with (a ++ [b; c; d; e] ++ rest)%list
    end.
    rewrite app_assoc. reflexivity.
Qed.

Lemma cleanup_failure_is_logged_apart_witness :
  let env := failing (Some "database is down") None (Some "bucket is unreachable") in
  let run := AssetController.ingestAsset env photo (Some lakeHouse) emptyWorld in
  (putObject_fault env = None /\ presignedGetObject_fault env = None /\
   createRefusal env (randomUUID env) (Some lakeHouse) emptyWorld
   = Some "database is down" /\
   removeObject_fault env = Some "bucket is unreachable") /\
  fst run = Rejected (ServerError "Failed to ingest asset" 500) /\
  (forall r,
     fst (AssetController.ingestAsset (withRemoval r env) photo (Some lakeHouse) emptyWorld)
     = fst run) /\
  exists earlier,
    logged (snd run) =
      (earlier ++
       [ {| level := error; text := "Asset ingestion failed:";
            detail := ["database is down"; "0b1c"; "photo.jpg"] |};
         {| level := error;
            text := "Error deleting object: "
                    ++ AssetController.storedPathForCleanup "0b1c" photo (Some lakeHouse);
            detail := ["bucket is unreachable"] |};
         {| level := error;
            text := "Failed to clean up after failed asset ingestion:";
            detail := ["bucket is unreachable"] |} ])%list.
Proof.
  split; [repeat split|].
  exact (cleanup_failure_is_logged_apart
           (failing (Some "database is down") None (Some "bucket is unreachable"))
           photo (Some lakeHouse) emptyWorld "database is down" "bucket is unreachable"
           eq_refl eq_refl eq_refl eq_refl).
Defined.

(** ** [path.extname] on plain file names *)

Lemma list_ascii_of_string_append (a b : string) :
  list_ascii_of_string (a ++ b) = (list_ascii_of_string a ++ list_ascii_of_string b)%list.
Proof. induction a as [|c a IH]; simpl; [reflexivity|]. now rewrite <- IH. Qed.

Lemma occurs_Forall (c : ascii) (s : string) :
  occurs c s = false ->
  Forall (fun d => Ascii.eqb d c = false) (list_ascii_of_string s).
Proof.
  induction s as [|d s IH]; simpl; intros H; constructor.
  - apply orb_false_elim in H as [H _]. now rewrite Ascii.eqb_sym.
  - apply IH. now apply orb_false_elim in H as [_ H].
Qed.

Lemma takeWhile_all (p : ascii -> bool) (l : list ascii) :
  Forall (fun c => p c = true) l -> path.takeWhile p l = l.
Proof. induction 1 as [|c l Hc _ IH]; simpl; [reflexivity|]. now rewrite Hc, IH. Qed.

Lemma dropWhile_all (p : ascii -> bool) (l : list ascii) :
  Forall (fun c => p c = true) l -> path.dropWhile p l = [].
Proof. induction 1 as [|c l Hc _ IH]; simpl; [reflexivity|]. now rewrite Hc. Qed.

Lemma dropWhile_none (p : ascii -> bool) (l : list ascii) :
  Forall (fun c => p c = false) l -> path.dropWhile p l = l.
Proof. destruct 1 as [|c l Hc _]; simpl; [reflexivity|]. now rewrite Hc. Qed.

Lemma takeWhile_stop (p : ascii -> bool) (l1 l2 : list ascii) (c : ascii) :
  Forall (fun c => p c = true) l1 -> p c = false ->
  path.takeWhile p (l1 ++ c :: l2) = l1.
Proof.
  induction 1 as [|d l Hd _ IH]; simpl; intros Hc.
  - now rewrite Hc.
  - now rewrite Hd, IH.
Qed.

Lemma dropWhile_stop (p : ascii -> bool) (l1 l2 : list ascii) (c : ascii) :
  Forall (fun c => p c = true) l1 -> p c = false ->
  path.dropWhile p (l1 ++ c :: l2) = c :: l2.
Proof.
  induction 1 as [|d l Hd _ IH]; simpl; intros Hc.
  - now rewrite Hc.
  - now rewrite Hd, IH.
Qed.

Lemma Forall_takeWhile (q : ascii -> Prop) (p : ascii -> bool) (l : list ascii) :
  Forall q l -> Forall q (path.takeWhile p l).
Proof.
  induction 1 as [|c l Hc _ IH]; simpl; [constructor|].
  destruct (p c); now constructor.
Qed.

Lemma Forall_dropWhile (q : ascii -> Prop) (p : ascii -> bool) (l : list ascii) :
  Forall q l -> Forall q (path.dropWhile p l).
Proof.
  induction 1 as [|c l Hc Hl IH]; simpl; [constructor|].
  destruct (p c); [exact IH|now constructor].
Qed.

(** A name without a dot has no extension. *)
Lemma extname_without_dot (s : string) :
  occurs "." s = false -> path.extname s = "".
Proof.
  intros H. unfold path.extname, path.lastComponentRev.
  rewrite dropWhile_all; [reflexivity|].
  apply (Forall_takeWhile (fun c => negb (path.isDot c) = true)).
  apply (Forall_dropWhile (fun c => negb (path.isDot c) = true)).
  apply Forall_rev.
  eapply Forall_impl; [exact (occurs_Forall _ _ H)|].
  intros c Hc. unfold path.isDot. simpl in Hc. now rewrite Hc.
Qed.

(** The extension of [base.ext], without its dot, is [ext] as written. *)
Lemma extname_of_base_ext (base ext : string) :
  base <> "" -> occurs "/" base = false ->
  occurs "/" ext = false -> occurs "." ext = false ->
  Js.removeFirstDot (path.extname (base ++ "." ++ ext)) = ext.
Proof.
  intros Hne Hsb Hse Hde.
  assert (Hb := occurs_Forall _ _ Hsb).
  assert (He := occurs_Forall _ _ Hse).
  assert (Hd := occurs_Forall _ _ Hde).
  change (base ++ "." ++ ext) with (base ++ String "." ext).
  unfold path.extname, path.lastComponentRev.
  rewrite list_ascii_of_string_append.
  change (list_ascii_of_string (String "." ext))
    with ("."%char :: list_ascii_of_string ext).
  rewrite rev_app_distr.
  change (rev ("."%char :: list_ascii_of_string ext))
    with (rev (list_ascii_of_string ext) ++ ["."%char])%list.
  rewrite <- app_assoc.
  change (["."%char] ++ rev (list_ascii_of_string base))%list
    with ("."%char :: rev (list_ascii_of_string base)).
  set (le := rev (list_ascii_of_string ext)).
  set (lb := rev (list_ascii_of_string base)).
  assert (Hle_slash : Forall (fun c => Ascii.eqb c "/" = false) le)
    by (apply Forall_rev; exact He).
  assert (Hle_dot : Forall (fun c => Ascii.eqb c "." = false) le)
    by (apply Forall_rev; exact Hd).
  assert (Hlb_slash : Forall (fun c => Ascii.eqb c "/" = false) lb)
    by (apply Forall_rev; exact Hb).
  assert (Hall : Forall (fun c => path.isSlash c = false) (le ++ "."%char :: lb)).
  { apply Forall_app. split; [exact Hle_slash|]. constructor; [reflexivity|exact Hlb_slash]. }
  rewrite (dropWhile_none _ _ Hall).
  rewrite takeWhile_all
    by (eapply Forall_impl; [exact Hall|]; intros c Hc; simpl; now rewrite Hc).
  assert (Hnd : Forall (fun c => negb (path.isDot c) = true) le).
  { eapply Forall_impl; [exact Hle_dot|]. intros c Hc. unfold path.isDot. simpl in Hc. now rewrite Hc. }
  rewrite (takeWhile_stop _ le lb "."%char Hnd eq_refl),
    (dropWhile_stop _ le lb "."%char Hnd eq_refl).
  assert (Hext : string_of_list_ascii (rev (le ++ ["."%char])) = String "." ext).
  { rewrite rev_app_distr. subst le. rewrite rev_involutive. simpl.
    now rewrite string_of_list_ascii_of_string. }
  destruct lb as [|d rest] eqn:Hlb.
  - exfalso. apply Hne.
    assert (Hnil : list_ascii_of_string base = []).
    { apply (f_equal (@rev ascii)) in Hlb. subst lb. now rewrite rev_involutive in Hlb. }
    destruct base; [reflexivity|discriminate].
  - destruct le as [|e le'] eqn:Hle; destruct rest as [|d' rest'];
      try (rewrite Hext; reflexivity).
    destruct (path.isDot d); [|rewrite Hext; reflexivity].
    assert (Hnil : list_ascii_of_string ext = []).
    { apply (f_equal (@rev ascii)) in Hle. subst le. now rewrite rev_involutive in Hle. }
    destruct ext; [reflexivity|discriminate].
Qed.

(** ** The scenario of [photo.jpg] *)

(** C3, as stated, fails: the camera keeps the underscore that replaces its
    white space, so the path has [canon_r5] where the claim has [canonr5]. *)
Lemma camera_segment_keeps_underscore :
  match fst (AssetController.ingestAsset calm photo (Some lakeHouse) emptyWorld) with
  | Resolved a =>
      stored_fullpath (columns (row a))
      = "assets/img/family/lake_house/canon_r5/20240701/0b1c.jpg" /\
      stored_fullpath (columns (row a))
      <> "assets/img/family/lake_house/canonr5/20240701/0b1c.jpg"
  | Rejected _ => False
  end.
Proof. vm_compute. split; [reflexivity|discriminate]. Qed.

(** C3 (amended): ingesting a file named [photo.jpg] of 1024 bytes with the
    metadata of the scenario, when the services answer, stores it at
    [assets/img/family/lake_house/canon_r5/20240701/{id}.jpg], with extension
    [jpg], and returns an asset whose metadata is the record supplied, field
    for field. *)
Theorem lake_house_scenario env file w :
  file_name file = "photo.jpg" ->
  file_size file = 1024 ->
  persists env (Some lakeHouse) w ->
  publish_fault env = None ->
  exists a w',
    AssetController.ingestAsset env file (Some lakeHouse) w = (Resolved a, w') /\
    stored_fullpath (columns (row a))
    = "assets/img/family/lake_house/canon_r5/20240701/" ++ randomUUID env ++ ".jpg" /\
    is_Some (bucket w' !! stored_fullpath (columns (row a))) /\
    extension (columns (row a)) = "jpg" /\
    size_bytes (columns (row a)) = 1024 /\
    fields <$> meta_base a = Some lakeHouse.
Proof.
  intros Hname Hsize Hok Hpub.
  destruct (ingestAsset_resolves env file (Some lakeHouse) w Hok Hpub)
    as (a & w' & Hrun & Hcols & Hmeta & Hbucket & _).
  exists a, w'. split; [exact Hrun|].
  rewrite Hbucket, Hcols, Hmeta, Hname, Hsize. simpl.
  repeat split.
  rewrite lookup_insert_eq. eauto.
Qed.

Lemma lake_house_scenario_witness :
  (file_name photo = "photo.jpg" /\ file_size photo = 1024 /\
   persists calm (Some lakeHouse) emptyWorld /\ publish_fault calm = None) /\
  exists a w',
    AssetController.ingestAsset calm photo (Some lakeHouse) emptyWorld = (Resolved a, w') /\
    stored_fullpath (columns (row a))
    = "assets/img/family/lake_house/canon_r5/20240701/" ++ randomUUID calm ++ ".jpg" /\
    is_Some (bucket w' !! stored_fullpath (columns (row a))) /\
    extension (columns (row a)) = "jpg" /\
    size_bytes (columns (row a)) = 1024 /\
    fields <$> meta_base a = Some lakeHouse.
Proof.
  assert (Hok : persists calm (Some lakeHouse) emptyWorld) by (repeat split).
  split; [repeat split|].
  exact (lake_house_scenario calm photo emptyWorld eq_refl eq_refl Hok eq_refl).
Defined.

(** ** The extension column *)

(** C9, as stated, fails: the suffix of [SCAN.JPG] is stored in upper case. *)
Lemma upper_case_suffix_is_kept :
  match fst (AssetController.ingestAsset calm scan None emptyWorld) with
  | Resolved a =>
      extension (columns (row a)) = "JPG" /\
      extension (columns (row a)) <> Js.toLowerCase "JPG"
  | Rejected _ => False
  end.
Proof. vm_compute. split; [reflexivity|discriminate]. Qed.

(** C9 (amended): the extension column of an ingested file is
    [path.extname] of the file name without its leading dot, in the case in
    which the name has it: for a name [base.ext] without [/], with [base] not
    empty and no dot in [ext], it is [ext] as written; for a name without a
    dot it is empty. *)
Theorem extension_is_suffix_as_written env file metaData w :
  persists env metaData w ->
  publish_fault env = None ->
  exists a w',
    AssetController.ingestAsset env file metaData w = (Resolved a, w') /\
    extension (columns (row a)) = Js.removeFirstDot (path.extname (file_name file)) /\
    (forall base ext,
       file_name file = base ++ "." ++ ext ->
       base <> "" -> occurs "/" base = false ->
       occurs "/" ext = false -> occurs "." ext = false ->
       extension (columns (row a)) = ext) /\
    (occurs "." (file_name file) = false -> extension (columns (row a)) = "").
Proof.
  intros Hok Hpub.
  destruct (ingestAsset_resolves env file metaData w Hok Hpub)
    as (a & w' & Hrun & Hcols & _).
  exists a, w'. split; [exact Hrun|].
  rewrite Hcols. simpl. split; [reflexivity|]. split.
  - intros base ext Hname Hne Hsb Hse Hde.
    rewrite Hname. now apply extname_of_base_ext.
  - intros Hnodot. now rewrite extname_without_dot.
Qed.

Lemma extension_is_suffix_as_written_witness :
  (persists calm None emptyWorld /\ publish_fault calm = None) /\
  exists a w',
    AssetController.ingestAsset calm scan None emptyWorld = (Resolved a, w') /\
    extension (columns (row a)) = Js.removeFirstDot (path.extname (file_name scan)) /\
    (forall base ext,
       file_name scan = base ++ "." ++ ext ->
       base <> "" -> occurs "/" base = false ->
       occurs "/" ext = false -> occurs "." ext = false ->
       extension (columns (row a)) = ext) /\
    (occurs "." (file_name scan) = false -> extension (columns (row a)) = "").
Proof.
  assert (Hok : persists calm None emptyWorld) by (repeat split).
  split; [repeat split|].
  exact (extension_is_suffix_as_written calm scan None emptyWorld Hok eq_refl).
Defined.

(** ** The content hash *)

Lemma land_255_range (z : Z) : (0 <= Z.land z 0xff < 256)%Z.
Proof.
  change 0xff%Z with (Z.ones 8). rewrite Z.land_ones by lia.
  apply Z.mod_pos_bound. lia.
Qed.

Lemma bytesLE_length (n : nat) (z : Z) : length (MD5.bytesLE n z) = n.
Proof. revert z. induction n as [|n IH]; intros z; simpl; [reflexivity|]. now rewrite IH. Qed.

Lemma bytesLE_range (n : nat) (z : Z) :
  Forall (fun b => (0 <= b < 256)%Z) (MD5.bytesLE n z).
Proof.
  revert z. induction n as [|n IH]; intros z; simpl; constructor.
  - apply land_255_range.
  - apply IH.
Qed.

Lemma digest_length (content : list byte) : length (MD5.digest content) = 16.
Proof.
  unfold MD5.digest.
  destruct (MD5.chunks _ _ _) as [a b c d].
  rewrite !length_app, !bytesLE_length. reflexivity.
Qed.

Lemma digest_range (content : list byte) :
  Forall (fun b => (0 <= b < 256)%Z) (MD5.digest content).
Proof.
  unfold MD5.digest.
  destruct (MD5.chunks _ _ _) as [a b c d].
  repeat (apply Forall_app; split); apply bytesLE_range.
Qed.

Lemma hexDigit_lower (z : Z) : (0 <= z < 16)%Z -> isLowerHex (MD5.hexDigit z) = true.
Proof.
  intros H.
  assert (Hz : In z [0; 1; 2; 3; 4; 5; 6; 7; 8; 9; 10; 11; 12; 13; 14; 15]%Z).
  { simpl. lia. }
  simpl in Hz.
  repeat (destruct Hz as [<-|Hz]; [reflexivity|]). destruct Hz.
Qed.

Lemma hex_length (bs : list Z) : String.length (MD5.hex bs) = 2 * length bs.
Proof. induction bs as [|b bs IH]; simpl; [reflexivity|]. rewrite IH. lia. Qed.

Lemma hex_lower (bs : list Z) :
  Forall (fun b => (0 <= b < 256)%Z) bs -> allChars isLowerHex (MD5.hex bs) = true.
Proof.
  induction 1 as [|b bs Hb _ IH]; [reflexivity|].
  cbn [MD5.hex allChars]. rewrite IH, !hexDigit_lower; [reflexivity| |].
  - change 0xf%Z with (Z.ones 4). rewrite Z.land_ones by lia.
    apply Z.mod_pos_bound. lia.
  - rewrite Z.shiftr_div_pow2 by lia. change (2 ^ 4)%Z with 16%Z.
    split; [apply Z.div_pos; lia|apply Z.div_lt_upper_bound; lia].
Qed.

(** The rendering of the digest is 32 lower-case hexadecimal digits. *)
Lemma md5hex_format (content : list byte) :
  String.length (MD5.md5hex content) = 32 /\
  allChars isLowerHex (MD5.md5hex content) = true.
Proof.
  unfold MD5.md5hex. split.
  - rewrite hex_length, digest_length. reflexivity.
  - apply hex_lower, digest_range.
Qed.

(** The digest function gives, on every message of the test suite of RFC
    1321, the digest that the RFC lists. *)
Lemma md5hex_rfc1321 :
  Forall (fun t => MD5.md5hex (list_byte_of_string (fst t)) = snd t) rfc1321_test_suite.
Proof. repeat constructor; vm_compute; reflexivity. Qed.

(** C10: the hash persisted with an ingested file is the MD5 digest, as 32
    lower-case hexadecimal digits, of the bytes that were uploaded to the
    object store at the asset's storage path; the digest function is the MD5
    of RFC 1321: it gives the digest listed for every message of the RFC's
    test suite. *)
Theorem hash_is_md5_of_uploaded_bytes env file metaData w :
  persists env metaData w ->
  publish_fault env = None ->
  exists a w',
    AssetController.ingestAsset env file metaData w = (Resolved a, w') /\
    hash (columns (row a)) = Some (MD5.md5hex (file_bytes file)) /\
    object_data <$> bucket w' !! stored_fullpath (columns (row a))
    = Some (file_bytes file) /\
    assets w' !! uuid (columns (row a)) = Some (row a) /\
    String.length (MD5.md5hex (file_bytes file)) = 32 /\
    allChars isLowerHex (MD5.md5hex (file_bytes file)) = true /\
    Forall (fun t => MD5.md5hex (list_byte_of_string (fst t)) = snd t)
      rfc1321_test_suite.
Proof.
  intros Hok Hpub.
  destruct (ingestAsset_resolves env file metaData w Hok Hpub)
    as (a & w' & Hrun & Hcols & _ & Hbucket & Hassets & _).
  exists a, w'. split; [exact Hrun|].
  rewrite Hbucket, Hassets, Hcols. simpl.
  rewrite !lookup_insert_eq. simpl.
  repeat split; try apply md5hex_format. exact md5hex_rfc1321.
Qed.

Lemma hash_is_md5_of_uploaded_bytes_witness :
  (persists calm (Some lakeHouse) emptyWorld /\ publish_fault calm = None) /\
  exists a w',
    AssetController.ingestAsset calm photo (Some lakeHouse) emptyWorld = (Resolved a, w') /\
    hash (columns (row a)) = Some "0f343b0931126a20f133d67c2b018a3b" /\
    object_data <$> bucket w' !! stored_fullpath (columns (row a))
    = Some (file_bytes photo) /\
    assets w' !! uuid (columns (row a)) = Some (row a) /\
    String.length (MD5.md5hex (file_bytes photo)) = 32 /\
    allChars isLowerHex (MD5.md5hex (file_bytes photo)) = true /\
    Forall (fun t => MD5.md5hex (list_byte_of_string (fst t)) = snd t)
      rfc1321_test_suite.
Proof.
  assert (Hok : persists calm (Some lakeHouse) emptyWorld) by (repeat split).
  split; [repeat split|].
  destruct (hash_is_md5_of_uploaded_bytes calm photo (Some lakeHouse) emptyWorld Hok eq_refl)
    as (a & w' & Hrun & Hhash & Hrest).
  exists a, w'. split; [exact Hrun|]. split; [|exact Hrest].
  rewrite Hhash. apply f_equal. vm_compute. reflexivity.
Defined.

(** ** Ingestion without metadata *)

Lemma ingestAsset_unclassified env file w :
  let id := randomUUID env in
  let p := "assets/unclassified/" ++ id ++ path.extname (file_name file) in
  let run := AssetController.ingestAsset env file None w in
  (exists rest,
     calls (snd run) = (calls w ++ PutObject p :: rest)%list /\
     Forall (fun c => forall q, objectOf c = Some q -> q = p) rest) /\
  asset_meta_base (snd run) = asset_meta_base w /\
  match fst run with
  | Resolved a =>
      meta_base a = None /\
      stored_fullpath (columns (row a)) = p /\
      assets (snd run) !! id = Some (row a) /\
      is_Some (bucket (snd run) !! p)
  | Rejected e => e = ServerError "Failed to ingest asset" 500
  end.
Proof.
  intros id p run. subst run.
  run_async. unfold asset_create. simpl.
  destruct (putObject_fault env); simpl;
  [|destruct (presignedGetObject_fault env); simpl;
    [|destruct (assetCreate_fault env); simpl;
      [|destruct (assets w !! randomUUID env); simpl;
        [|destruct (publish_fault env); simpl]]]];
  destruct (removeObject_fault env); simpl;
  (split;
   [eexists; split;
    [rewrite <- ?app_assoc; simpl; reflexivity
    |repeat (constructor;
             [simpl; intros q Hq; try discriminate; injection Hq as <-; reflexivity|]);
     constructor]
   |split; [reflexivity|]]);
  try reflexivity.
  all: repeat split; rewrite lookup_insert_eq; eauto.
Qed.

(** C4: an ingestion request in which one of the five fields is absent or
    empty is served exactly as the request with the same file and no field
    at all. It is not rejected for its metadata: the upload is aimed at
    [assets/unclassified/{id}{extension}], no other object is ever named, the
    metadata table is left as it was, and an asset that is returned has no
    metadata and that storage path. With all services answering the request
    succeeds with status 200. *)
Theorem partial_metadata_is_discarded env file m w :
  present (body_asset_type m) = false \/
  present (body_asset_class m) = false \/
  present (body_asset_location_name m) = false \/
  present (body_asset_camera m) = false \/
  present (body_asset_date_label m) = false ->
  let id := randomUUID env in
  let p := "assets/unclassified/" ++ id ++ path.extname (file_name file) in
  let run := assetRoutes.postIngest env {| body_file := Some file; body_meta := m |} w in
  run = assetRoutes.postIngest env {| body_file := Some file; body_meta := noFields |} w /\
  String.prefix "assets/unclassified/" p = true /\
  (exists rest,
     calls (snd run) = (calls w ++ PutObject p :: rest)%list /\
     Forall (fun c => forall q, objectOf c = Some q -> q = p) rest) /\
  asset_meta_base (snd run) = asset_meta_base w /\
  (exists response,
     fst run = Resolved response /\
     match reply response with
     | Success (Some a) =>
         status response = 200 /\
         meta_base a = None /\
         stored_fullpath (columns (row a)) = p /\
         assets (snd run) !! id = Some (row a) /\
         is_Some (bucket (snd run) !! p)
     | Failure msg => status response = 500 /\ msg = "Failed to ingest asset"
     | _ => False
     end) /\
  (persists env None w -> publish_fault env = None ->
   exists response, fst run = Resolved response /\ status response = 200).
Proof.
  intros Hpartial id p run.
  assert (Hnot : present (body_asset_type m) && present (body_asset_class m)
                 && present (body_asset_location_name m) && present (body_asset_camera m)
                 && present (body_asset_date_label m) = false).
  { decompose [or] Hpartial;
      match goal with H : present _ = false |- _ => rewrite H end;
      rewrite ?andb_false_r; reflexivity. }
  assert (Hrun : run = assetRoutes.postIngest env
                         {| body_file := Some file; body_meta := noFields |} w).
  { subst run. unfold assetRoutes.postIngest. simpl. rewrite Hnot. reflexivity. }
  split; [exact Hrun|].
  split; [unfold p; destruct (id ++ path.extname (file_name file)); reflexivity|].
  rewrite Hrun. clear Hrun Hnot Hpartial run.
  unfold assetRoutes.postIngest, await, tryCatch, logger.write, resolve. simpl.
  match goal with
  | |- context [AssetController.ingestAsset env file None ?W] =>
      pose proof (ingestAsset_unclassified env file W) as Hin;
      pose proof (ingestAsset_resolves env file None W) as Hok;
      destruct (AssetController.ingestAsset env file None W) as [out w1]
  end.
  simpl in Hin, Hok. destruct Hin as ((rest & Hcalls & Hrest) & Hmeta & Hout).
  destruct out as [a|e]; simpl.
  - split; [exists rest; split; assumption|]. split; [exact Hmeta|]. split.
    + eexists. split; [reflexivity|]. simpl.
      destruct Hout as (? & ? & ? & ?). repeat split; assumption.
    + intros _ _. eexists. split; reflexivity.
  - subst e. simpl. split; [|split; [exact Hmeta|split]].
    + exists rest. split; assumption.
    + eexists. split; [reflexivity|]. simpl. split; reflexivity.
    + intros Hpersists Hpub.
      destruct (Hok Hpersists Hpub) as (a & w' & Heq & _). discriminate.
Qed.

Lemma partial_metadata_is_discarded_witness :
  let id := randomUUID calm in
  let p := "assets/unclassified/" ++ id ++ path.extname (file_name photo) in
  let run := assetRoutes.postIngest calm
               {| body_file := Some photo; body_meta := withoutCamera |} emptyWorld in
  present (body_asset_camera withoutCamera) = false /\
  run = assetRoutes.postIngest calm
          {| body_file := Some photo; body_meta := noFields |} emptyWorld /\
  String.prefix "assets/unclassified/" p = true /\
  (exists rest,
     calls (snd run) = (calls emptyWorld ++ PutObject p :: rest)%list /\
     Forall (fun c => forall q, objectOf c = Some q -> q = p) rest) /\
  asset_meta_base (snd run) = asset_meta_base emptyWorld /\
  (exists response,
     fst run = Resolved response /\
     match reply response with
     | Success (Some a) =>
         status response = 200 /\
         meta_base a = None /\
         stored_fullpath (columns (row a)) = p /\
         assets (snd run) !! id = Some (row a) /\
         is_Some (bucket (snd run) !! p)
     | Failure msg => status response = 500 /\ msg = "Failed to ingest asset"
     | _ => False
     end) /\
  (persists calm None emptyWorld -> publish_fault calm = None ->
   exists response, fst run = Resolved response /\ status response = 200).
Proof.
  intros id p run. split; [reflexivity|].
  exact (partial_metadata_is_discarded calm photo withoutCamera emptyWorld
           (or_intror (or_intror (or_intror (or_introl eq_refl))))).
Defined.

(** ** Validation of the metadata request *)

Lemma missingOf_schema (body : MetaFields) :
  List.filter (fun f => negb (present (property body f)))
    assetRoutes.metadataSchemaRequired
  = missingOf body.
Proof.
  unfold missingOf, entries, assetRoutes.metadataSchemaRequired, property. simpl.
  destruct (present (body_asset_type body)), (present (body_asset_class body)),
    (present (body_asset_location_name body)), (present (body_asset_camera body)),
    (present (body_asset_date_label body)); reflexivity.
Qed.

Lemma missingOf_listed (body : MetaFields) (f : string) (v : option string) :
  In (f, v) (entries body) -> (In f (missingOf body) <-> present v = false).
Proof.
  unfold missingOf, entries. simpl.
  intros H. decompose [or] H; clear H;
    try match goal with H : False |- _ => destruct H end;
    match goal with H : (_, _) = (_, _) |- _ => injection H as <- <- end;
    destruct (present (body_asset_type body)), (present (body_asset_class body)),
      (present (body_asset_location_name body)), (present (body_asset_camera body)),
      (present (body_asset_date_label body)); simpl;
    (split; [intros Hin; decompose [or] Hin; (discriminate || reflexivity || tauto)
            |intros Hp; (discriminate || tauto)]).
Qed.

Lemma missingOf_nonempty (body : MetaFields) :
  present (body_asset_type body) = false \/
  present (body_asset_class body) = false \/
  present (body_asset_location_name body) = false \/
  present (body_asset_camera body) = false \/
  present (body_asset_date_label body) = false ->
  missingOf body <> [].
Proof.
  unfold missingOf, entries. simpl. intros H.
  decompose [or] H; clear H;
    match goal with H : present _ = false |- _ => rewrite H end; simpl;
    repeat match goal with |- context [present ?x] => destruct (present x); simpl end;
    discriminate.
Qed.

Lemma requiredSentence_single (missing : list string) :
  missing <> [] ->
  exists sentence,
    base.requiredSentence missing = [sentence] /\ Js.truthy sentence = true.
Proof.
  intros Hne. destruct missing as [|f [|g rest]]; [congruence| |];
    eexists; (split; [reflexivity|reflexivity]).
Qed.

(** The handler alone refuses a body with an absent or empty field, before
    it does anything else. *)
Lemma handler_refuses_missing_fields env uuid body w :
  missingOf body <> [] ->
  assetRoutes.postMetadata env uuid body w
  = (Resolved {| status := 400;
                 reply := Failure ("Missing required metadata fields: "
                                   ++ Js.join ", " (missingOf body)) |}, w).
Proof.
  intros Hne. unfold assetRoutes.postMetadata, tryCatch, resolve.
  fold (missingOf body).
  destruct (missingOf body) as [|f rest]; [congruence|reflexivity].
Qed.

(** C5: a metadata request in which one or more of the five fields is absent
    or empty is answered with status 400, and names every such field and no
    other: in the handler's message, or, for a body that the schema refuses,
    in the error details of the validation hook. The tables are as before
    and no call has been issued. A request that lacks only [asset_camera]
    names exactly that field. *)
Theorem missing_fields_are_refused env uuid body w :
  present (body_asset_type body) = false \/
  present (body_asset_class body) = false \/
  present (body_asset_location_name body) = false \/
  present (body_asset_camera body) = false \/
  present (body_asset_date_label body) = false ->
  let run := assetRoutes.serveMetadata env uuid body w in
  exists response,
    fst run = Resolved response /\
    status response = 400 /\
    (reply response
     = Failure ("Missing required metadata fields: " ++ Js.join ", " (missingOf body)) \/
     exists details,
       reply response = ErrorResult (makeErrorResult (fe_message details) 400 details) /\
       missing_required_fields details = missingOf body /\
       base.requiredSentence (missingOf body) = [fe_message details]) /\
    (forall f v, In (f, v) (entries body) ->
                 (In f (missingOf body) <-> present v = false)) /\
    assets (snd run) = assets w /\
    asset_meta_base (snd run) = asset_meta_base w /\
    calls (snd run) = calls w /\
    (present (body_asset_type body) = true ->
     present (body_asset_class body) = true ->
     present (body_asset_location_name body) = true ->
     present (body_asset_date_label body) = true ->
     missingOf body = ["asset_camera"] /\
     (reply response = Failure "Missing required metadata fields: asset_camera" \/
      exists details,
        reply response = ErrorResult (makeErrorResult (fe_message details) 400 details) /\
        missing_required_fields details = ["asset_camera"] /\
        fe_message details
        = "The field " ++ base.dquote ++ "asset_camera" ++ base.dquote ++ " is required")).
Proof.
  intros Hmissing run.
  pose proof (missingOf_nonempty body Hmissing) as Hne.
  assert (Honly :
    present (body_asset_type body) = true ->
    present (body_asset_class body) = true ->
    present (body_asset_location_name body) = true ->
    present (body_asset_date_label body) = true ->
    missingOf body = ["asset_camera"]).
  { intros H1 H2 H3 H5.
    assert (H4 : present (body_asset_camera body) = false)
      by (decompose [or] Hmissing; congruence).
    unfold missingOf, entries. simpl. now rewrite H1, H2, H3, H4, H5. }
  subst run. unfold assetRoutes.serveMetadata.
  destruct (assetRoutes.fitsMetadataSchema body).
  - (* the handler runs *)
    rewrite (handler_refuses_missing_fields env uuid body w Hne).
    eexists. split; [reflexivity|]. simpl. split; [reflexivity|].
    split; [left; reflexivity|].
    split; [intros g v Hin; now apply missingOf_listed|].
    do 3 (split; [reflexivity|]).
    intros H1 H2 H3 H5. split; [now apply Honly|].
    left. rewrite (Honly H1 H2 H3 H5). reflexivity.
  - (* the schema refuses the body *)
    unfold base.onValidationError, base.formatValidationError, await, logger.write,
      resolve.
    cbn [ve_value schema_required ve_type].
    rewrite missingOf_schema.
    destruct (requiredSentence_single (missingOf body) Hne) as (sentence & Hs & Ht).
    rewrite Hs. unfold Js.join, Js.orElse. simpl. rewrite Ht.
    eexists. split; [reflexivity|]. simpl. split; [reflexivity|].
    split.
    { right.
      match goal with |- context [makeErrorResult _ _ ?d] => exists d end.
      repeat split. }
    split; [intros g v Hin; now apply missingOf_listed|].
    do 3 (split; [reflexivity|]).
    intros H1 H2 H3 H5. split; [now apply Honly|].
    right.
    match goal with |- context [makeErrorResult _ _ ?d] => exists d end.
    simpl. rewrite (Honly H1 H2 H3 H5) in Hs |- *. repeat split.
    simpl in Hs. congruence.
Qed.

Lemma missing_fields_are_refused_witness :
  let run := assetRoutes.serveMetadata calm "0b1c" emptyCamera emptyWorld in
  present (body_asset_camera emptyCamera) = false /\
  exists response,
    fst run = Resolved response /\
    status response = 400 /\
    (reply response
     = Failure ("Missing required metadata fields: "
                ++ Js.join ", " (missingOf emptyCamera)) \/
     exists details,
       reply response = ErrorResult (makeErrorResult (fe_message details) 400 details) /\
       missing_required_fields details = missingOf emptyCamera /\
       base.requiredSentence (missingOf emptyCamera) = [fe_message details]) /\
    (forall f v, In (f, v) (entries emptyCamera) ->
                 (In f (missingOf emptyCamera) <-> present v = false)) /\
    assets (snd run) = assets emptyWorld /\
    asset_meta_base (snd run) = asset_meta_base emptyWorld /\
    calls (snd run) = calls emptyWorld /\
    (present (body_asset_type emptyCamera) = true ->
     present (body_asset_class emptyCamera) = true ->
     present (body_asset_location_name emptyCamera) = true ->
     present (body_asset_date_label emptyCamera) = true ->
     missingOf emptyCamera = ["asset_camera"] /\
     (reply response = Failure "Missing required metadata fields: asset_camera" \/
      exists details,
        reply response = ErrorResult (makeErrorResult (fe_message details) 400 details) /\
        missing_required_fields details = ["asset_camera"] /\
        fe_message details
        = "The field " ++ base.dquote ++ "asset_camera" ++ base.dquote ++ " is required")).
Proof.
  intros run. split; [reflexivity|].
  exact (missing_fields_are_refused calm "0b1c" emptyCamera emptyWorld
           (or_intror (or_intror (or_intror (or_introl eq_refl))))).
Defined.

(** The two ways in which a request without a camera is refused. *)
Example camera_missing_both_ways :
  fst (assetRoutes.serveMetadata calm "0b1c" emptyCamera emptyWorld)
  = Resolved {| status := 400;
                reply := Failure "Missing required metadata fields: asset_camera" |} /\
  (exists details,
     fst (assetRoutes.serveMetadata calm "0b1c" withoutCamera emptyWorld)
     = Resolved {| status := 400;
                   reply := ErrorResult
                              {| http_status := 400; success := false;
                                 rest_message := fe_message details;
                                 content := Some details |} |} /\
     missing_required_fields details = ["asset_camera"] /\
     fe_message details
     = "The field " ++ base.dquote ++ "asset_camera" ++ base.dquote ++ " is required").
Proof.
  split; [reflexivity|]. eexists. split; [reflexivity|]. split; reflexivity.
Qed.

(** ** Metadata upsert *)

(** C6: [upsertMetadata] on an identifier that no asset has, once the lookup
    is answered, fails with the [ServerError] "Asset not found" of status
    404; the two tables are as before, and the lookup is the only call
    issued. *)
Theorem upsert_unknown_asset_is_not_found env assetUuid metaData w :
  assets w !! assetUuid = None ->
  findUnique_fault env = None ->
  let run := AssetController.upsertMetadata env assetUuid metaData w in
  fst run = Rejected (ServerError "Asset not found" 404) /\
  assets (snd run) = assets w /\
  asset_meta_base (snd run) = asset_meta_base w /\
  calls (snd run) = (calls w ++ [AssetFindUnique assetUuid])%list.
Proof.
  intros Habsent Hfind run. subst run.
  run_async. rewrite Hfind, Habsent. simpl. repeat split.
Qed.

Lemma upsert_unknown_asset_is_not_found_witness :
  let run := AssetController.upsertMetadata calm "ffff" lakeHouse emptyWorld in
  (assets emptyWorld !! "ffff" = None /\ findUnique_fault calm = None) /\
  fst run = Rejected (ServerError "Asset not found" 404) /\
  assets (snd run) = assets emptyWorld /\
  asset_meta_base (snd run) = asset_meta_base emptyWorld /\
  calls (snd run) = (calls emptyWorld ++ [AssetFindUnique "ffff"])%list.
Proof.
  intros run. split; [split; reflexivity|].
  exact (upsert_unknown_asset_is_not_found calm "ffff" lakeHouse emptyWorld
           eq_refl eq_refl).
Defined.

(** The route answers such a request with status 404. *)
Example metadata_route_not_found :
  fst (assetRoutes.serveMetadata calm "ffff"
         {| body_asset_type := Some "img"; body_asset_class := Some "family";
            body_asset_location_name := Some "Lake House";
            body_asset_camera := Some "Canon R5";
            body_asset_date_label := Some "2024-07-01" |} emptyWorld)
  = Resolved {| status := 404; reply := Failure "Asset not found" |}.
Proof. reflexivity. Qed.

(** Whatever the database does, an identifier that no asset has leaves the
    two tables as they are. *)
Lemma upsert_unknown_asset_writes_nothing env assetUuid metaData w :
  assets w !! assetUuid = None ->
  let run := AssetController.upsertMetadata env assetUuid metaData w in
  assets (snd run) = assets w /\ asset_meta_base (snd run) = asset_meta_base w.
Proof.
  intros Habsent run. subst run. run_async.
  destruct (findUnique_fault env); simpl; [split; reflexivity|].
  rewrite Habsent. simpl. split; reflexivity.
Qed.

Lemma metaRow_eta (old : AssetMetaBase) :
  {| meta_id := meta_id old; fields := fields old; asset_id := asset_id old |} = old.
Proof. destruct old; reflexivity. Qed.

Lemma metaData_eta (m : MetaData) :
  {| asset_type := asset_type m; asset_class := asset_class m;
     asset_location_name := asset_location_name m; asset_camera := asset_camera m;
     asset_date_label := asset_date_label m |} = m.
Proof. destruct m; reflexivity. Qed.

(** C7: on an existing asset, with the database answering, [upsertMetadata]
    returns the asset with the metadata given; a second call with the same
    metadata, under any environment, leaves the two tables, the bucket and
    the published messages as the first call left them, and returns the same
    asset when the database answers again. *)
Theorem upsert_is_idempotent env assetUuid metaData w :
  is_Some (assets w !! assetUuid) ->
  answers env ->
  exists a w1,
    AssetController.upsertMetadata env assetUuid metaData w = (Resolved (Some a), w1) /\
    fields <$> meta_base a = Some metaData /\
    asset_meta_base w1 !! assetUuid = meta_base a /\
    forall env2,
      let again := AssetController.upsertMetadata env2 assetUuid metaData w1 in
      assets (snd again) = assets w1 /\
      asset_meta_base (snd again) = asset_meta_base w1 /\
      bucket (snd again) = bucket w1 /\
      published (snd again) = published w1 /\
      (answers env2 -> fst again = Resolved (Some a)).
Proof.
  intros [r Hr] (Hfind & Hup & Hre).
  assert (Hagain : forall (w1 : World) (old : AssetMetaBase) env2,
    assets w1 !! assetUuid = Some r ->
    asset_meta_base w1 !! assetUuid = Some old ->
    fields old = metaData ->
    let again := AssetController.upsertMetadata env2 assetUuid metaData w1 in
    assets (snd again) = assets w1 /\
    asset_meta_base (snd again) = asset_meta_base w1 /\
    bucket (snd again) = bucket w1 /\
    published (snd again) = published w1 /\
    (answers env2 ->
     fst again = Resolved (Some {| row := r; meta_base := Some old |}))).
  { intros w1 old env2 Hr1 Hold Hfields again. subst again.
    run_async. unfold assetMetaBase_upsert. simpl.
    assert (Hsame : <[assetUuid :=
                        {| meta_id := meta_id old;
                           fields := {| asset_type := asset_type metaData;
                                        asset_class := asset_class metaData;
                                        asset_location_name := asset_location_name metaData;
                                        asset_camera := asset_camera metaData;
                                        asset_date_label := asset_date_label metaData |};
                           asset_id := asset_id old |}]> (asset_meta_base w1)
                    = asset_meta_base w1).
    { apply insert_id. rewrite Hold. f_equal.
      rewrite metaData_eta, <- Hfields. symmetry. apply metaRow_eta. }
    destruct (findUnique_fault env2) eqn:Hf2; simpl.
    { repeat split. intros (Hx & _). congruence. }
    rewrite Hr1. simpl.
    destruct (upsert_fault env2) eqn:Hu2; simpl.
    { repeat split. intros (_ & Hx & _). congruence. }
    rewrite Hold. simpl.
    destruct (refetch_fault env2) eqn:Hr2; simpl.
    { repeat split; try exact Hsame. intros (_ & _ & Hx). congruence. }
    rewrite Hr1, Hsame, Hold. repeat split. }
  assert (Hfirst : exists old w1,
    AssetController.upsertMetadata env assetUuid metaData w
    = (Resolved (Some {| row := r; meta_base := Some old |}), w1) /\
    assets w1 !! assetUuid = Some r /\
    asset_meta_base w1 !! assetUuid = Some old /\
    fields old = metaData).
  { run_async. unfold assetMetaBase_upsert. simpl.
    rewrite Hfind, Hr. simpl. rewrite Hup. simpl.
    destruct (asset_meta_base w !! assetUuid) as [old|] eqn:Hold; simpl;
      [|rewrite Hr; simpl]; rewrite Hre; simpl; rewrite Hr, lookup_insert_eq;
      (do 2 eexists; split; [reflexivity|]; simpl;
       split; [exact Hr|]; split; [apply lookup_insert_eq|apply metaData_eta]). }
  destruct Hfirst as (old & w1 & Hrun & Hr1 & Hold & Hfields).
  exists {| row := r; meta_base := Some old |}, w1.
  split; [exact Hrun|]. simpl.
  split; [now rewrite Hfields|].
  split; [exact Hold|].
  intros env2. now apply Hagain.
Qed.

Lemma upsert_is_idempotent_witness :
  (is_Some (assets stocked !! "0b1c") /\ answers calm) /\
  exists a w1,
    AssetController.upsertMetadata calm "0b1c" lakeHouse stocked = (Resolved (Some a), w1) /\
    fields <$> meta_base a = Some lakeHouse /\
    asset_meta_base w1 !! "0b1c" = meta_base a /\
    forall env2,
      let again := AssetController.upsertMetadata env2 "0b1c" lakeHouse w1 in
      assets (snd again) = assets w1 /\
      asset_meta_base (snd again) = asset_meta_base w1 /\
      bucket (snd again) = bucket w1 /\
      published (snd again) = published w1 /\
      (answers env2 -> fst again = Resolved (Some a)).
Proof.
  assert (Hthere : is_Some (assets stocked !! "0b1c")) by (eexists; vm_compute; reflexivity).
  assert (Hdb : answers calm) by (repeat split).
  split; [split; assumption|].
  exact (upsert_is_idempotent calm "0b1c" lakeHouse stocked Hthere Hdb).
Defined.
(** * Further properties of the code *)

(** ** A summary of every run of [ingestAsset] *)

Lemma ingestAsset_summary env file metaData w :
  let id := randomUUID env in
  let o := AssetController.storedPathForUpload id (path.extname (file_name file)) metaData in
  let obj := {| object_data := file_bytes file; object_size := file_size file;
                content_type := file_type file |} in
  let r := {| columns :=
                {| uuid := id;
                   imported_fullpath := file_name file;
                   imported_filename := path.basename (file_name file);
                   stored_fullpath := o;
                   stored_url := presignedUrl env o;
                   size_bytes := file_size file;
                   stored_filename := path.basename o;
                   extension := Js.removeFirstDot (path.extname (file_name file));
                   hash := Some (MD5.md5hex (file_bytes file)) |};
              uploaded_at := now env |} in
  let mb := (fun m => {| meta_id := metaRowId env; fields := m; asset_id := id |})
              <$> metaData in
  let a := {| row := r; meta_base := mb |} in
  let p := progress env metaData w in
  let run := AssetController.ingestAsset env file metaData w in
  fst run = match p with
            | Completed => Resolved a
            | _ => Rejected (ServerError "Failed to ingest asset" 500)
            end /\
  calls (snd run) = (calls w ++ callsUpTo p o id)%list /\
  bucket (snd run)
  = (let uploaded := match p with
                     | StoppedAtUpload => bucket w
                     | _ => <[o := obj]> (bucket w)
                     end in
     match p, removeObject_fault env with
     | Completed, _ => uploaded
     | _, Some _ => uploaded
     | _, None => delete o uploaded
     end) /\
  assets (snd run) = (if wrote p then <[id := r]> (assets w) else assets w) /\
  asset_meta_base (snd run)
  = (match wrote p, mb with
     | true, Some x => <[id := x]> (asset_meta_base w)
     | _, _ => asset_meta_base w
     end) /\
  published (snd run)
  = (match p with
     | Completed =>
         published w ++
         [{| channel := "asset_ingested";
             ev_asset := {| ev_uuid := id;
                            ev_filename := path.basename (file_name file);
                            ev_url := presignedUrl env o;
                            ev_extension := Js.removeFirstDot (path.extname (file_name file));
                            ev_size := file_size file |};
             ev_meta := mb |}]
     | _ => published w
     end)%list.
Proof.
  intros id o obj r mb a p run. subst run p. unfold progress.
  run_async. rewrite storedPath_recomputed. fold id o.
  destruct (putObject_fault env); simpl.
  { destruct (removeObject_fault env); simpl; repeat split;
      rewrite <- ?app_assoc; reflexivity. }
  destruct (presignedGetObject_fault env); simpl.
  { destruct (removeObject_fault env); simpl; repeat split;
      rewrite <- ?app_assoc; reflexivity. }
  destruct (createRefusal env id metaData w) as [m|] eqn:Hdb.
  { erewrite asset_create_refused by exact Hdb. simpl.
    destruct (removeObject_fault env); simpl; repeat split;
      rewrite <- ?app_assoc; reflexivity. }
  erewrite asset_create_accepted by exact Hdb. simpl.
  destruct (publish_fault env); simpl.
  { destruct (removeObject_fault env); simpl; repeat split;
      rewrite <- ?app_assoc; try reflexivity; destruct metaData; reflexivity. }
  repeat split; rewrite <- ?app_assoc; try reflexivity; destruct metaData; reflexivity.
Qed.

Lemma progress_Completed env metaData w :
  progress env metaData w = Completed <->
  persists env metaData w /\ publish_fault env = None.
Proof.
  unfold progress, persists.
  destruct (putObject_fault env), (presignedGetObject_fault env),
    (createRefusal env (randomUUID env) metaData w), (publish_fault env);
    split; try discriminate; try tauto;
    intros (H1 & H2); try discriminate; destruct H1 as (H3 & H4 & H5); discriminate.
Qed.

(** ** The outcomes of [ingestAsset] *)

(** X1: [ingestAsset] resolves exactly when the upload, the presigned URL,
    the database write and the publish all go through; in every other case
    it rejects with the [ServerError] "Failed to ingest asset" of status 500,
    whatever error caused the failure. *)
Theorem ingestAsset_outcome env file metaData w :
  match fst (AssetController.ingestAsset env file metaData w) with
  | Resolved a => persists env metaData w /\ publish_fault env = None
  | Rejected e =>
      e = ServerError "Failed to ingest asset" 500 /\
      ~ (persists env metaData w /\ publish_fault env = None)
  end.
Proof.
  destruct (ingestAsset_summary env file metaData w) as (Hout & _).
  rewrite Hout. pose proof (progress_Completed env metaData w) as Hp.
  destruct (progress env metaData w);
    try (split; [reflexivity|]; intros H; apply Hp in H; discriminate).
  now apply Hp.
Qed.

(** X2: the cleanup is attempted on every failure and only then: a run that
    rejects ends with a delete at the storage path, also when it is the upload
    itself that failed; a run that resolves issues no delete. *)
Theorem cleanup_exactly_on_failure env file metaData w :
  let o := AssetController.storedPathForUpload (randomUUID env)
             (path.extname (file_name file)) metaData in
  let run := AssetController.ingestAsset env file metaData w in
  exists issued,
    calls (snd run) = (calls w ++ issued)%list /\
    match fst run with
    | Rejected _ => exists earlier, issued = (earlier ++ [RemoveObject o])%list
    | Resolved _ => forall q, ~ In (RemoveObject q) issued
    end.
Proof.
  intros o run.
  destruct (ingestAsset_summary env file metaData w) as (Hout & Hcalls & _).
  fold o run in Hout, Hcalls. rewrite Hout.
  eexists. split; [exact Hcalls|].
  destruct (progress env metaData w); simpl.
  - exists [PutObject o]. reflexivity.
  - exists [PutObject o; PresignedGetObject o]. reflexivity.
  - exists [PutObject o; PresignedGetObject o; AssetCreate (randomUUID env)]. reflexivity.
  - exists [PutObject o; PresignedGetObject o; AssetCreate (randomUUID env);
            Publish "asset_ingested"]. reflexivity.
  - intros q Hq. decompose [or] Hq; discriminate || contradiction.
Qed.

(** X3: when the upload or the presigned URL fails, the database and the
    broker are never called: the run rejects, the two tables and the
    published messages are as before, and every call issued names the storage
    path in the object store. *)
Theorem early_failure_writes_nothing env file metaData w :
  putObject_fault env <> None \/ presignedGetObject_fault env <> None ->
  let o := AssetController.storedPathForUpload (randomUUID env)
             (path.extname (file_name file)) metaData in
  let run := AssetController.ingestAsset env file metaData w in
  fst run = Rejected (ServerError "Failed to ingest asset" 500) /\
  assets (snd run) = assets w /\
  asset_meta_base (snd run) = asset_meta_base w /\
  published (snd run) = published w /\
  exists issued,
    calls (snd run) = (calls w ++ issued)%list /\
    Forall (fun c => objectOf c = Some o) issued.
Proof.
  intros Hearly o run.
  destruct (ingestAsset_summary env file metaData w)
    as (Hout & Hcalls & _ & Hassets & Hmeta & Hpub).
  fold o run in Hout, Hcalls, Hassets, Hmeta, Hpub.
  rewrite Hout, Hassets, Hmeta, Hpub.
  assert (Hp : progress env metaData w = StoppedAtUpload
               \/ progress env metaData w = StoppedAtUrl).
  { unfold progress. destruct (putObject_fault env); [now left|].
    destruct (presignedGetObject_fault env); [now right|].
    destruct Hearly; congruence. }
  destruct Hp as [Hp|Hp]; rewrite Hp in *; simpl;
    (repeat split; eexists; split; [exact Hcalls|]; repeat constructor).
Qed.

Lemma early_failure_writes_nothing_witness :
  let o := AssetController.storedPathForUpload (randomUUID uploadDown)
             (path.extname (file_name photo)) (Some lakeHouse) in
  let run := AssetController.ingestAsset uploadDown photo (Some lakeHouse) stocked in
  (putObject_fault uploadDown <> None \/ presignedGetObject_fault uploadDown <> None) /\
  fst run = Rejected (ServerError "Failed to ingest asset" 500) /\
  assets (snd run) = assets stocked /\
  asset_meta_base (snd run) = asset_meta_base stocked /\
  published (snd run) = published stocked /\
  exists issued,
    calls (snd run) = (calls stocked ++ issued)%list /\
    Forall (fun c => objectOf c = Some o) issued.
Proof.
  intros o run.
  assert (H : putObject_fault uploadDown <> None
              \/ presignedGetObject_fault uploadDown <> None)
    by (left; discriminate).
  split; [exact H|].
  exact (early_failure_writes_nothing uploadDown photo (Some lakeHouse) stocked H).
Defined.

(** X4: a message is published only by a run that resolves, and then it is
    one [asset_ingested] message that carries the identity, display name,
    URL, extension and size of the asset returned, and its metadata; a run
    that rejects publishes nothing. *)
Theorem published_only_on_success env file metaData w :
  let run := AssetController.ingestAsset env file metaData w in
  match fst run with
  | Resolved a =>
      published (snd run)
      = (published w ++
         [{| channel := "asset_ingested";
             ev_asset := {| ev_uuid := uuid (columns (row a));
                            ev_filename := imported_filename (columns (row a));
                            ev_url := stored_url (columns (row a));
                            ev_extension := extension (columns (row a));
                            ev_size := size_bytes (columns (row a)) |};
             ev_meta := meta_base a |}])%list /\
      assets (snd run) !! uuid (columns (row a)) = Some (row a) /\
      is_Some (bucket (snd run) !! stored_fullpath (columns (row a)))
  | Rejected _ => published (snd run) = published w
  end.
Proof.
  intros run.
  destruct (ingestAsset_summary env file metaData w)
    as (Hout & _ & Hbucket & Hassets & _ & Hpub).
  fold run in Hout, Hbucket, Hassets, Hpub.
  rewrite Hout, Hpub, Hbucket, Hassets.
  destruct (progress env metaData w); simpl; try reflexivity.
  rewrite !lookup_insert_eq. repeat split. eauto.
Qed.

(** X5: an ingestion touches nothing but its own asset: the rows of every
    other identity, in both tables, and the objects at every other path are
    as before, whatever happens during the run. *)
Theorem ingestAsset_frame env file metaData w id' o' :
  let id := randomUUID env in
  let o := AssetController.storedPathForUpload id (path.extname (file_name file)) metaData in
  let run := AssetController.ingestAsset env file metaData w in
  (id' <> id ->
   assets (snd run) !! id' = assets w !! id' /\
   asset_meta_base (snd run) !! id' = asset_meta_base w !! id') /\
  (o' <> o -> bucket (snd run) !! o' = bucket w !! o').
Proof.
  intros id o run.
  destruct (ingestAsset_summary env file metaData w)
    as (_ & _ & Hbucket & Hassets & Hmeta & _).
  fold id o run in Hbucket, Hassets, Hmeta.
  rewrite Hbucket, Hassets, Hmeta. split.
  - intros Hne. destruct (wrote (progress env metaData w)).
    + rewrite lookup_insert_ne by congruence.
      destruct metaData; simpl; [rewrite lookup_insert_ne by congruence|]; split; reflexivity.
    + split; reflexivity.
  - intros Hne.
    destruct (progress env metaData w), (removeObject_fault env); simpl;
      rewrite ?lookup_delete_ne, ?lookup_insert_ne by congruence; reflexivity.
Qed.

(** ** Integrity of the two tables *)

Lemma consistent_empty : consistent emptyWorld.
Proof. intros id mb H. simpl in H. rewrite lookup_empty in H. discriminate. Qed.

Lemma consistent_catalogued : consistent catalogued.
Proof.
  assert (Hmeta : asset_meta_base catalogued
                  = <["0b1c" := {| meta_id := "77aa"; fields := cabin;
                                   asset_id := "0b1c" |}]> ∅)
    by (vm_compute; reflexivity).
  intros id mb. rewrite Hmeta.
  destruct (decide (id = "0b1c")) as [->|Hne].
  - rewrite lookup_insert_eq. intros [= <-]. split; [reflexivity|].
    eexists. vm_compute. reflexivity.
  - rewrite lookup_insert_ne by congruence. rewrite lookup_empty. discriminate.
Qed.

(** X6: referential integrity is an invariant of ingestion: if every
    metadata row is filed under its [asset_id] and belongs to an existing
    asset before [ingestAsset] runs, the same holds afterwards, whatever
    fails during the run. *)
Theorem ingestAsset_keeps_integrity env file metaData w :
  consistent w ->
  consistent (snd (AssetController.ingestAsset env file metaData w)).
Proof.
  intros Hw.
  destruct (ingestAsset_summary env file metaData w)
    as (_ & _ & _ & Hassets & Hmeta & _).
  intros id mb. rewrite Hassets, Hmeta.
  destruct (wrote (progress env metaData w)); [|apply Hw].
  destruct (decide (id = randomUUID env)) as [->|Hne].
  - rewrite lookup_insert_eq. destruct metaData as [m|]; simpl.
    + rewrite lookup_insert_eq. intros [= <-]. simpl. split; [reflexivity|eauto].
    + intros H. split; [apply (Hw _ _ H)|eauto].
  - rewrite lookup_insert_ne by congruence.
    destruct metaData as [m|]; simpl;
      [rewrite lookup_insert_ne by congruence|]; apply Hw.
Qed.

Lemma ingestAsset_keeps_integrity_witness :
  consistent emptyWorld /\
  consistent (snd (AssetController.ingestAsset calm photo (Some lakeHouse) emptyWorld)).
Proof.
  split; [exact consistent_empty|].
  exact (ingestAsset_keeps_integrity calm photo (Some lakeHouse) emptyWorld
           consistent_empty).
Defined.

(** X7: reading back: on consistent tables, an asset that [ingestAsset]
    returns is what a lookup of its identity finds afterwards, row and
    metadata, field for field. *)
Theorem ingested_asset_reads_back env file metaData w :
  consistent w ->
  persists env metaData w ->
  publish_fault env = None ->
  exists a w',
    AssetController.ingestAsset env file metaData w = (Resolved a, w') /\
    fst (asset_findUnique None (uuid (columns (row a))) w') = Resolved (Some a) /\
    fields <$> meta_base a = metaData.
Proof.
  intros Hw Hok Hpub.
  destruct (ingestAsset_resolves env file metaData w Hok Hpub)
    as (a & w' & Hrun & Hcols & Hmb & _ & Hassets & Hmeta & _).
  exists a, w'. split; [exact Hrun|].
  unfold asset_findUnique. simpl. rewrite Hcols. simpl.
  rewrite Hassets, Hmeta, lookup_insert_eq, Hmb.
  destruct metaData as [m|]; simpl.
  - rewrite lookup_insert_eq. split; [|reflexivity].
    destruct a as [r mb]. simpl in Hmb. now rewrite Hmb.
  - split; [|reflexivity].
    destruct (asset_meta_base w !! randomUUID env) as [old|] eqn:Hold.
    + exfalso. destruct (Hw _ _ Hold) as (_ & r0 & Hr0).
      destruct Hok as (_ & _ & Hdb). unfold createRefusal in Hdb.
      rewrite Hr0 in Hdb. destruct (assetCreate_fault env); discriminate.
    + destruct a as [r mb]. simpl in Hmb. now rewrite Hmb.
Qed.

Lemma ingested_asset_reads_back_witness :
  (consistent emptyWorld /\ persists calm (Some lakeHouse) emptyWorld
   /\ publish_fault calm = None) /\
  exists a w',
    AssetController.ingestAsset calm photo (Some lakeHouse) emptyWorld = (Resolved a, w') /\
    fst (asset_findUnique None (uuid (columns (row a))) w') = Resolved (Some a) /\
    fields <$> meta_base a = Some lakeHouse.
Proof.
  assert (Hok : persists calm (Some lakeHouse) emptyWorld) by (repeat split).
  split; [split; [exact consistent_empty|split; [exact Hok|reflexivity]]|].
  exact (ingested_asset_reads_back calm photo (Some lakeHouse) emptyWorld
           consistent_empty Hok eq_refl).
Defined.

(** ** The storage path and the stored file name *)

Lemma Forall_occurs (c : ascii) (l : list ascii) :
  Forall (fun d => Ascii.eqb d c = false) l ->
  occurs c (string_of_list_ascii l) = false.
Proof.
  induction 1 as [|d l Hd _ IH]; simpl; [reflexivity|].
  rewrite Ascii.eqb_sym, Hd, IH. reflexivity.
Qed.

Lemma occurs_append (c : ascii) (a b : string) :
  occurs c (a ++ b) = occurs c a || occurs c b.
Proof.
  induction a as [|d a IH]; simpl; [reflexivity|].
  rewrite IH. apply orb_assoc.
Qed.

Lemma takeWhile_holds (p : ascii -> bool) (l : list ascii) :
  Forall (fun c => p c = true) (path.takeWhile p l).
Proof.
  induction l as [|c l IH]; simpl; [constructor|].
  destruct (p c) eqn:Hc; constructor; assumption.
Qed.

Lemma lastComponentRev_no_slash (s : string) :
  Forall (fun c => Ascii.eqb c "/" = false) (path.lastComponentRev s).
Proof.
  unfold path.lastComponentRev.
  eapply Forall_impl; [apply takeWhile_holds|].
  intros c Hc. unfold path.isSlash in Hc. simpl in Hc.
  now destruct (Ascii.eqb c "/").
Qed.

(** An extension is empty, or a dot followed by code units that are neither
    dots nor separators. *)
Lemma extname_shape (s : string) :
  path.extname s = "" \/
  exists e, path.extname s = String "." e /\
            occurs "." e = false /\ occurs "/" e = false.
Proof.
  unfold path.extname.
  set (comp := path.lastComponentRev s).
  set (ext := path.takeWhile (fun c => negb (path.isDot c)) comp).
  assert (Hdot : Forall (fun c => Ascii.eqb c "." = false) ext).
  { eapply Forall_impl; [apply takeWhile_holds|].
    intros c Hc. unfold path.isDot in Hc. simpl in Hc. now destruct (Ascii.eqb c "."). }
  assert (Hslash : Forall (fun c => Ascii.eqb c "/" = false) ext).
  { apply (Forall_takeWhile (fun c => Ascii.eqb c "/" = false)).
    apply lastComponentRev_no_slash. }
  assert (Hres : exists e,
            string_of_list_ascii (rev (ext ++ ["."%char])) = String "." e /\
            occurs "." e = false /\ occurs "/" e = false).
  { exists (string_of_list_ascii (rev ext)).
    rewrite rev_app_distr. split; [reflexivity|].
    split; apply Forall_occurs, Forall_rev; assumption. }
  destruct (path.dropWhile _ comp) as [|d [|b rest]]; [now left|now left|].
  destruct ext as [|e ext']; [|now right].
  destruct rest; [|now right].
  destruct (path.isDot b); [now left|now right].
Qed.

Lemma extname_no_slash (s : string) : occurs "/" (path.extname s) = false.
Proof.
  destruct (extname_shape s) as [->|(e & -> & _ & He)]; [reflexivity|].
  simpl. exact He.
Qed.

(** The base name of [dir/file] is [file]. *)
Lemma basename_of_dir_file (dir file : string) :
  file <> "" -> occurs "/" file = false ->
  path.basename (dir ++ String "/" file) = file.
Proof.
  intros Hne Hslash.
  unfold path.basename, path.lastComponentRev.
  rewrite list_ascii_of_string_append.
  change (list_ascii_of_string (String "/" file))
    with ("/"%char :: list_ascii_of_string file).
  rewrite rev_app_distr.
  change (rev ("/"%char :: list_ascii_of_string file))
    with (rev (list_ascii_of_string file) ++ ["/"%char])%list.
  rewrite <- app_assoc.
  change (["/"%char] ++ rev (list_ascii_of_string dir))%list
    with ("/"%char :: rev (list_ascii_of_string dir)).
  assert (Hf : Forall (fun c => Ascii.eqb c "/" = false)
                 (rev (list_ascii_of_string file)))
    by (apply Forall_rev, occurs_Forall, Hslash).
  assert (Hnil : rev (list_ascii_of_string file) <> []).
  { intros H. apply (f_equal (@rev ascii)) in H. rewrite rev_involutive in H.
    destruct file; [congruence|discriminate]. }
  destruct (rev (list_ascii_of_string file)) as [|c l] eqn:Hrev; [congruence|].
  assert (Hc : path.isSlash c = false) by (inversion Hf; assumption).
  simpl path.dropWhile. rewrite Hc.
  change (c :: l ++ "/"%char :: rev (list_ascii_of_string dir))%list
    with ((c :: l) ++ "/"%char :: rev (list_ascii_of_string dir))%list.
  rewrite takeWhile_stop.
  - rewrite <- Hrev, rev_involutive. apply string_of_list_ascii_of_string.
  - eapply Forall_impl; [exact Hf|]. intros d Hd. unfold path.isSlash. simpl in Hd.
    now rewrite Hd.
  - reflexivity.
Qed.

Lemma string_append_assoc (a b c : string) : (a ++ b) ++ c = a ++ (b ++ c).
Proof.
  induction a as [|d a IH]; [reflexivity|].
  change (String d ((a ++ b) ++ c) = String d (a ++ (b ++ c))). now rewrite IH.
Qed.

(** The storage path is a directory, a separator and the stored file name. *)
Lemma storedPath_dir_file (id ext : string) (metaData : option MetaData) :
  exists dir,
    AssetController.storedPathForUpload id ext metaData
    = dir ++ String "/" (id ++ ext).
Proof.
  destruct metaData as [m|]; unfold AssetController.storedPathForUpload.
  - eexists. rewrite <- string_append_assoc. reflexivity.
  - exists "assets/unclassified". reflexivity.
Qed.

(** The base name of a storage path is the stored file name. *)
Lemma storedPath_basename id name metaData :
  id <> "" -> occurs "/" id = false ->
  path.basename (AssetController.storedPathForUpload id (path.extname name) metaData)
  = id ++ path.extname name.
Proof.
  intros Hne Hslash.
  destruct (storedPath_dir_file id (path.extname name) metaData) as (dir & ->).
  apply basename_of_dir_file.
  - destruct id; [congruence|discriminate].
  - now rewrite occurs_append, Hslash, extname_no_slash.
Qed.

(** X8: the stored file name is the identity followed by the extension of
    the original name: for an identity that is not empty and has no
    separator, the base name of the storage path is [{id}{extension}],
    whatever the metadata put in the directories. *)
Theorem stored_filename_is_id_and_extension id name metaData :
  id <> "" -> occurs "/" id = false ->
  path.basename (AssetController.storedPathForUpload id (path.extname name) metaData)
  = id ++ path.extname name.
Proof.
  exact (storedPath_basename id name metaData).
Qed.

Lemma stored_filename_is_id_and_extension_witness :
  ("0b1c" <> "" /\ occurs "/" "0b1c" = false) /\
  path.basename
    (AssetController.storedPathForUpload "0b1c" (path.extname "photo.jpg") (Some lakeHouse))
  = "0b1c" ++ path.extname "photo.jpg".
Proof.
  assert (Hne : "0b1c" <> "") by discriminate.
  split; [split; [exact Hne|reflexivity]|].
  exact (stored_filename_is_id_and_extension "0b1c" "photo.jpg" (Some lakeHouse)
           Hne eq_refl).
Defined.

Lemma id_of_filename (id1 id2 e1 e2 : string) :
  occurs "." id1 = false -> occurs "." id2 = false ->
  (e1 = "" \/ exists r, e1 = String "." r) ->
  (e2 = "" \/ exists r, e2 = String "." r) ->
  id1 ++ e1 = id2 ++ e2 -> id1 = id2.
Proof.
  revert id2. induction id1 as [|c id1 IH]; intros [|d id2] H1 H2 He1 He2 Heq;
    simpl in *.
  - reflexivity.
  - exfalso. apply orb_false_elim in H2 as [Hd _].
    destruct He1 as [->|(r & ->)]; [discriminate|].
    injection Heq as <- _. discriminate.
  - exfalso. apply orb_false_elim in H1 as [Hc _].
    destruct He2 as [->|(r & ->)]; [discriminate|].
    injection Heq as -> _. discriminate.
  - injection Heq as -> Heq. f_equal.
    apply orb_false_elim in H1 as [_ H1]. apply orb_false_elim in H2 as [_ H2].
    now apply IH.
Qed.

(** X9: distinct identities never share a storage path: for identities that
    are not empty and have neither dot nor separator (as UUIDs are), two
    ingestions that derive the same path have the same identity, whatever
    their file names and metadata. *)
Theorem storage_path_determines_identity id1 id2 name1 name2 meta1 meta2 :
  id1 <> "" -> id2 <> "" ->
  occurs "/" id1 = false -> occurs "/" id2 = false ->
  occurs "." id1 = false -> occurs "." id2 = false ->
  AssetController.storedPathForUpload id1 (path.extname name1) meta1
  = AssetController.storedPathForUpload id2 (path.extname name2) meta2 ->
  id1 = id2.
Proof.
  intros Hn1 Hn2 Hs1 Hs2 Hd1 Hd2 Heq.
  apply (f_equal path.basename) in Heq.
  rewrite !storedPath_basename in Heq by assumption.
  assert (Hshape : forall n, path.extname n = ""
                             \/ exists r, path.extname n = String "." r).
  { intros n. destruct (extname_shape n) as [H|(e & H & _)]; [now left|right; eauto]. }
  exact (id_of_filename _ _ _ _ Hd1 Hd2 (Hshape name1) (Hshape name2) Heq).
Qed.

Lemma storage_path_determines_identity_witness :
  ("0b1c" <> "" /\ "0b1c" <> "" /\
   occurs "/" "0b1c" = false /\ occurs "/" "0b1c" = false /\
   occurs "." "0b1c" = false /\ occurs "." "0b1c" = false /\
   AssetController.storedPathForUpload "0b1c" (path.extname "photo.jpg") (Some lakeHouse)
   = AssetController.storedPathForUpload "0b1c" (path.extname "copy.of.photo.jpg")
       (Some lakeHouse)) /\
  "0b1c" = "0b1c".
Proof.
  assert (Hne : "0b1c" <> "") by discriminate.
  assert (Heq : AssetController.storedPathForUpload "0b1c" (path.extname "photo.jpg")
                  (Some lakeHouse)
                = AssetController.storedPathForUpload "0b1c"
                    (path.extname "copy.of.photo.jpg") (Some lakeHouse))
    by reflexivity.
  split; [repeat split; assumption|].
  exact (storage_path_determines_identity "0b1c" "0b1c" "photo.jpg" "copy.of.photo.jpg"
           (Some lakeHouse) (Some lakeHouse) Hne Hne eq_refl eq_refl eq_refl eq_refl Heq).
Defined.

(** ** Normalisation of the path segments *)

Lemma lowerChar_plain (c : ascii) :
  Js.isWhiteSpace c = false -> isPlain (Js.lowerChar c) = true.
Proof. destruct c as [[] [] [] [] [] [] [] []]; intros H; (discriminate || reflexivity). Qed.

Lemma lowerChar_of_plain (c : ascii) : isPlain c = true -> Js.lowerChar c = c.
Proof. destruct c as [[] [] [] [] [] [] [] []]; intros H; (discriminate || reflexivity). Qed.

Lemma underscoreRuns_no_white_space (inRun : bool) (s : string) :
  allChars (fun c => negb (Js.isWhiteSpace c)) (Js.underscoreRuns inRun s) = true.
Proof.
  revert inRun. induction s as [|c s IH]; intros inRun; simpl; [reflexivity|].
  destruct (Js.isWhiteSpace c) eqn:Hc.
  - destruct inRun; simpl; apply IH.
  - simpl. rewrite Hc. simpl. apply IH.
Qed.

Lemma toLowerCase_plain (s : string) :
  allChars (fun c => negb (Js.isWhiteSpace c)) s = true ->
  allChars isPlain (Js.toLowerCase s) = true.
Proof.
  induction s as [|c s IH]; simpl; [reflexivity|].
  intros H. apply andb_prop in H as [Hc Hs].
  rewrite lowerChar_plain, IH; [reflexivity|assumption|].
  now destruct (Js.isWhiteSpace c).
Qed.

Lemma normalised_is_plain (s : string) :
  allChars isPlain (Js.toLowerCase (Js.replaceWhitespace s)) = true.
Proof. apply toLowerCase_plain, underscoreRuns_no_white_space. Qed.

Lemma toLowerCase_cons (c : ascii) (s : string) :
  Js.toLowerCase (String c s) = String (Js.lowerChar c) (Js.toLowerCase s).
Proof. reflexivity. Qed.

Lemma plain_is_normalised (s : string) :
  allChars isPlain s = true -> Js.toLowerCase (Js.replaceWhitespace s) = s.
Proof.
  unfold Js.replaceWhitespace.
  induction s as [|c s IH]; simpl; [reflexivity|].
  intros H. apply andb_prop in H as [Hc Hs].
  assert (Hw : Js.isWhiteSpace c = false).
  { unfold isPlain in Hc. now destruct (Js.isWhiteSpace c). }
  rewrite Hw, toLowerCase_cons, lowerChar_of_plain by assumption.
  f_equal. now apply IH.
Qed.

Lemma stripNonDigits_cons (c : ascii) (s : string) :
  Js.stripNonDigits (String c s)
  = if Js.isDigit c then String c (Js.stripNonDigits s) else Js.stripNonDigits s.
Proof. reflexivity. Qed.

Lemma stripNonDigits_digits (s : string) :
  allChars Js.isDigit (Js.stripNonDigits s) = true.
Proof.
  induction s as [|c s IH]; [reflexivity|].
  rewrite stripNonDigits_cons.
  destruct (Js.isDigit c) eqn:Hc; [|assumption].
  cbn [allChars]. now rewrite Hc.
Qed.

Lemma stripNonDigits_of_digits (s : string) :
  allChars Js.isDigit s = true -> Js.stripNonDigits s = s.
Proof.
  induction s as [|c s IH]; [reflexivity|].
  cbn [allChars]. intros H. apply andb_prop in H as [Hc Hs].
  rewrite stripNonDigits_cons, Hc. f_equal. now apply IH.
Qed.

(** X10: the directories that [ingestAsset] derives from metadata: the path
    is [assets/type/class/location/camera/date/{id}{extension}], where type
    and class are taken as given, the location and camera segments hold
    neither white space nor an upper-case letter, and the date segment is
    never empty: it holds only digits, or is [undated]. *)
Theorem metadata_path_segments id ext (m : MetaData) :
  exists location camera date,
    AssetController.storedPathForUpload id ext (Some m)
    = "assets/" ++ asset_type m ++ "/" ++ asset_class m ++ "/" ++ location ++ "/"
      ++ camera ++ "/" ++ date ++ "/" ++ id ++ ext /\
    allChars isPlain location = true /\
    allChars isPlain camera = true /\
    date <> "" /\
    (date = "undated" \/ (allChars Js.isDigit date = true
                          /\ date = Js.stripNonDigits (asset_date_label m))).
Proof.
  exists (Js.toLowerCase (Js.replaceWhitespace (asset_location_name m))),
         (Js.toLowerCase (Js.replaceWhitespace (asset_camera m))),
         (Js.orElse (Js.stripNonDigits (asset_date_label m)) "undated").
  split.
  - unfold AssetController.storedPathForUpload, Js.join. cbn [String.concat].
    rewrite !string_append_assoc. reflexivity.
  - split; [apply normalised_is_plain|]. split; [apply normalised_is_plain|].
    unfold Js.orElse.
    pose proof (stripNonDigits_digits (asset_date_label m)) as Hd.
    destruct (Js.stripNonDigits (asset_date_label m)) as [|c r]; simpl.
    + split; [discriminate|now left].
    + split; [discriminate|right; split; [exact Hd|reflexivity]].
Qed.

(** ** A summary of every run of [upsertMetadata] *)

Lemma upsertMetadata_summary env id (m : MetaData) w :
  let run := AssetController.upsertMetadata env id m w in
  assets (snd run) = assets w /\
  bucket (snd run) = bucket w /\
  published (snd run) = published w /\
  match findUnique_fault env, assets w !! id, upsert_fault env with
  | None, Some r, None =>
      asset_meta_base (snd run) = <[id := upserted env id m w]> (asset_meta_base w) /\
      fst run = match refetch_fault env with
                | None => Resolved (Some {| row := r;
                                            meta_base := Some (upserted env id m w) |})
                | Some _ => Rejected (ServerError "Failed to upsert metadata" 500)
                end
  | None, None, _ =>
      asset_meta_base (snd run) = asset_meta_base w /\
      fst run = Rejected (ServerError "Asset not found" 404)
  | _, _, _ =>
      asset_meta_base (snd run) = asset_meta_base w /\
      fst run = Rejected (ServerError "Failed to upsert metadata" 500)
  end.
Proof.
  intros run. subst run. unfold upserted.
  run_async. unfold assetMetaBase_upsert. simpl.
  destruct (findUnique_fault env); simpl; [repeat split|].
  destruct (assets w !! id) as [r|] eqn:Hr; simpl; [|repeat split].
  destruct (upsert_fault env); simpl; [repeat split|].
  rewrite metaData_eta.
  destruct (asset_meta_base w !! id) as [old|]; simpl; [|rewrite Hr; simpl];
    destruct (refetch_fault env); simpl; rewrite ?Hr, ?lookup_insert_eq;
    repeat split.
Qed.

(** ** What [upsertMetadata] does and never does *)

(** X11: [upsertMetadata] writes to one place only: the assets table, the
    bucket and the published messages are never changed, and in the
    metadata table only the row of the asset named can change, whatever the
    database does. *)
Theorem upsertMetadata_frame env id (m : MetaData) w id' :
  let run := AssetController.upsertMetadata env id m w in
  assets (snd run) = assets w /\
  bucket (snd run) = bucket w /\
  published (snd run) = published w /\
  (id' <> id -> asset_meta_base (snd run) !! id' = asset_meta_base w !! id').
Proof.
  intros run.
  destruct (upsertMetadata_summary env id m w) as (Ha & Hb & Hp & Hcase).
  fold run in Ha, Hb, Hp, Hcase.
  split; [exact Ha|]. split; [exact Hb|]. split; [exact Hp|].
  intros Hne.
  destruct (findUnique_fault env), (assets w !! id), (upsert_fault env);
    destruct Hcase as (-> & _); try reflexivity;
    now rewrite lookup_insert_ne by congruence.
Qed.

(** The outcome of [upsertMetadata] by the answers of the database. *)
Lemma upsertMetadata_ends env id (m : MetaData) w :
  match fst (AssetController.upsertMetadata env id m w) with
  | Resolved result =>
      answers env /\
      exists a, result = Some a /\ assets w !! id = Some (row a) /\
                fields <$> meta_base a = Some m
  | Rejected e =>
      (e = ServerError "Asset not found" 404 /\
       findUnique_fault env = None /\ assets w !! id = None) \/
      (e = ServerError "Failed to upsert metadata" 500 /\
       ~ (answers env /\ is_Some (assets w !! id)) /\
       ~ (findUnique_fault env = None /\ assets w !! id = None))
  end.
Proof.
  destruct (upsertMetadata_summary env id m w) as (_ & _ & _ & Hcase).
  unfold answers.
  destruct (findUnique_fault env) eqn:Hf, (assets w !! id) eqn:Ha,
    (upsert_fault env) eqn:Hu; destruct Hcase as (_ & ->);
    try (right; split; [reflexivity|];
         split; intros H; decompose [and] H; clear H;
         repeat match goal with H : is_Some None |- _ => destruct H as [? H] end;
         discriminate);
    try (left; repeat split; reflexivity).
  destruct (refetch_fault env) eqn:Hr.
  - right. split; [reflexivity|].
    split; intros H; decompose [and] H; discriminate.
  - split; [repeat split|]. eexists. split; [reflexivity|]. simpl.
    split; [reflexivity|]. unfold upserted.
    destruct (asset_meta_base w !! id); reflexivity.
Qed.

(** X12: the ways [upsertMetadata] ends: it rejects with status 404 exactly
    when the lookup is answered and finds no asset; every other rejection
    is the [ServerError] "Failed to upsert metadata" of status 500; and it
    resolves, with the asset and the metadata given, exactly when the asset
    exists and the three queries are answered. *)
Theorem upsertMetadata_outcome env id (m : MetaData) w :
  match fst (AssetController.upsertMetadata env id m w) with
  | Resolved result =>
      answers env /\
      exists a, result = Some a /\ assets w !! id = Some (row a) /\
                fields <$> meta_base a = Some m
  | Rejected e =>
      (e = ServerError "Asset not found" 404 /\
       findUnique_fault env = None /\ assets w !! id = None) \/
      (e = ServerError "Failed to upsert metadata" 500 /\
       ~ (answers env /\ is_Some (assets w !! id)) /\
       ~ (findUnique_fault env = None /\ assets w !! id = None))
  end.
Proof.
  exact (upsertMetadata_ends env id m w).
Qed.

(** X13: create-or-replace: once the lookup and the upsert are answered on
    an existing asset, the metadata row of that asset holds exactly the five
    fields given; a row that was there keeps its own key and link, a new one
    is linked to the asset. This holds also when the final re-read fails: the
    caller then gets status 500 although the metadata has been written. *)
Theorem upsertMetadata_replaces env id (m : MetaData) w :
  is_Some (assets w !! id) ->
  findUnique_fault env = None ->
  upsert_fault env = None ->
  let run := AssetController.upsertMetadata env id m w in
  exists mb,
    asset_meta_base (snd run) !! id = Some mb /\
    fields mb = m /\
    match asset_meta_base w !! id with
    | Some old => meta_id mb = meta_id old /\ asset_id mb = asset_id old
    | None => asset_id mb = id
    end /\
    (refetch_fault env <> None ->
     fst run = Rejected (ServerError "Failed to upsert metadata" 500)).
Proof.
  intros [r Hr] Hf Hu run.
  destruct (upsertMetadata_summary env id m w) as (_ & _ & _ & Hcase).
  fold run in Hcase. rewrite Hf, Hr, Hu in Hcase. destruct Hcase as (Hmeta & Hout).
  exists (upserted env id m w). rewrite Hmeta, lookup_insert_eq.
  split; [reflexivity|]. unfold upserted.
  destruct (asset_meta_base w !! id) as [old|]; simpl;
    (split; [reflexivity|]; split; [repeat split|]);
    intros Hre; rewrite Hout; destruct (refetch_fault env); congruence.
Qed.

Lemma upsertMetadata_replaces_witness :
  let run := AssetController.upsertMetadata calm "0b1c" lakeHouse stocked in
  (is_Some (assets stocked !! "0b1c") /\ findUnique_fault calm = None
   /\ upsert_fault calm = None) /\
  exists mb,
    asset_meta_base (snd run) !! "0b1c" = Some mb /\
    fields mb = lakeHouse /\
    match asset_meta_base stocked !! "0b1c" with
    | Some old => meta_id mb = meta_id old /\ asset_id mb = asset_id old
    | None => asset_id mb = "0b1c"
    end /\
    (refetch_fault calm <> None ->
     fst run = Rejected (ServerError "Failed to upsert metadata" 500)).
Proof.
  intros run.
  assert (Hthere : is_Some (assets stocked !! "0b1c")) by (eexists; vm_compute; reflexivity).
  split; [split; [exact Hthere|split; reflexivity]|].
  exact (upsertMetadata_replaces calm "0b1c" lakeHouse stocked Hthere eq_refl eq_refl).
Defined.

(** X14: referential integrity is an invariant of [upsertMetadata] too: on
    consistent tables the tables are consistent afterwards, whatever the
    database does. *)
Theorem upsertMetadata_keeps_integrity env id (m : MetaData) w :
  consistent w ->
  consistent (snd (AssetController.upsertMetadata env id m w)).
Proof.
  intros Hw.
  destruct (upsertMetadata_summary env id m w) as (Ha & _ & _ & Hcase).
  intros id0 mb0. rewrite Ha.
  destruct (findUnique_fault env), (assets w !! id) as [r|] eqn:Hr, (upsert_fault env);
    destruct Hcase as (-> & _); try apply Hw.
  destruct (decide (id0 = id)) as [->|Hne].
  - rewrite lookup_insert_eq. intros [= <-]. split; [|rewrite Hr; eauto].
    unfold upserted.
    destruct (asset_meta_base w !! id) as [old|] eqn:Hold; simpl; [|reflexivity].
    apply (Hw _ _ Hold).
  - rewrite lookup_insert_ne by congruence. apply Hw.
Qed.

Lemma upsertMetadata_keeps_integrity_witness :
  let after := snd (AssetController.upsertMetadata calmAgain "0b1c" lakeHouse catalogued) in
  (consistent catalogued /\
   fields <$> asset_meta_base catalogued !! "0b1c" = Some cabin /\
   fields <$> asset_meta_base after !! "0b1c" = Some lakeHouse) /\
  consistent after.
Proof.
  intros after.
  split; [split; [exact consistent_catalogued|split; vm_compute; reflexivity]|].
  exact (upsertMetadata_keeps_integrity calmAgain "0b1c" lakeHouse catalogued
           consistent_catalogued).
Defined.

(** X15: adding metadata later does not move the object: after an ingestion
    without metadata, an upsert returns the same row with the metadata
    attached; the storage path stays under [assets/unclassified/] and the
    bucket is as the ingestion left it. *)
Theorem upsert_after_ingest_keeps_path env env2 file (m : MetaData) w :
  persists env None w ->
  publish_fault env = None ->
  answers env2 ->
  exists a1 w1 a2 w2,
    AssetController.ingestAsset env file None w = (Resolved a1, w1) /\
    AssetController.upsertMetadata env2 (randomUUID env) m w1 = (Resolved (Some a2), w2) /\
    row a2 = row a1 /\
    meta_base a1 = None /\
    fields <$> meta_base a2 = Some m /\
    stored_fullpath (columns (row a2))
    = "assets/unclassified/" ++ randomUUID env ++ path.extname (file_name file) /\
    bucket w2 = bucket w1 /\
    is_Some (bucket w2 !! stored_fullpath (columns (row a2))).
Proof.
  intros Hok Hpub (Hf & Hu & Hr).
  destruct (ingestAsset_resolves env file None w Hok Hpub)
    as (a1 & w1 & Hrun & Hcols & Hmb & Hbucket & Hassets & _).
  destruct (upsertMetadata_summary env2 (randomUUID env) m w1)
    as (_ & Hb & _ & Hcase).
  rewrite Hf, Hu, Hr, Hassets, lookup_insert_eq in Hcase.
  destruct Hcase as (_ & Hout).
  destruct (AssetController.upsertMetadata env2 (randomUUID env) m w1)
    as [out w2] eqn:Hup.
  simpl in Hb, Hout. subst out.
  eexists a1, w1, _, w2. split; [exact Hrun|]. split; [exact Hup|]. simpl.
  split; [reflexivity|]. split; [exact Hmb|].
  split; [unfold upserted; destruct (asset_meta_base w1 !! randomUUID env); reflexivity|].
  rewrite Hcols, Hb, Hbucket. simpl. split; [reflexivity|]. split; [reflexivity|].
  rewrite lookup_insert_eq. eauto.
Qed.

Lemma upsert_after_ingest_keeps_path_witness :
  (persists calm None emptyWorld /\ publish_fault calm = None /\ answers calmAgain) /\
  exists a1 w1 a2 w2,
    AssetController.ingestAsset calm photo None emptyWorld = (Resolved a1, w1) /\
    AssetController.upsertMetadata calmAgain (randomUUID calm) lakeHouse w1
    = (Resolved (Some a2), w2) /\
    row a2 = row a1 /\
    meta_base a1 = None /\
    fields <$> meta_base a2 = Some lakeHouse /\
    stored_fullpath (columns (row a2))
    = "assets/unclassified/" ++ randomUUID calm ++ path.extname (file_name photo) /\
    bucket w2 = bucket w1 /\
    is_Some (bucket w2 !! stored_fullpath (columns (row a2))).
Proof.
  assert (Hok : persists calm None emptyWorld) by (repeat split).
  assert (Hdb : answers calmAgain) by (repeat split).
  split; [split; [exact Hok|split; [reflexivity|exact Hdb]]|].
  exact (upsert_after_ingest_keeps_path calm calmAgain photo lakeHouse emptyWorld
           Hok eq_refl Hdb).
Defined.

(** ** The two handlers *)

(** X16: the ingest handler never throws and answers in one of three ways:
    status 400 "No file provided or invalid file" when the request has no
    file, and then nothing at all has been done; status 200 with the asset;
    or status 500 "Failed to ingest asset". *)
Theorem postIngest_answers env body w :
  let run := assetRoutes.postIngest env body w in
  exists response,
    fst run = Resolved response /\
    match body_file body with
    | None =>
        response = {| status := 400;
                      reply := Failure "No file provided or invalid file" |} /\
        snd run = w
    | Some _ =>
        (status response = 200 /\ exists a, reply response = Success (Some a)) \/
        response = {| status := 500; reply := Failure "Failed to ingest asset" |}
    end.
Proof.
  intros run. subst run.
  unfold assetRoutes.postIngest, await, tryCatch, logger.write, resolve.
  destruct (body_file body) as [file|]; simpl; [|eexists; repeat split].
  destruct (_ && _);
    match goal with
    | |- context [AssetController.ingestAsset env file ?md ?W] =>
        destruct (ingestAsset_summary env file md W) as (Hout & _);
        destruct (AssetController.ingestAsset env file md W) as [out w1]
    end;
    simpl in Hout; subst out;
    match goal with
    | |- context [progress env ?md ?W] => destruct (progress env md W)
    end; simpl; eexists; (split; [reflexivity|]); simpl;
    first [right; reflexivity | left; split; [reflexivity|eexists; reflexivity]].
Qed.

(** X17: a request that carries all five fields, not empty, is ingested
    with them: with the services answering, the answer is status 200 with an
    asset whose metadata holds the five strings of the request as they were
    sent, stored at the path derived from them. *)
Theorem postIngest_with_metadata env file (m : MetaFields) w :
  present (body_asset_type m) = true ->
  present (body_asset_class m) = true ->
  present (body_asset_location_name m) = true ->
  present (body_asset_camera m) = true ->
  present (body_asset_date_label m) = true ->
  persists env (Some (metadataOf m)) w ->
  publish_fault env = None ->
  let run := assetRoutes.postIngest env {| body_file := Some file; body_meta := m |} w in
  exists a,
    fst run = Resolved {| status := 200; reply := Success (Some a) |} /\
    (exists mb, meta_base a = Some mb /\
                body_asset_type m = Some (asset_type (fields mb)) /\
                body_asset_class m = Some (asset_class (fields mb)) /\
                body_asset_location_name m = Some (asset_location_name (fields mb)) /\
                body_asset_camera m = Some (asset_camera (fields mb)) /\
                body_asset_date_label m = Some (asset_date_label (fields mb))) /\
    stored_fullpath (columns (row a))
    = AssetController.storedPathForUpload (randomUUID env)
        (path.extname (file_name file)) (Some (metadataOf m)) /\
    asset_meta_base (snd run) !! randomUUID env = meta_base a.
Proof.
  intros H1 H2 H3 H4 H5 Hok Hpub run. subst run.
  unfold assetRoutes.postIngest, await, tryCatch, logger.write, resolve. simpl.
  rewrite H1, H2, H3, H4, H5. simpl.
  match goal with
  | |- context [AssetController.ingestAsset env file ?md ?W] =>
      destruct (ingestAsset_resolves env file md W Hok Hpub)
        as (a & w' & Hrun & Hcols & Hmb & _ & _ & Hmeta & _)
  end.
  rewrite Hrun. simpl. exists a. split; [reflexivity|].
  rewrite Hcols, Hmeta, Hmb. simpl. rewrite lookup_insert_eq.
  split; [|split; reflexivity].
  eexists. split; [reflexivity|]. simpl.
  destruct m as [[t|] [c|] [l|] [k|] [d|]]; try discriminate. repeat split.
Qed.

Lemma postIngest_with_metadata_witness :
  let m := {| body_asset_type := Some "img"; body_asset_class := Some "family";
              body_asset_location_name := Some "Lake House";
              body_asset_camera := Some "Canon R5";
              body_asset_date_label := Some "2024-07-01" |} in
  let run := assetRoutes.postIngest calm {| body_file := Some photo; body_meta := m |}
               emptyWorld in
  (present (body_asset_type m) = true /\ present (body_asset_class m) = true /\
   present (body_asset_location_name m) = true /\ present (body_asset_camera m) = true /\
   present (body_asset_date_label m) = true /\
   persists calm (Some (metadataOf m)) emptyWorld /\ publish_fault calm = None) /\
  exists a,
    fst run = Resolved {| status := 200; reply := Success (Some a) |} /\
    (exists mb, meta_base a = Some mb /\
                body_asset_type m = Some (asset_type (fields mb)) /\
                body_asset_class m = Some (asset_class (fields mb)) /\
                body_asset_location_name m = Some (asset_location_name (fields mb)) /\
                body_asset_camera m = Some (asset_camera (fields mb)) /\
                body_asset_date_label m = Some (asset_date_label (fields mb))) /\
    stored_fullpath (columns (row a))
    = AssetController.storedPathForUpload (randomUUID calm)
        (path.extname (file_name photo)) (Some (metadataOf m)) /\
    asset_meta_base (snd run) !! randomUUID calm = meta_base a.
Proof.
  intros m run.
  assert (Hok : persists calm (Some (metadataOf m)) emptyWorld) by (repeat split).
  split; [repeat split|].
  exact (postIngest_with_metadata calm photo m emptyWorld
           eq_refl eq_refl eq_refl eq_refl eq_refl Hok eq_refl).
Defined.



(** ** [PathUtils] *)

Example generateFilename_sample :
  PathUtils.generateFilename lakeHouseRow 7 ".jpg"
  = "img_family_lake house_canonr5_2024-07-01_0007.jpg" /\
  PathUtils.generateFilename lakeHouseRow 12345 ".jpg"
  = "img_family_lake house_canonr5_2024-07-01_12345.jpg" /\
  PathUtils.generateFilename lakeHouseRow (-5) ".jpg"
  = "img_family_lake house_canonr5_2024-07-01_00-5.jpg" /\
  PathUtils.generatePathFromMetaBase lakeHouseRow
  = "img/family/Lake House/Canon R5/2024-07-01".
Proof. repeat split; reflexivity. Qed.

Lemma string_of_uint_digits (d : Decimal.uint) :
  allChars Js.isDigit (NilEmpty.string_of_uint d) = true.
Proof. induction d; simpl; assumption || reflexivity. Qed.

Lemma digits_digits (n : N) : allChars Js.isDigit (PathUtils.digits n) = true.
Proof.
  unfold PathUtils.digits, NilZero.string_of_uint.
  destruct (N.to_uint n); try reflexivity;
    match goal with |- allChars _ (NilEmpty.string_of_uint ?x) = true =>
      apply (string_of_uint_digits x) end.
Qed.

Lemma readDigits_digits (n : N) : readDigits (PathUtils.digits n) = Some (Z.of_N n).
Proof.
  unfold readDigits, PathUtils.digits, NilZero.string_of_uint.
  pose proof (DecimalN.Unsigned.of_to n) as Hn.
  destruct (N.to_uint n) eqn:Hd;
    try (rewrite NilEmpty.usu; simpl; now rewrite <- Hn).
  simpl. now rewrite <- Hn.
Qed.

Lemma readDigits_zero (s : string) : readDigits (String "0" s) = readDigits s.
Proof.
  unfold readDigits. cbn [NilEmpty.uint_of_string].
  destruct (NilEmpty.uint_of_string s) as [d|]; reflexivity.
Qed.

Lemma readIndex_of_digits (s : string) :
  allChars Js.isDigit s = true -> readIndex s = readDigits s.
Proof.
  induction s as [|c s IH]; [reflexivity|]. cbn [allChars readIndex].
  intros H. apply andb_prop in H as [Hc Hs].
  destruct (Ascii.eqb c "0") eqn:H0.
  - apply Ascii.eqb_eq in H0. subst c. rewrite readDigits_zero. now apply IH.
  - destruct (Ascii.eqb c "-") eqn:Hm; [|reflexivity].
    apply Ascii.eqb_eq in Hm. subst c. discriminate.
Qed.

Lemma toString_negative (z : Z) :
  (z < 0)%Z -> PathUtils.toString z = String "-" (PathUtils.digits (Z.abs_N z)).
Proof. intros H. unfold PathUtils.toString. apply Z.ltb_lt in H. now rewrite H. Qed.

Lemma toString_natural (z : Z) :
  (0 <= z)%Z -> PathUtils.toString z = PathUtils.digits (Z.abs_N z).
Proof. intros H. unfold PathUtils.toString. apply Z.ltb_ge in H. now rewrite H. Qed.

Lemma readIndex_toString (z : Z) : readIndex (PathUtils.toString z) = Some z.
Proof.
  destruct (Z.lt_ge_cases z 0) as [Hneg|Hpos].
  - rewrite (toString_negative z Hneg). cbn [readIndex].
    change (Ascii.eqb "-" "0") with false. change (Ascii.eqb "-" "-") with true.
    cbv iota. rewrite readDigits_digits. simpl. f_equal. rewrite N2Z.inj_abs_N. lia.
  - rewrite (toString_natural z Hpos).
    rewrite readIndex_of_digits by apply digits_digits.
    rewrite readDigits_digits. f_equal. rewrite N2Z.inj_abs_N. lia.
Qed.




Lemma readIndex_zeros (k : nat) (s : string) :
  readIndex (PathUtils.replicate k "0" ++ s) = readIndex s.
Proof.
  induction k as [|k IH]; [reflexivity|].
  change (PathUtils.replicate (S k) "0" ++ s)
    with (String "0" (PathUtils.replicate k "0" ++ s)).
  cbn [readIndex]. change (Ascii.eqb "0" "0") with true. exact IH.
Qed.













Lemma string_append_inv_head (a b c : string) : a ++ b = a ++ c -> b = c.
Proof.
  induction a as [|d a IH]; [trivial|].
  change (String d (a ++ b) = String d (a ++ c) -> b = c).
  intros [= H]. now apply IH.
Qed.

Lemma string_append_inv_tail (a b c : string) : a ++ c = b ++ c -> a = b.
Proof.
  intros H. apply (f_equal list_ascii_of_string) in H.
  rewrite !list_ascii_of_string_append in H. apply app_inv_tail in H.
  apply (f_equal string_of_list_ascii) in H.
  now rewrite !string_of_list_ascii_of_string in H.
Qed.

(** X20: the index tells display names apart: for one metadata row and one
    extension, two indices that are safe integers and give the same name are
    the same index. *)
Theorem generateFilename_index_injective (asset : AssetMetaBase) (i j : Z)
    (extension : string) :
  isSafeInteger i = true ->
  isSafeInteger j = true ->
  PathUtils.generateFilename asset i extension
  = PathUtils.generateFilename asset j extension ->
  i = j.
Proof.
  unfold PathUtils.generateFilename. intros _ _ H.
  repeat (apply string_append_inv_head in H).
  apply string_append_inv_tail in H.
  apply (f_equal readIndex) in H.
  unfold PathUtils.padStart in H.
  rewrite !readIndex_zeros, !readIndex_toString in H. congruence.
Qed.

Lemma generateFilename_index_injective_witness :
  (isSafeInteger 7 = true /\ isSafeInteger 7 = true /\
   PathUtils.generateFilename lakeHouseRow 7 ".jpg"
   = PathUtils.generateFilename lakeHouseRow 7 ".jpg") /\
  7%Z = 7%Z.
Proof.
  split; [repeat split|].
  exact (generateFilename_index_injective lakeHouseRow 7 7 ".jpg" eq_refl eq_refl eq_refl).
Defined.

(** X21: the two derivations of the directory agree on normalised metadata:
    when the location and the camera of a row hold neither white space nor
    upper-case letters and the date label is a non-empty run of digits, the
    storage path of an ingestion is [assets/], the directory of
    [generatePathFromMetaBase], and the stored file name. *)
Theorem generatePath_agrees_on_plain_metadata (asset : AssetMetaBase) (id ext : string) :
  allChars isPlain (asset_location_name (fields asset)) = true ->
  allChars isPlain (asset_camera (fields asset)) = true ->
  allChars Js.isDigit (asset_date_label (fields asset)) = true ->
  asset_date_label (fields asset) <> "" ->
  AssetController.storedPathForUpload id ext (Some (fields asset))
  = "assets/" ++ PathUtils.generatePathFromMetaBase asset ++ "/" ++ id ++ ext.
Proof.
  intros Hloc Hcam Hdigits Hne.
  unfold AssetController.storedPathForUpload, PathUtils.generatePathFromMetaBase, Js.join.
  cbn [String.concat].
  rewrite (plain_is_normalised _ Hloc), (plain_is_normalised _ Hcam),
    (stripNonDigits_of_digits _ Hdigits).
  unfold Js.orElse.
  destruct (asset_date_label (fields asset)) as [|c r]; [congruence|]. simpl Js.truthy.
  cbv iota. rewrite !string_append_assoc. reflexivity.
Qed.

Lemma generatePath_agrees_on_plain_metadata_witness :
  let row := {| meta_id := "77aa";
                fields := {| asset_type := "img"; asset_class := "family";
                             asset_location_name := "lake_house";
                             asset_camera := "canon_r5";
                             asset_date_label := "20240701" |};
                asset_id := "0b1c" |} in
  (allChars isPlain (asset_location_name (fields row)) = true /\
   allChars isPlain (asset_camera (fields row)) = true /\
   allChars Js.isDigit (asset_date_label (fields row)) = true /\
   asset_date_label (fields row) <> "") /\
  AssetController.storedPathForUpload "0b1c" ".jpg" (Some (fields row))
  = "assets/" ++ PathUtils.generatePathFromMetaBase row ++ "/" ++ "0b1c" ++ ".jpg".
Proof.
  intros row.
  assert (Hne : asset_date_label (fields row) <> "") by discriminate.
  split; [repeat split; exact Hne|].
  exact (generatePath_agrees_on_plain_metadata row "0b1c" ".jpg"
           eq_refl eq_refl eq_refl Hne).
Defined.

(** ** The error hook of [createBaseRoute] *)

Lemma fold_left_collect {A B : Type} (g : A -> option B) (l : list A) (acc : list B) :
  fold_left (fun acc a => match g a with
                          | Some b => (acc ++ [b])%list
                          | None => acc
                          end) l acc
  = (acc ++ omap g l)%list.
Proof.
  revert acc. induction l as [|a l IH]; intros acc; simpl.
  - now rewrite app_nil_r.
  - rewrite IH. destruct (g a); simpl; [now rewrite <- app_assoc|reflexivity].
Qed.

Lemma fold_left_ext {A B : Type} (f g : B -> A -> B) (l : list A) (acc : B) :
  (forall b a, f b a = g b a) -> fold_left f l acc = fold_left g l acc.
Proof.
  intros H. revert acc. induction l as [|a l IH]; intros acc; simpl; [reflexivity|].
  now rewrite H, IH.
Qed.

Lemma hook_invalid_fields (e : SchemaError) :
  fold_left
    (fun acc kv =>
       let fieldSchema :=
         match se_schema e with
         | Some {| properties := Some ps |} => getProperty ps (fst kv)
         | _ => Absent
         end in
       match fieldSchema with
       | Absent => acc
       | _ =>
           if createBaseRoute.differs (typeOf (snd kv))
                (createBaseRoute.schemaType fieldSchema)
           then (acc ++ [{| reported_field := fst kv;
                            reported_expected := createBaseRoute.schemaType fieldSchema;
                            reported_received := typeOf (snd kv) |}])%list
           else acc
       end)
    (default [] (se_value e)) []
  = omap (invalidOf e) (default [] (se_value e)).
Proof.
  rewrite <- (app_nil_l (omap _ _)), <- fold_left_collect.
  apply fold_left_ext. intros acc kv. unfold invalidOf, declaredType.
  cbv zeta.
  destruct (se_schema e) as [[req [ps|]]|]; try reflexivity.
  destruct (getProperty ps (fst kv)) as [[t|]| |]; simpl; try reflexivity.
  destruct (String.eqb (typeOf (snd kv)) t); reflexivity.
Qed.





(** On the body of [inheritedName] the hook reports the property
    [constructor], which the schema does not declare. *)
Example formatValidationError_inherited_name w :
  fst (createBaseRoute.formatValidationError (ThrownShape inheritedName) w)
  = Resolved
      {| f_type := "body";
         f_message := "The field " ++ base.dquote ++ "constructor" ++ base.dquote
                      ++ " should be a undefined, but received string";
         f_details :=
           Analysed []
             [{| reported_field := "constructor"; reported_expected := None;
                 reported_received := "string" |}]
             (se_value inheritedName) |}.
Proof. reflexivity. Qed.

(** X23: the hook's answers: the status it sets is always the [http_status]
    of the body it returns, and [success] is always false; a [ServerError]
    keeps its own status and message whatever the code; otherwise a
    validation code gives 400, an error with a numeric status gives that
    status, and the remaining errors give 404 for the code NOT_FOUND and 500
    for every other code. The hook itself fails only for a validation code
    with an error that has not the validation shape. Nothing but the log is
    touched. *)
Theorem onError_status prefix code err w :
  let run := createBaseRoute.onError prefix code err w in
  sameButLog w (snd run) /\
  match fst run with
  | Resolved r =>
      set_status r = hook_http_status (hook_body r) /\
      hook_success (hook_body r) = false /\
      match err with
      | BaseServerError m st => set_status r = st /\ hook_message (hook_body r) = m
      | _ =>
          if String.eqb code "VALIDATION" then set_status r = 400
          else match err with
               | OtherError m (Some st) _ =>
                   set_status r = st /\ hook_message (hook_body r) = m
               | _ => set_status r = if String.eqb code "NOT_FOUND" then 404 else 500
               end
      end
  | Rejected _ =>
      code = "VALIDATION" /\
      match err with
      | OtherError _ _ None | NotAnError _ => True
      | _ => False
      end
  end.
Proof.
  intros run. subst run.
  unfold createBaseRoute.onError, createBaseRoute.formatValidationError, sameButLog,
    await, logger.write, resolve, throw.
  destruct err as [m st|m [st|] [e|]|v|e]; simpl;
    try (repeat split; reflexivity);
    destruct (String.eqb code "VALIDATION") eqn:Hc; simpl;
    try (apply String.eqb_eq in Hc); repeat split; try reflexivity; assumption.
Qed.

Lemma body_property_truthy (m : MetaFields) (f : string) :
  In f assetRoutes.metadataSchemaRequired ->
  truthyRead (getProperty (bodyValue m) f) = present (property m f).
Proof.
  intros Hin. simpl in Hin.
  destruct m as [[a|] [b|] [c|] [d|] [e|]];
    decompose [or] Hin; subst; try contradiction; reflexivity.
Qed.

Lemma body_missing (m : MetaFields) :
  List.filter (fun f => negb (truthyRead (getProperty (bodyValue m) f)))
    assetRoutes.metadataSchemaRequired
  = missingOf m.
Proof.
  rewrite <- missingOf_schema. apply List.filter_ext_in.
  intros f Hin. now rewrite body_property_truthy.
Qed.

Lemma body_never_invalid (m : MetaFields) :
  omap (invalidOf {| se_type := "body"; se_value := Some (bodyValue m);
                     se_schema := Some metadataSchema |})
    (bodyValue m) = [].
Proof. destruct m as [[a|] [b|] [c|] [d|] [e|]]; reflexivity. Qed.

(** X24: the hook on the metadata route: for a body of strings checked
    against the schema of five required strings, the hook answers with
    status 400, reports as missing exactly the fields of the body that are
    absent or empty and nothing as invalid, and leaves the same log as the
    hook specialised to such bodies, with the same message. *)
Theorem validation_hook_on_metadata_bodies (m : MetaFields) msg st w :
  let general :=
    createBaseRoute.onError "/assets" "VALIDATION"
      (OtherError msg st
         (Some {| se_type := "body"; se_value := Some (bodyValue m);
                  se_schema := Some metadataSchema |})) w in
  let special :=
    base.onValidationError "/assets"
      {| ve_type := "body"; ve_value := m;
         schema_required := assetRoutes.metadataSchemaRequired |} w in
  snd general = snd special /\
  exists text details,
    fst general
    = Resolved {| set_status := 400;
                  hook_body :=
                    {| hook_http_status := 400; hook_success := false;
                       hook_message := text;
                       hook_content :=
                         Some (FormattedContent
                                 {| f_type := "body"; f_message := text;
                                    f_details := Analysed (missingOf m) []
                                                   (Some (bodyValue m)) |}) |} |} /\
    fst special
    = Resolved {| status := 400;
                  reply := ErrorResult (makeErrorResult text 400 details) |} /\
    fe_message details = text /\
    missing_required_fields details = missingOf m /\
    invalid_fields details = [] /\
    received_value details = m.
Proof.
  intros general special. subst general special.
  unfold createBaseRoute.onError, createBaseRoute.formatValidationError,
    base.onValidationError, base.formatValidationError, await, logger.write, resolve.
  cbn beta iota zeta.
  change (String.eqb "VALIDATION" "VALIDATION") with true. cbn beta iota zeta.
  rewrite hook_invalid_fields.
  cbn [se_value se_schema se_type default required metadataSchema
       ve_value schema_required ve_type].
  rewrite body_never_invalid, body_missing, missingOf_schema, app_nil_r.
  split; [reflexivity|].
  eexists _, {| fe_type := "body"; received_value := m |}.
  repeat split.
Qed.

(** ** The lazy initialisation of [MinioClient] *)

Ltac run_task :=
  unfold MinioClient.uploadObject, MinioClient.deleteObject, MinioClient.getPresignedUrl,
    MinioClient.ensureInitialized, MinioClient.initialize, MinioClient.construct,
    MinioClient.bucketExists, MinioClient.makeBucket, MinioClient.setInitialized,
    MinioClient.getClient, attempt, andThen, inWorld, failWith, finish,
    logger.write;
  simpl.

(** Every run of [initialize] on a singleton that is not initialised. *)
Lemma initialize_summary setup s :
  initialized s = false ->
  let run := MinioClient.initialize setup s in
  let b := bucketName setup in
  sameButLog (world s) (world (snd run)) /\
  match fst run with
  | Resolved _ =>
      initialized (snd run) = true /\
      bucket_present (snd run) = true /\
      setup_calls (snd run)
      = (setup_calls s
         ++ BucketExists b :: (if bucket_present s then [] else [MakeBucket b]))%list /\
      construct_fault setup = None /\ bucketExists_fault setup = None /\
      (bucket_present s = false -> makeBucket_fault setup = None)
  | Rejected e =>
      initialized (snd run) = false /\
      bucket_present (snd run) = bucket_present s /\
      (construct_fault setup = Some (message e) \/
       bucketExists_fault setup = Some (message e) \/
       (bucket_present s = false /\ makeBucket_fault setup = Some (message e)))
  end.
Proof.
  intros Hinit run b. subst run b. unfold sameButLog. run_task. rewrite Hinit.
  destruct (construct_fault setup); simpl; [repeat split; auto|].
  destruct (bucketExists_fault setup); simpl; [repeat split; auto|].
  destruct (bucket_present s) eqn:Hb; simpl; [repeat split; auto; discriminate|].
  destruct (makeBucket_fault setup); simpl; repeat split; auto.
  rewrite <- app_assoc. reflexivity.
Qed.

(** X25: what [initialize] does on a singleton that is not initialised: it
    asks whether the bucket exists and creates it only when it does not;
    when it resolves the singleton is initialised and the bucket exists; when
    the construction or a call fails it rejects with that error, the
    singleton stays uninitialised, so that the next operation tries again.
    It resolves exactly when nothing fails, and touches nothing of the world
    but the log. *)
Theorem initialize_outcome setup s :
  initialized s = false ->
  let run := MinioClient.initialize setup s in
  let b := bucketName setup in
  sameButLog (world s) (world (snd run)) /\
  match fst run with
  | Resolved _ =>
      initialized (snd run) = true /\
      bucket_present (snd run) = true /\
      setup_calls (snd run)
      = (setup_calls s
         ++ BucketExists b :: (if bucket_present s then [] else [MakeBucket b]))%list /\
      construct_fault setup = None /\ bucketExists_fault setup = None /\
      (bucket_present s = false -> makeBucket_fault setup = None)
  | Rejected e =>
      initialized (snd run) = false /\
      bucket_present (snd run) = bucket_present s /\
      (construct_fault setup = Some (message e) \/
       bucketExists_fault setup = Some (message e) \/
       (bucket_present s = false /\ makeBucket_fault setup = Some (message e)))
  end.
Proof.
  exact (initialize_summary setup s).
Qed.

Lemma initialize_outcome_witness :
  let run := MinioClient.initialize defaultSetup (freshStorage emptyWorld) in
  let b := bucketName defaultSetup in
  initialized (freshStorage emptyWorld) = false /\
  sameButLog (world (freshStorage emptyWorld)) (world (snd run)) /\
  match fst run with
  | Resolved _ =>
      initialized (snd run) = true /\
      bucket_present (snd run) = true /\
      setup_calls (snd run)
      = (setup_calls (freshStorage emptyWorld)
         ++ BucketExists b :: (if bucket_present (freshStorage emptyWorld) then []
                               else [MakeBucket b]))%list /\
      construct_fault defaultSetup = None /\ bucketExists_fault defaultSetup = None /\
      (bucket_present (freshStorage emptyWorld) = false ->
       makeBucket_fault defaultSetup = None)
  | Rejected e =>
      initialized (snd run) = false /\
      bucket_present (snd run) = bucket_present (freshStorage emptyWorld) /\
      (construct_fault defaultSetup = Some (message e) \/
       bucketExists_fault defaultSetup = Some (message e) \/
       (bucket_present (freshStorage emptyWorld) = false
        /\ makeBucket_fault defaultSetup = Some (message e)))
  end.
Proof.
  intros run b. split; [reflexivity|].
  exact (initialize_outcome defaultSetup (freshStorage emptyWorld) eq_refl).
Defined.

(** X26: [initialize] is done once: after an [initialize] that resolved, a
    further [initialize], under any configuration and whatever the object
    store would answer, issues no call, writes no log and changes nothing,
    and [getClient] hands out the client; before, [getClient] throws. *)
Theorem initialize_once setup s :
  fst (MinioClient.initialize setup s) = Resolved tt ->
  let s' := snd (MinioClient.initialize setup s) in
  (forall setup', MinioClient.initialize setup' s' = (Resolved tt, s')) /\
  MinioClient.getClient s' = (Resolved true, s') /\
  (initialized s = false ->
   fst (MinioClient.getClient s)
   = Rejected (LibraryError "MinIO client not initialized. Call initialize() first.")).
Proof.
  intros Hok s'.
  assert (Hinit : initialized s' = true).
  { subst s'. destruct (initialized s) eqn:Hi.
    - unfold MinioClient.initialize. rewrite Hi. exact Hi.
    - pose proof (initialize_summary setup s Hi) as (_ & H).
      rewrite Hok in H. apply H. }
  split; [|split].
  - intros setup'. unfold MinioClient.initialize. now rewrite Hinit.
  - unfold MinioClient.getClient. now rewrite Hinit.
  - intros Hi. unfold MinioClient.getClient. now rewrite Hi.
Qed.

Lemma initialize_once_witness :
  let s := freshStorage emptyWorld in
  let s' := snd (MinioClient.initialize defaultSetup s) in
  fst (MinioClient.initialize defaultSetup s) = Resolved tt /\
  (forall setup', MinioClient.initialize setup' s' = (Resolved tt, s')) /\
  MinioClient.getClient s' = (Resolved true, s') /\
  (initialized s = false ->
   fst (MinioClient.getClient s)
   = Rejected (LibraryError "MinIO client not initialized. Call initialize() first.")).
Proof.
  intros s s'. split; [reflexivity|].
  exact (initialize_once defaultSetup (freshStorage emptyWorld) eq_refl).
Defined.

(** X27: every upload initialises first. On an initialised singleton
    [uploadObject] is the upload itself: same outcome, same world, no setup
    call. On a singleton that is not initialised, a failing initialisation
    makes the upload reject with the error of the initialisation, and then no
    object is put and the bucket is as before; a successful one is followed
    by the upload on the world it leaves. *)
Theorem upload_initialises_first setup env objectName data size contentType s :
  let run := MinioClient.uploadObject setup env objectName data size contentType s in
  let plain w := uploadObject env objectName data size contentType w in
  if initialized s
  then fst run = fst (plain (world s)) /\
       world (snd run) = snd (plain (world s)) /\
       setup_calls (snd run) = setup_calls s /\
       initialized (snd run) = true
  else match MinioClient.initialize setup s with
       | (Rejected e, s1) =>
           run = (Rejected e, s1) /\
           calls (world (snd run)) = calls (world s) /\
           bucket (world (snd run)) = bucket (world s)
       | (Resolved _, s1) =>
           fst run = fst (plain (world s1)) /\
           world (snd run) = snd (plain (world s1)) /\
           initialized (snd run) = true
       end.
Proof.
  intros run plain. subst run plain.
  destruct (initialized s) eqn:Hi.
  - unfold MinioClient.uploadObject, MinioClient.ensureInitialized, andThen, inWorld.
    rewrite Hi. simpl.
    destruct (uploadObject env objectName data size contentType (world s)) as [o w'].
    repeat split. exact Hi.
  - pose proof (initialize_summary setup s Hi) as (Hsame & Hout).
    unfold MinioClient.uploadObject, MinioClient.ensureInitialized, andThen, inWorld.
    rewrite Hi. simpl.
    destruct (MinioClient.initialize setup s) as [[[]|e] s1]; simpl in *.
    + destruct (uploadObject env objectName data size contentType (world s1)) as [o w'].
      repeat split. apply Hout.
    + destruct Hsame as (Hb & _ & _ & _ & Hc). repeat split; assumption.
Qed.
